(** * Launchpad-Scout dashboard: master-table assembly and filtering

    A shallow embedding of [Dashboard/app.py]: the remote reader's key
    resolution, [derive_primary_industry], [format_usd],
    [prepare_master_table] and [apply_filters], over a small model of the
    pandas operations the code calls (column selection, left merge with
    suffixes, [fillna], [map], [apply], [isin], [str.contains],
    [sort_values]).

    Conventions.
    - A Python exception is a [Raise]; every function that can raise returns
      a [result].
    - A table is its list of column names and its rows; a row maps column
      names to cells.  Cells carry their own Python type; column dtypes are
      not tracked, so the upcasting of a column and the dtype checks of
      pandas (merging keys of different dtypes, [.str] on a numeric column)
      are not modelled.
    - A Python [float] is a binary64 with the operations of [SpecFloat];
      [int] is unbounded.
    - Text is a [string] of 8-bit characters; case folding is ASCII.
    - A merge whose suffixes make two columns collide raises, as in
      pandas 2.
    - [sort_values] keeps rows with equal keys in their order; pandas'
      default sort leaves that order open, and nothing below depends on it.
    - The one-hour cache around the readers is not modelled.
    - [Unsupported] is not a Python exception: it marks the inputs this
      model makes no statement about (regular-expression operators other
      than the full stop). *)

From Stdlib Require Import ZArith String Ascii List Bool Lia SpecFloat.
From stdpp Require Import base option list gmap strings sorting pretty.

Local Open Scope string_scope.
Local Open Scope Z_scope.

(** ** Exceptions *)

Inductive exn :=
| KeyError (key : string)
| TypeError
| MergeError
| OverflowError
| Unsupported (what : string).

Inductive result (A : Type) :=
| Ok (a : A)
| Raise (e : exn).
Arguments Ok {A} a.
Arguments Raise {A} e.

#[global] Instance result_bind : MBind result := fun A B k m =>
  match m with
  | Ok a => k a
  | Raise e => Raise e
  end.

(** Run [f] over a list, stopping at the first exception. *)
Fixpoint traverse {A B} (f : A -> result B) (l : list A) : result (list B) :=
  match l with
  | [] => Ok []
  | a :: l' => b ← f a; bs ← traverse f l'; Ok (b :: bs)
  end.

(** ** Python string predicates *)

Module Str.

(** [s.startswith(p)] *)
Fixpoint startswith (s p : string) : bool :=
  match p, s with
  | EmptyString, _ => true
  | String _ _, EmptyString => false
  | String a p', String b s' => Ascii.eqb a b && startswith s' p'
  end.

(** [sub in s] *)
Fixpoint contains (s sub : string) : bool :=
  startswith s sub ||
  match s with
  | EmptyString => false
  | String _ s' => contains s' sub
  end.

(** [s.endswith(suf)] *)
Fixpoint endswith (s suf : string) : bool :=
  String.eqb s suf ||
  match s with
  | EmptyString => false
  | String _ s' => endswith s' suf
  end.

End Str.

(** ** Constants *)

Definition BUCKET : string := "startup-momentum-pipeline".

Definition S3_KEYS : list (string * string) :=
  [ ("scores", "modeling/company_scores.csv");
    ("hiring", "modeling/hiring_friendliness_scores.csv");
    ("features", "modeling/features.parquet");
    ("metadata", "modeling/feature_metadata.csv");
    ("spine", "cleaned/spine_cleaned.parquet") ].

Definition INDUSTRY_MAP : list (string * string) :=
  [ ("ind_ai", "AI");
    ("ind_software", "Software");
    ("ind_it", "IT");
    ("ind_saas", "SaaS");
    ("ind_healthcare", "Healthcare");
    ("ind_fintech", "FinTech");
    ("ind_financial", "Financial Services");
    ("ind_ml", "Machine Learning");
    ("ind_manufacturing", "Manufacturing");
    ("ind_biotech", "Biotech");
    ("ind_genai", "Generative AI");
    ("ind_devtools", "Developer Tools") ].

(** ** Remote reader: which object is fetched *)

Module RemoteReader.

(** The [Key]s of [resp.get("Contents", [])] kept by the comprehension
    [[obj["Key"] for obj in contents
      if obj["Key"].endswith(ext) and "/_" not in obj["Key"]]]. *)
Definition data_files (ext : string) (contents : list string) : list string :=
  List.filter (fun k => Str.endswith k ext && negb (Str.contains k "/_")) contents.

(** [target_key = files[0] if files else key] *)
Definition target_key (ext : string) (contents : list string) (key : string) : string :=
  match data_files ext contents with
  | k :: _ => k
  | [] => key
  end.

Section Client.
(** The object store as the two calls made on the client (for the fixed
    [BUCKET]), and the decoding of a fetched body, which the code leaves to
    [pd.read_csv] / [pd.read_parquet]. *)
Context {Body Table : Type}.
Variable list_objects_v2 : string -> string -> result (list string).
Variable get_object : string -> string -> result Body.
Variable pd_read_csv pd_read_parquet : Body -> result Table.

Definition read_csv_from_s3 (key : string) : result Table :=
  contents ← list_objects_v2 BUCKET key;
  let csv_files := data_files ".csv" contents in
  let target_key := match csv_files with k :: _ => k | [] => key end in
  obj ← get_object BUCKET target_key;
  pd_read_csv obj.

Definition read_parquet_from_s3 (key : string) : result Table :=
  contents ← list_objects_v2 BUCKET key;
  let pq_files := data_files ".parquet" contents in
  let target_key := match pq_files with k :: _ => k | [] => key end in
  obj ← get_object BUCKET target_key;
  pd_read_parquet obj.
End Client.

End RemoteReader.

(** ** Cells and Python numbers *)

(** A Python [float] is an IEEE 754 binary64, as [spec_float] with the
    operations of [SpecFloat] at precision 53. *)
Definition prec : Z := 53.
Definition emax : Z := 1024.

Inductive cell :=
| PyNone
| PyStr (s : string)
| PyBool (b : bool)
| PyInt (z : Z)
| PyFloat (f : spec_float).

(** [np.nan], the value pandas writes where a value is missing. *)
Definition NaN : cell := PyFloat S754_nan.

(** [pd.isna(value)] on a scalar *)
Definition isna (value : cell) : bool :=
  match value with
  | PyNone => true
  | PyFloat S754_nan => true
  | _ => false
  end.

(** The exact value of a Python number: an integer mantissa times a power of
    two, or an infinity.  Python compares [int] with [float] exactly. *)
Inductive xnum :=
| NegInf
| Fin (m e : Z)
| PosInf.

Definition num_of_cell (c : cell) : option xnum :=
  match c with
  | PyBool b => Some (Fin (Z.b2z b) 0)
  | PyInt z => Some (Fin z 0)
  | PyFloat (S754_zero _) => Some (Fin 0 0)
  | PyFloat (S754_finite s m e) => Some (Fin (cond_Zopp s (Zpos m)) e)
  | PyFloat (S754_infinity s) => Some (if s then NegInf else PosInf)
  | PyFloat S754_nan | PyNone | PyStr _ => None
  end.

Definition xnum_compare (a b : xnum) : comparison :=
  match a, b with
  | NegInf, NegInf => Eq
  | NegInf, _ => Lt
  | _, NegInf => Gt
  | PosInf, PosInf => Eq
  | PosInf, _ => Gt
  | _, PosInf => Lt
  | Fin m1 e1, Fin m2 e2 =>
      let e := Z.min e1 e2 in
      Z.compare (m1 * 2 ^ (e1 - e)) (m2 * 2 ^ (e2 - e))
  end.

(** Python scalar [a >= b]: numbers compare by value, a NaN compares false,
    strings compare with strings; anything else is a [TypeError]. *)
Definition py_ge (a b : cell) : result bool :=
  match a, b with
  | PyStr s1, PyStr s2 => Ok (negb (String.ltb s1 s2))
  | PyFloat S754_nan, (PyBool _ | PyInt _ | PyFloat _) => Ok false
  | (PyBool _ | PyInt _ | PyFloat _), PyFloat S754_nan => Ok false
  | _, _ =>
      match num_of_cell a, num_of_cell b with
      | Some x, Some y =>
          Ok (match xnum_compare x y with Lt => false | _ => true end)
      | _, _ => Raise TypeError
      end
  end.

(** [float(z)]: the nearest double, [OverflowError] beyond the double range. *)
Definition float_of_int (z : Z) : result spec_float :=
  match binary_normalize prec emax z 0 false with
  | S754_infinity _ => Raise OverflowError
  | f => Ok f
  end.

(** [value / d] for a positive integer constant [d].  [int / int] is Python's
    correctly rounded true division; [float / int] converts [d] and divides
    in binary64. *)
Definition py_truediv (value : cell) (d : positive) : result spec_float :=
  let int_div (z : Z) :=
    match z with
    | Z0 => Ok (S754_zero false)
    | Zpos m | Zneg m =>
        match SFdiv prec emax (S754_finite (z <? 0) m 0) (S754_finite false d 0) with
        | S754_infinity _ => Raise OverflowError
        | q => Ok q
        end
    end in
  match value with
  | PyInt z => int_div z
  | PyBool b => int_div (Z.b2z b)
  | PyFloat f => Ok (SFdiv prec emax f (binary_normalize prec emax (Zpos d) 0 false))
  | PyNone | PyStr _ => Raise TypeError
  end.

(** ** Fixed-point formatting: the format specs [.1f], [.0f] and [,.0f] *)

Module Fmt.

(** Round the non-negative rational [n / d] to an integer, ties to even. *)
Definition round_half_even (n d : Z) : Z :=
  let q := n / d in
  let r := n mod d in
  match Z.compare (2 * r) d with
  | Lt => q
  | Gt => q + 1
  | Eq => if Z.even q then q else q + 1
  end.

(** [|x| * 10^p] rounded to an integer, for a finite [x = m * 2^e]. *)
Definition scaled (p : nat) (m : positive) (e : Z) : Z :=
  let t := 10 ^ Z.of_nat p in
  if 0 <=? e then Zpos m * 2 ^ e * t
  else round_half_even (Zpos m * t) (2 ^ (- e)).

Fixpoint zeros (n : nat) : string :=
  match n with
  | O => ""
  | S n' => String "0" (zeros n')
  end.

(** Insert the thousands separator, walking the reversed integer digits;
    [k] counts the digits since the last comma. *)
Fixpoint commas_rev (l : list ascii) (k : nat) : list ascii :=
  match l with
  | [] => []
  | c :: l' =>
      match k with
      | 3%nat => ","%char :: c :: commas_rev l' 1
      | _ => c :: commas_rev l' (S k)
      end
  end.

Definition group_thousands (digits : string) : string :=
  string_of_list_ascii
    (rev (commas_rev (rev (list_ascii_of_string digits)) 0)).

(** The decimal digits of [n], left-padded with zeros to [width] places. *)
Definition digits (width : nat) (n : N) : string :=
  let ds := pretty n in
  zeros (width - String.length ds) +:+ ds.

(** The scaled integer [n] written with its last [p] digits after the
    point. *)
Definition fixed (grouping : bool) (p : nat) (n : Z) : string :=
  let t := 10 ^ Z.of_nat p in
  let ip := pretty (Z.to_N (n / t)) in
  (if grouping then group_thousands ip else ip) +:+
  (match p with O => "" | _ => "." +:+ digits p (Z.to_N (n mod t)) end).

(** [format(x, ".<p>f")], with [","] when [grouping]. *)
Definition format_f (grouping : bool) (p : nat) (x : spec_float) : string :=
  match x with
  | S754_nan => "nan"
  | S754_infinity s => if s then "-inf" else "inf"
  | S754_zero s => (if s then "-" else "") +:+ fixed grouping p 0
  | S754_finite s m e =>
      (if s then "-" else "") +:+ fixed grouping p (scaled p m e)
  end.

End Fmt.

(** ** format_usd *)

(** [f"{value:<spec>f}"] for a number: an [int] is converted with [float()]
    first. *)
Definition py_format_f (grouping : bool) (p : nat) (value : cell) : result string :=
  match value with
  | PyFloat f => Ok (Fmt.format_f grouping p f)
  | PyInt z => f ← float_of_int z; Ok (Fmt.format_f grouping p f)
  | PyBool b => f ← float_of_int (Z.b2z b); Ok (Fmt.format_f grouping p f)
  | PyNone | PyStr _ => Raise TypeError
  end.

Definition format_usd (value : cell) : result string :=
  if isna value then Ok "N/A"
  else
    ge_m ← py_ge value (PyInt 1000000);
    if ge_m : bool then
      q ← py_truediv value 1000000;
      Ok ("$" +:+ Fmt.format_f false 1 q +:+ "M")
    else
      ge_k ← py_ge value (PyInt 1000);
      if ge_k : bool then
        q ← py_truediv value 1000;
        Ok ("$" +:+ Fmt.format_f false 0 q +:+ "K")
      else
        s ← py_format_f true 0 value;
        Ok ("$" +:+ s).

(** ** Regular expressions: the fragment of [re] used below *)

Module Re.

Inductive atom :=
| Lit (c : ascii)
| AnyChar.

(** The characters [re] gives a meaning to. *)
Definition is_special (c : ascii) : bool :=
  Str.contains ".^$*+?{}[]\|()" (String c "").

(** [re.compile(pat)] for a pattern of literal characters and [.]. *)
Fixpoint compile (pat : string) : result (list atom) :=
  match pat with
  | EmptyString => Ok []
  | String c pat' =>
      if Ascii.eqb c "." then rest ← compile pat'; Ok (AnyChar :: rest)
      else if is_special c then Raise (Unsupported pat)
      else rest ← compile pat'; Ok (Lit c :: rest)
  end.

Definition lower (c : ascii) : ascii :=
  let n := nat_of_ascii c in
  if ((65 <=? n) && (n <=? 90))%nat then ascii_of_nat (n + 32) else c.

(** One pattern item against one character; [.] matches anything but a
    newline. *)
Definition atom_match (ignorecase : bool) (a : atom) (t : ascii) : bool :=
  match a with
  | Lit c => if ignorecase then Ascii.eqb (lower c) (lower t) else Ascii.eqb c t
  | AnyChar => negb (Ascii.eqb t "010")
  end.

(** The pattern matches at the start of [text]. *)
Fixpoint match_here (ignorecase : bool) (atoms : list atom) (text : string) : bool :=
  match atoms, text with
  | [], _ => true
  | _ :: _, EmptyString => false
  | a :: atoms', String t text' =>
      atom_match ignorecase a t && match_here ignorecase atoms' text'
  end.

(** [pattern.search(text) is not None] *)
Fixpoint search (ignorecase : bool) (atoms : list atom) (text : string) : bool :=
  match_here ignorecase atoms text ||
  match text with
  | EmptyString => false
  | String _ text' => search ignorecase atoms text'
  end.

End Re.

(** ** Tables *)

(** Python [a == b] on scalars: numbers by value (so [True == 1 == 1.0]),
    strings by content; a NaN equals nothing. *)
Definition py_eq (a b : cell) : bool :=
  match a, b with
  | PyStr s1, PyStr s2 => String.eqb s1 s2
  | PyNone, PyNone => true
  | _, _ =>
      match num_of_cell a, num_of_cell b with
      | Some x, Some y => match xnum_compare x y with Eq => true | _ => false end
      | _, _ => false
      end
  end.

(** A row maps column names to cells; a name it does not hold reads as
    missing. *)
Definition get (r : gmap string cell) (c : string) : cell :=
  default NaN (r !! c).

Record DataFrame := {
  columns : list string;
  rows : list (gmap string cell)
}.

(** The dict returned by [load_all_data]: [Data.scores data] is
    [data["scores"]]. *)
Module Data.
Record Bundle := {
  scores : DataFrame;
  hiring : DataFrame;
  features : DataFrame;
  metadata : DataFrame;
  spine : DataFrame
}.
End Data.

Module pd.

(** [df[c]]: the column as a list of cells, in row order. *)
Definition getitem (df : DataFrame) (c : string) : result (list cell) :=
  if decide (c ∈ columns df) then Ok (map (fun r => get r c) (rows df))
  else Raise (KeyError c).

(** The row [r] cut down to the columns [cols]. *)
Definition restrict (cols : list string) (r : gmap string cell) : gmap string cell :=
  list_to_map (map (fun c => (c, get r c)) cols).

(** [df[[c1, ..., cn]]] *)
Definition getitem_cols (df : DataFrame) (cols : list string) : result DataFrame :=
  match filter (fun c => c ∉ columns df) cols with
  | c :: _ => Raise (KeyError c)
  | [] => Ok {| columns := cols; rows := map (restrict cols) (rows df) |}
  end.

(** [df[c] = values]: overwrite the column, or append it. *)
Definition setitem (df : DataFrame) (c : string) (values : list cell) : DataFrame :=
  {| columns := if decide (c ∈ columns df) then columns df else (columns df ++ [c])%list;
     rows := zip_with (fun r v => <[c:=v]> r) (rows df) values |}.

(** [df.drop(columns=[c], inplace=True)] *)
Definition drop (df : DataFrame) (c : string) : result DataFrame :=
  if decide (c ∈ columns df) then
    Ok {| columns := filter (fun c' => c' ≠ c) (columns df);
          rows := map (delete c) (rows df) |}
  else Raise (KeyError c).

(** [s.fillna(other)] with a series aligned row by row *)
Definition fillna_series (s other : list cell) : list cell :=
  zip_with (fun v o => if isna v then o else v) s other.

(** [s.fillna(value)] with a scalar *)
Definition fillna (s : list cell) (value : cell) : list cell :=
  map (fun v => if isna v then value else v) s.

(** [s.map(d)] for a dict [d]: a value with no key in [d] becomes NaN. *)
Definition map_dict (d : list (cell * string)) (s : list cell) : list cell :=
  map (fun v =>
         match List.find (fun kv => py_eq (fst kv) v) d with
         | Some kv => PyStr (snd kv)
         | None => NaN
         end) s.

(** Join keys match when equal, and a missing key matches a missing key;
    a string never matches a number. *)
Definition key_match (a b : cell) : bool :=
  (isna a && isna b) || py_eq a b.

Definition join_row (lnames rnames : list (string * string))
    (l : gmap string cell) (r : option (gmap string cell)) : gmap string cell :=
  list_to_map
    (map (fun cn => (snd cn, get l (fst cn))) lnames ++
     map (fun cn => (snd cn, match r with Some r' => get r' (fst cn) | None => NaN end))
         rnames)%list.

(** A column other than the key that both sides carry. *)
Definition overlap (left right : DataFrame) (on c : string) : bool :=
  bool_decide (c ≠ on ∧ c ∈ columns left ∧ c ∈ columns right).

(** The name a column gets in the merged table. *)
Definition suffixed (left right : DataFrame) (on suffix c : string) : string :=
  if overlap left right on c then c +:+ suffix else c.

(** [left.merge(right, on=on, how="left", suffixes=suffixes)].
    Every left row is kept, once per matching right row (in the right
    table's order) or once with missing values when nothing matches.
    A column other than [on] carried by both sides is renamed with the
    suffixes; a renaming that makes two columns collide is refused
    ([MergeError], as pandas 2 does). *)
Definition merge (left right : DataFrame) (on : string)
    (suffixes : string * string) : result DataFrame :=
  if decide (on ∈ columns left) then
    if decide (on ∈ columns right) then
      let lnames :=
        map (fun c => (c, suffixed left right on (fst suffixes) c)) (columns left) in
      let rnames :=
        map (fun c => (c, suffixed left right on (snd suffixes) c))
            (filter (fun c => c ≠ on) (columns right)) in
      let out := (map snd lnames ++ map snd rnames)%list in
      if decide (NoDup out) then
        Ok {| columns := out;
              rows :=
                flat_map
                  (fun l =>
                     match List.filter (fun r => key_match (get l on) (get r on))
                                       (rows right) with
                     | [] => [join_row lnames rnames l None]
                     | ms => map (fun r => join_row lnames rnames l (Some r)) ms
                     end)
                  (rows left) |}
      else Raise MergeError
    else Raise (KeyError on)
  else Raise (KeyError on).

(** Order used by [sort_values] on the keys that are present. *)
Definition cell_le (a b : cell) : Prop :=
  match num_of_cell a, num_of_cell b with
  | Some x, Some y => xnum_compare x y ≠ Gt
  | _, _ =>
      match a, b with
      | PyStr s1, PyStr s2 => String.leb s1 s2 = true
      | _, _ => True
      end
  end.

#[global] Instance cell_le_dec a b : Decision (cell_le a b).
Proof.
  unfold cell_le.
  destruct (num_of_cell a), (num_of_cell b); try apply _;
    destruct a; try apply _; destruct b; apply _.
Defined.

Definition is_number (c : cell) : bool :=
  match num_of_cell c with Some _ => true | None => false end.

Definition is_str (c : cell) : bool :=
  match c with PyStr _ => true | _ => false end.

(** [df.sort_values(by).reset_index(drop=True)]: ascending, missing keys
    last.  Numbers sort among numbers and strings among strings; a column
    mixing them cannot be ordered ([TypeError]).  Rows with equal keys keep
    their relative order here; pandas' default sort does not promise an
    order among them. *)
Definition sort_values (df : DataFrame) (by_ : string) : result DataFrame :=
  keys ← getitem df by_;
  let present := List.filter (fun k => negb (isna k)) keys in
  if forallb is_number present || forallb is_str present then
    let has r := negb (isna (get r by_)) in
    Ok {| columns := columns df;
          rows := (merge_sort (fun r1 r2 => cell_le (get r1 by_) (get r2 by_))
                     (List.filter has (rows df))
                   ++ List.filter (fun r => negb (has r)) (rows df))%list |}
  else Raise TypeError.

(** [df[mask]] for a boolean mask aligned row by row *)
Definition loc_mask (df : DataFrame) (mask : list bool) : DataFrame :=
  {| columns := columns df;
     rows := map fst (List.filter snd (zip (rows df) mask)) |}.

(** [s >= n] element by element: a missing value gives [False]. *)
Definition ge (s : list cell) (n : cell) : result (list bool) :=
  traverse (fun v => if isna v then Ok false else py_ge v n) s.

(** [s.isin(values)] for a list of strings *)
Definition isin (s : list cell) (values : list string) : list bool :=
  map (fun v => match v with
                | PyStr x => bool_decide (x ∈ values)
                | _ => false
                end) s.

(** [s.str.contains(pat, case=case, na=False)] on a column of object dtype:
    [pat] is compiled as a regular expression ([regex=True] is the
    default), with [re.IGNORECASE] unless [case]; a cell that is not a
    string gives [False]. *)
Definition str_contains (s : list cell) (pat : string) (case : bool) : result (list bool) :=
  atoms ← Re.compile pat;
  Ok (map (fun v => match v with
                    | PyStr x => Re.search (negb case) atoms x
                    | _ => false
                    end) s).

End pd.

(** ** Data preparation *)

Definition float_lit (z : Z) : cell := PyFloat (binary_normalize prec emax z 0 false).

Definition FUNDING_STAGE_LABELS : list (cell * string) :=
  [ (float_lit 0, "Pre-Seed / Angel");
    (float_lit 1, "Seed");
    (float_lit 2, "Series A");
    (float_lit 3, "Series B");
    (float_lit 4, "Post-IPO") ].

(** The loop of [derive_primary_industry] over the remaining items of
    [INDUSTRY_MAP]; [row.get(col, 0)] reads 0 for a column the row lacks. *)
Fixpoint first_industry (items : list (string * string)) (row : gmap string cell) : string :=
  match items with
  | [] => "Other"
  | (col, label) :: items' =>
      if py_eq (default (PyInt 0) (row !! col)) (PyInt 1) then label
      else first_industry items' row
  end.

Definition derive_primary_industry (row : gmap string cell) : string :=
  first_industry INDUSTRY_MAP row.

Definition spine_cols : list string :=
  [ "company_id"; "name"; "industries"; "hq_location"; "description_combined";
    "city"; "state"; "country"; "total_funding_usd"; "last_funding_date";
    "last_funding_type"; "num_employees"; "website"; "linkedin";
    "top_investors"; "num_investors"; "founded_date" ].

(** Merge hiring scores + momentum scores + spine metadata into one table. *)
Definition prepare_master_table (data : Data.Bundle) : result DataFrame :=
  let hiring := Data.hiring data in
  scores ← pd.getitem_cols (Data.scores data)
             ["company_id"; "momentum_score"; "momentum_tier"; "momentum_rank"];
  spine ← pd.getitem_cols (Data.spine data)
            (filter (fun c => c ∈ columns (Data.spine data)) spine_cols);
  let features := Data.features data in
  (* Merge *)
  df ← pd.merge hiring scores "company_id" ("_x", "_y");
  df ← pd.merge df spine "company_id" ("", "_spine");
  (* Use spine name if hiring name is missing *)
  df ← (if decide ("name_spine" ∈ columns df) then
          name ← pd.getitem df "name";
          name_spine ← pd.getitem df "name_spine";
          pd.drop (pd.setitem df "name" (pd.fillna_series name name_spine)) "name_spine"
        else Ok df);
  (* Derive funding stage label from scores data *)
  scores_full ← pd.getitem_cols (Data.scores data) ["company_id"; "funding_stage"];
  df ← pd.merge df scores_full "company_id" ("", "_dup");
  funding_stage ← pd.getitem df "funding_stage";
  let df := pd.setitem df "funding_stage_label"
              (pd.fillna (pd.map_dict FUNDING_STAGE_LABELS funding_stage)
                         (PyStr "Unknown")) in
  (* Derive primary industry from features *)
  let ind_cols :=
    "company_id" :: List.filter (fun c => Str.startswith c "ind_") (columns features) in
  ind_df ← pd.getitem_cols features ind_cols;
  let ind_df := pd.setitem ind_df "primary_industry"
                  (map (fun row => PyStr (derive_primary_industry row)) (rows ind_df)) in
  ind ← pd.getitem_cols ind_df ["company_id"; "primary_industry"];
  df ← pd.merge df ind "company_id" ("_x", "_y");
  (* Has job postings flag *)
  df ← (if decide ("has_job_postings" ∈ columns features) then
          jobs ← pd.getitem_cols features ["company_id"; "has_job_postings"];
          pd.merge df jobs "company_id" ("_x", "_y")
        else Ok df);
  (* Format total funding for display *)
  total_funding_usd ← pd.getitem df "total_funding_usd";
  display ← traverse (fun v => s ← format_usd v; Ok (PyStr s)) total_funding_usd;
  let df := pd.setitem df "total_funding_display" display in
  (* Sort by hiring rank *)
  pd.sort_values df "hiring_rank".

(** ** Filters *)

(** The sidebar filters.  [min_score] is the slider's integer; the three
    selections are lists of labels, as the multiselect widgets of [main]
    return them; [search] is the text typed. *)
Definition apply_filters (df : DataFrame) (min_score : Z)
    (tiers industries stages : list string) (search : string) : result DataFrame :=
  let filtered := df in
  filtered ← (if 0 <? min_score then
                hiring_score ← pd.getitem filtered "hiring_score";
                mask ← pd.ge hiring_score (PyInt min_score);
                Ok (pd.loc_mask filtered mask)
              else Ok filtered);
  filtered ← (match tiers with
              | _ :: _ =>
                  momentum_tier ← pd.getitem filtered "momentum_tier";
                  Ok (pd.loc_mask filtered (pd.isin momentum_tier tiers))
              | [] => Ok filtered
              end);
  filtered ← (match industries with
              | _ :: _ =>
                  primary_industry ← pd.getitem filtered "primary_industry";
                  Ok (pd.loc_mask filtered (pd.isin primary_industry industries))
              | [] => Ok filtered
              end);
  filtered ← (match stages with
              | _ :: _ =>
                  funding_stage_label ← pd.getitem filtered "funding_stage_label";
                  Ok (pd.loc_mask filtered (pd.isin funding_stage_label stages))
              | [] => Ok filtered
              end);
  filtered ← (match search with
              | String _ _ =>
                  name ← pd.getitem filtered "name";
                  mask ← pd.str_contains name search false;
                  Ok (pd.loc_mask filtered mask)
              | EmptyString => Ok filtered
              end);
  Ok filtered.

(** The tier options offered (and preselected) by [main]. *)
Definition all_tiers : list string :=
  ["Very High"; "High"; "Moderate"; "Low"; "Very Low"].

(** ** Loading the five tables *)

Module Loader.

(** [S3_KEYS[name]] *)
Definition s3_key (name : string) : result string :=
  match List.find (fun nk => String.eqb (fst nk) name) S3_KEYS with
  | Some nk => Ok (snd nk)
  | None => Raise (KeyError name)
  end.

Section Client.
Context {Body : Type}.
Variable list_objects_v2 : string -> string -> result (list string).
Variable get_object : string -> string -> result Body.
Variable pd_read_csv pd_read_parquet : Body -> result DataFrame.

Local Abbreviation read_csv_from_s3 :=
  (RemoteReader.read_csv_from_s3 list_objects_v2 get_object pd_read_csv).
Local Abbreviation read_parquet_from_s3 :=
  (RemoteReader.read_parquet_from_s3 list_objects_v2 get_object pd_read_parquet).

(** Load all datasets from S3 and return as a dictionary. *)
Definition load_all_data : result Data.Bundle :=
  scores ← (key ← s3_key "scores"; read_csv_from_s3 key);
  hiring ← (key ← s3_key "hiring"; read_csv_from_s3 key);
  features ← (key ← s3_key "features"; read_parquet_from_s3 key);
  metadata ← (key ← s3_key "metadata"; read_csv_from_s3 key);
  spine ← (key ← s3_key "spine"; read_parquet_from_s3 key);
  Ok {| Data.scores := scores; Data.hiring := hiring; Data.features := features;
        Data.metadata := metadata; Data.spine := spine |}.
End Client.

End Loader.

(** ** The ranked table and the sidebar options *)

Module Render.

(** The name [df.rename(columns=mapping)] gives to column [c]. *)
Definition new_name (mapping : list (string * string)) (c : string) : string :=
  match List.find (fun kv => String.eqb (fst kv) c) mapping with
  | Some kv => snd kv
  | None => c
  end.

(** [df.rename(columns=mapping)].  pandas lets a renaming give two columns
    one name; a table with such columns is not representable here. *)
Definition rename (df : DataFrame) (mapping : list (string * string)) : result DataFrame :=
  let names := map (new_name mapping) (columns df) in
  if decide (NoDup names) then
    Ok {| columns := names;
          rows := map (fun r =>
                         list_to_map
                           (map (fun c => (new_name mapping c, get r c)) (columns df)))
                      (rows df) |}
  else Raise (Unsupported "two columns of one name").

Definition display_cols : list (string * string) :=
  [ ("hiring_rank", "Rank");
    ("name", "Company");
    ("hiring_score", "Hiring Score");
    ("hiring_tier", "Hiring Tier");
    ("momentum_score", "Momentum");
    ("momentum_tier", "Momentum Tier");
    ("primary_industry", "Industry");
    ("funding_stage_label", "Stage");
    ("total_funding_display", "Total Funding") ].

(** The table handed to [st.dataframe], which is also the value returned. *)
Definition render_company_table (df : DataFrame) : result DataFrame :=
  selected ← pd.getitem_cols df (map fst display_cols);
  rename selected display_cols.

(** [s.dropna()] *)
Definition dropna (s : list cell) : list cell :=
  List.filter (fun v => negb (isna v)) s.

(** [s.unique()] on text: the distinct values, in order of first
    appearance. *)
Fixpoint unique (l : list string) : list string :=
  match l with
  | [] => []
  | x :: l' => x :: List.filter (fun y => negb (String.eqb x y)) (unique l')
  end.

(** The order of Python strings. *)
Definition str_le (a b : string) : Prop := String.leb a b = true.

#[global] Instance str_le_dec a b : Decision (str_le a b).
Proof. unfold str_le. apply _. Defined.

(** [sorted(values)] on text *)
Definition sorted (l : list string) : list string := merge_sort str_le l.

(** [sorted(df[col].dropna().unique())], the options of a multiselect.
    [apply_filters] takes the selection as a list of strings, so a column
    with another kind of value among its options is left out
    ([Unsupported]). *)
Definition options (df : DataFrame) (col : string) : result (list string) :=
  s ← pd.getitem df col;
  labels ← traverse (fun v => match v with
                              | PyStr x => Ok x
                              | _ => Raise (Unsupported "an option that is not text")
                              end) (dropna s);
  Ok (sorted (unique labels)).

(** Counts compare by size, larger first. *)
Definition more_frequent (a b : string * nat) : Prop := (snd b <= snd a)%nat.

#[global] Instance more_frequent_dec a b : Decision (more_frequent a b).
Proof. unfold more_frequent. apply _. Defined.

(** [s.value_counts()] on text: every value that occurs with the number of
    its occurrences, missing values left out, the most frequent first.
    pandas does not fix the order of values that occur equally often; here
    they stay in order of first appearance. *)
Definition value_counts (s : list cell) : result (list (string * nat)) :=
  labels ← traverse (fun v => match v with
                              | PyStr x => Ok x
                              | _ => Raise (Unsupported "a value that is not text")
                              end) (dropna s);
  Ok (merge_sort more_frequent
        (map (fun x => (x, length (List.filter (String.eqb x) labels))) (unique labels))).

(** The table of the funding stage chart in [render_overview_tab]. *)
Definition stage_counts (master_df : DataFrame) : result (list (string * nat)) :=
  s ← pd.getitem master_df "funding_stage_label";
  value_counts s.

(** The two option lists built by [main]. *)
Definition all_industries (master_df : DataFrame) : result (list string) :=
  options master_df "primary_industry".

Definition all_stages (master_df : DataFrame) : result (list string) :=
  options master_df "funding_stage_label".

(** *** The company selected for the detail view *)

(** Of the items that are the same, the first. *)
Fixpoint first_of_each {A} (same : A -> A -> bool) (l : list A) : list A :=
  match l with
  | [] => []
  | x :: l' => x :: List.filter (fun y => negb (same x y)) (first_of_each same l')
  end.

(** [df.drop_duplicates()]: two rows are duplicates when they agree in every
    column, missing values agreeing with each other; the first is kept. *)
Definition drop_duplicates (df : DataFrame) : DataFrame :=
  {| columns := columns df;
     rows := first_of_each
               (fun r r' => forallb (fun c => pd.key_match (get r c) (get r' c)) (columns df))
               (rows df) |}.

(** The items [zip(company_names["name"], company_names["company_id"])]
    from which [main] builds the dict [company_options]. *)
Definition company_options (filtered_df : DataFrame) : result (list (cell * cell)) :=
  company_names ← pd.getitem_cols filtered_df ["company_id"; "name"];
  let company_names := drop_duplicates company_names in
  names ← pd.getitem company_names "name";
  ids ← pd.getitem company_names "company_id";
  Ok (zip names ids).

(** [dict(items)[key]] for a string [key]: of the items with an equal key
    the last one counts.  The select box also offers the names that are not
    text; choosing one of those is not modelled. *)
Definition dict_getitem (items : list (cell * cell)) (key : string) : result cell :=
  match List.find (fun kv => py_eq (fst kv) (PyStr key)) (rev items) with
  | Some kv => Ok (snd kv)
  | None => Raise (KeyError key)
  end.

(** [s == v] element by element: a missing value on either side gives
    [False]. *)
Definition eq_scalar (s : list cell) (v : cell) : list bool :=
  map (fun x => negb (isna x) && negb (isna v) && py_eq x v) s.

(** [master_df[master_df["company_id"] == company_id].iloc[0]], the row
    [render_company_detail] shows.  [None] stands for the [IndexError] that
    [.iloc[0]] raises on an empty selection. *)
Definition detail_row (master_df : DataFrame) (company_id : cell) :
    result (option (gmap string cell)) :=
  ids ← pd.getitem master_df "company_id";
  Ok (head (rows (pd.loc_mask master_df (eq_scalar ids company_id)))).

End Render.

(** ** Vocabulary of the statements *)

Module Spec.

(** A listed key is a data file when it ends with the extension and has no
    path segment starting with an underscore. *)
Definition is_data_file (ext k : string) : Prop :=
  (exists pre, k = pre +:+ ext) /\ ~ (exists pre post, k = pre +:+ "/_" +:+ post).

(** The double nearest to [n / 2], exact for the halves used below. *)
Definition half (n : Z) : cell := PyFloat (binary_normalize prec emax n (-1) false).

(** The rows of a table whose key matches [k], and a key matching no row. *)
Definition matches (T : DataFrame) (k : cell) (r : gmap string cell) : Prop :=
  r ∈ rows T /\ pd.key_match k (get r "company_id") = true.

Definition absent (T : DataFrame) (k : cell) : Prop :=
  forall r, r ∈ rows T -> pd.key_match k (get r "company_id") = false.

(** A cell joined from table [T]: the cell of a matching row, or missing
    when the key matches none. *)
Definition joined_cell (T : DataFrame) (k : cell) (f : gmap string cell -> cell)
    (v : cell) : Prop :=
  (exists r, matches T k r /\ v = f r) \/ (absent T k /\ v = NaN).

(** The columns a Hiring cell can lose its value or its name to. *)
Definition touched : list string :=
  ["momentum_score"; "momentum_tier"; "momentum_rank"; "name"; "name_spine";
   "funding_stage_label"; "primary_industry"; "has_job_postings";
   "total_funding_display"].

(** The twelve labels of [INDUSTRY_MAP], and the default. *)
Definition industry_labels : list string :=
  ["AI"; "Software"; "IT"; "SaaS"; "Healthcare"; "FinTech"; "Financial Services";
   "Machine Learning"; "Manufacturing"; "Biotech"; "Generative AI"; "Developer Tools";
   "Other"].

(** The five labels of [FUNDING_STAGE_LABELS], and the default. *)
Definition stage_labels : list string :=
  ["Pre-Seed / Angel"; "Seed"; "Series A"; "Series B"; "Post-IPO"; "Unknown"].

(** [hiring_score >= n], on the exact value of the cell; a missing score
    and a cell that is not a number do not qualify. *)
Definition score_at_least (n : Z) (r : gmap string cell) : bool :=
  match num_of_cell (get r "hiring_score") with
  | Some x => match xnum_compare x (Fin n 0) with Lt => false | _ => true end
  | None => false
  end.

(** The cell of column [col] is one of the strings [values]. *)
Definition member_test (col : string) (values : list string) (r : gmap string cell) : bool :=
  match get r col with
  | PyStr x => bool_decide (x ∈ values)
  | _ => false
  end.

(** [s] with its ASCII capitals lowered. *)
Fixpoint lower_str (s : string) : string :=
  match s with
  | EmptyString => EmptyString
  | String c s' => String (Re.lower c) (lower_str s')
  end.

(** [name] contains [search] as a substring, letter case aside. *)
Definition icontains (name search : string) : Prop :=
  exists pre post, lower_str name = pre +:+ lower_str search +:+ post.


End Spec.

(** ** Worked bundles *)

Module Examples.

Definition row_of (l : list (string * cell)) : gmap string cell := list_to_map l.

(** Three companies in Hiring; Scores, Spine and Features each know only
    some of them, and [c3] is known to none. *)
Definition demo_hiring : DataFrame :=
  {| columns := ["company_id"; "hiring_score"; "hiring_tier"; "hiring_rank"; "name"];
     rows :=
       [ row_of [("company_id", PyStr "c1"); ("hiring_score", float_lit 80);
                 ("hiring_tier", PyStr "High"); ("hiring_rank", PyInt 2);
                 ("name", PyStr "Acme")];
         row_of [("company_id", PyStr "c2"); ("hiring_score", float_lit 90);
                 ("hiring_tier", PyStr "Very High"); ("hiring_rank", PyInt 1);
                 ("name", NaN)];
         row_of [("company_id", PyStr "c3"); ("hiring_score", float_lit 40);
                 ("hiring_tier", PyStr "Low"); ("hiring_rank", PyInt 3);
                 ("name", PyStr "Gamma")] ] |}.

Definition demo_scores : DataFrame :=
  {| columns := ["company_id"; "momentum_score"; "momentum_tier"; "momentum_rank";
                 "funding_stage"];
     rows :=
       [ row_of [("company_id", PyStr "c1"); ("momentum_score", float_lit 1);
                 ("momentum_tier", PyStr "High"); ("momentum_rank", PyInt 1);
                 ("funding_stage", float_lit 2)];
         row_of [("company_id", PyStr "c2"); ("momentum_score", float_lit 0);
                 ("momentum_tier", PyStr "Very Low"); ("momentum_rank", PyInt 2);
                 ("funding_stage", float_lit 7)] ] |}.

Definition demo_spine : DataFrame :=
  {| columns := ["company_id"; "name"; "city"; "total_funding_usd"];
     rows :=
       [ row_of [("company_id", PyStr "c2"); ("name", PyStr "Beta");
                 ("city", PyStr "Juneau"); ("total_funding_usd", float_lit 2300000)] ] |}.

Definition demo_features : DataFrame :=
  {| columns := ["company_id"; "ind_ai"; "ind_saas"; "has_job_postings"];
     rows :=
       [ row_of [("company_id", PyStr "c1"); ("ind_ai", PyInt 0); ("ind_saas", PyInt 1);
                 ("has_job_postings", PyBool true)];
         row_of [("company_id", PyStr "c2"); ("ind_ai", PyInt 0); ("ind_saas", PyInt 0);
                 ("has_job_postings", PyBool false)] ] |}.

Definition demo_metadata : DataFrame := {| columns := ["feature"; "group"]; rows := [] |}.

Definition demo : Data.Bundle :=
  {| Data.scores := demo_scores; Data.hiring := demo_hiring;
     Data.features := demo_features; Data.metadata := demo_metadata;
     Data.spine := demo_spine |}.

(** The same bundle with a Spine that lacks [total_funding_usd]. *)
Definition demo_unfunded : Data.Bundle :=
  {| Data.scores := demo_scores; Data.hiring := demo_hiring;
     Data.features := demo_features; Data.metadata := demo_metadata;
     Data.spine :=
       {| columns := ["company_id"; "name"; "city"];
          rows := [ row_of [("company_id", PyStr "c2"); ("name", PyStr "Beta");
                            ("city", PyStr "Juneau")] ] |} |}.

(** The master table of [demo], rows in rank order: c2, c1, c3. *)
Definition demo_master : DataFrame :=
  Eval vm_compute in
    match prepare_master_table demo with
    | Ok df => df
    | Raise _ => {| columns := []; rows := [] |}
    end.

(** The Hiring row of the company no other table knows. *)
Definition demo_c3 : gmap string cell :=
  row_of [("company_id", PyStr "c3"); ("hiring_score", float_lit 40);
          ("hiring_tier", PyStr "Low"); ("hiring_rank", PyInt 3);
          ("name", PyStr "Gamma")].

End Examples.

(** * Properties *)

(** ** Strings *)

Module StrFacts.

Lemma startswith_spec s p :
  Str.startswith s p = true <-> exists post, s = p +:+ post.
Proof.
  revert s. induction p as [|a p IH]; intros s.
  - destruct s; (split; [intros _; by eexists | done]).
  - destruct s as [|b s]; cbn [Str.startswith].
    + split; [done | intros [post Hpost]; discriminate].
    + rewrite andb_true_iff, Ascii.eqb_eq, IH. split.
      * intros [-> [post ->]]. by exists post.
      * intros [post Hpost]. injection Hpost as -> ->. eauto.
Qed.

Lemma contains_spec s sub :
  Str.contains s sub = true <-> exists pre post, s = pre +:+ sub +:+ post.
Proof.
  induction s as [|b s IH]; cbn [Str.contains]; rewrite orb_true_iff, startswith_spec.
  - split.
    + intros [[post Hpost] | ?]; [|done]. by exists "", post.
    + intros [[|c pre] [post Hpost]]; [left; by exists post | discriminate].
  - rewrite IH. split.
    + intros [[post Hpost] | (pre & post & ->)].
      * by exists "", post.
      * by exists (String b pre), post.
    + intros [[|c pre] [post Hpost]].
      * left. by exists post.
      * right. injection Hpost as _ ->. by exists pre, post.
Qed.

Lemma endswith_spec s suf :
  Str.endswith s suf = true <-> exists pre, s = pre +:+ suf.
Proof.
  induction s as [|b s IH]; cbn [Str.endswith]; rewrite orb_true_iff, String.eqb_eq.
  - split.
    + intros [<- | ?]; [by exists "" | done].
    + intros [[|c pre] Hpre]; [by left | discriminate].
  - rewrite IH. split.
    + intros [<- | [pre ->]]; [by exists "" | by exists (String b pre)].
    + intros [[|c pre] Hpre]; [by left |].
      right. injection Hpre as _ ->. by exists pre.
Qed.

Lemma endswith_app p suf : Str.endswith (p +:+ suf) suf = true.
Proof. apply endswith_spec. by exists p. Qed.

Lemma startswith1 (y c : ascii) s :
  Str.startswith (String c s) (String y "") = Ascii.eqb y c.
Proof. cbn. destruct s; by rewrite andb_true_r. Qed.

Lemma contains2_cons (x y a : ascii) t :
  Str.contains (String a t) (String x (String y "")) =
  (Ascii.eqb x a && Str.startswith t (String y ""))
  || Str.contains t (String x (String y "")).
Proof. reflexivity. Qed.

Lemma endswith1_cons (x a : ascii) t :
  Str.endswith (String a t) (String x "") =
  (Ascii.eqb a x && String.eqb t "") || Str.endswith t (String x "").
Proof. reflexivity. Qed.

(** A two-character pattern found in [p +:+ s] lies in [p], in [s], or
    straddles the seam. *)
Lemma contains2_app (x y : ascii) p s :
  Str.contains (p +:+ s) (String x (String y "")) =
  Str.contains p (String x (String y ""))
  || (Str.endswith p (String x "") && Str.startswith s (String y ""))
  || Str.contains s (String x (String y "")).
Proof.
  induction p as [|a p IH].
  - cbn. by destruct s.
  - change (String a p +:+ s) with (String a (p +:+ s)).
    rewrite !contains2_cons, endswith1_cons, IH. clear IH.
    rewrite (Ascii.eqb_sym a x).
    destruct p as [|b p].
    + change ("" +:+ s) with s. cbn.
      destruct (Ascii.eqb x a), (Str.startswith s (String y "")),
        (Str.contains s (String x (String y ""))); done.
    + change (String b p +:+ s) with (String b (p +:+ s)).
      rewrite !startswith1. cbn [String.eqb]. rewrite andb_false_r.
      destruct (Ascii.eqb x a), (Ascii.eqb y b),
        (Str.contains (String b p) _), (Str.endswith (String b p) _),
        (Str.startswith s _), (Str.contains s _); done.
Qed.

End StrFacts.

(** ** Remote reader *)

Module RemoteReaderFacts.
Import RemoteReader StrFacts Spec.

Lemma data_file_test ext k :
  Str.endswith k ext && negb (Str.contains k "/_") = true <-> is_data_file ext k.
Proof.
  unfold is_data_file.
  rewrite andb_true_iff, negb_true_iff, endswith_spec, <- contains_spec.
  by rewrite not_true_iff_false.
Qed.

Lemma append_assoc (a b c : string) : (a +:+ b) +:+ c = a +:+ b +:+ c.
Proof.
  induction a as [|x a IH]; [done|].
  change (String x ((a +:+ b) +:+ c) = String x (a +:+ b +:+ c)). by f_equal.
Qed.

Lemma data_files_none ext contents :
  (forall k, k ∈ contents -> ~ is_data_file ext k) -> data_files ext contents = [].
Proof.
  induction contents as [|k l IH]; intros H; [done|].
  unfold data_files in *. cbn [List.filter].
  destruct (Str.endswith k ext && negb (Str.contains k "/_")) eqn:E.
  - apply data_file_test in E. destruct (H k); [left | done].
  - apply IH. intros k' Hk'. apply H. by right.
Qed.

Lemma data_files_first ext pre k post :
  is_data_file ext k -> (forall k', k' ∈ pre -> ~ is_data_file ext k') ->
  data_files ext (pre ++ k :: post) = k :: data_files ext post.
Proof.
  intros Hk Hpre. unfold data_files. rewrite List.filter_app.
  fold (data_files ext pre). rewrite (data_files_none _ _ Hpre).
  cbn [List.filter app]. apply data_file_test in Hk. by rewrite Hk.
Qed.

(** C9: the object the remote reader fetches.  Under a prefix listing
    [_SUCCESS] and [part-00000.csv] it is the part file (for a prefix with no
    underscore segment of its own, as the five keys of [S3_KEYS] are); with
    no data file in the listing it is the key itself; in general it is the
    first data file of the listing; and both readers fetch exactly that
    object. *)
Theorem remote_reader_key_resolution :
  (forall key, Str.contains key "/_" = false ->
     target_key ".csv" [key +:+ "/_SUCCESS"; key +:+ "/part-00000.csv"] key
       = key +:+ "/part-00000.csv"
     /\ target_key ".csv" [key +:+ "/part-00000.csv"; key +:+ "/_SUCCESS"] key
       = key +:+ "/part-00000.csv"
     /\ target_key ".parquet" [key +:+ "/_SUCCESS"; key +:+ "/part-00000.parquet"] key
       = key +:+ "/part-00000.parquet")
  /\ Forall (fun nk => Str.contains (snd nk) "/_" = false) S3_KEYS
  /\ (forall ext contents key,
        (forall k, k ∈ contents -> ~ is_data_file ext k) ->
        target_key ext contents key = key)
  /\ (forall ext pre k post key,
        is_data_file ext k -> (forall k', k' ∈ pre -> ~ is_data_file ext k') ->
        target_key ext (pre ++ k :: post) key = k)
  /\ (forall (Body Table : Type) list_objects_v2 get_object
        (pd_read : Body -> result Table) key,
        read_csv_from_s3 list_objects_v2 get_object pd_read key =
          (contents ← list_objects_v2 BUCKET key;
           obj ← get_object BUCKET (target_key ".csv" contents key);
           pd_read obj)
        /\ read_parquet_from_s3 list_objects_v2 get_object pd_read key =
          (contents ← list_objects_v2 BUCKET key;
           obj ← get_object BUCKET (target_key ".parquet" contents key);
           pd_read obj)).
Proof.
  split; [|split; [|split; [|split]]].
  - intros key Hkey.
    assert (Hsucc : forall ext,
              Str.endswith (key +:+ "/_SUCCESS") ext
              && negb (Str.contains (key +:+ "/_SUCCESS") "/_") = false).
    { intros ext. rewrite contains2_app. cbn. by rewrite !orb_true_r, andb_false_r. }
    assert (Hpart : Str.endswith (key +:+ "/part-00000.csv") ".csv"
                    && negb (Str.contains (key +:+ "/part-00000.csv") "/_") = true).
    { rewrite contains2_app, Hkey.
      change "/part-00000.csv" with ("/part-00000" +:+ ".csv") at 1.
      rewrite <- append_assoc, endswith_app. cbn. by rewrite andb_false_r. }
    assert (Hpq : Str.endswith (key +:+ "/part-00000.parquet") ".parquet"
                  && negb (Str.contains (key +:+ "/part-00000.parquet") "/_") = true).
    { rewrite contains2_app, Hkey.
      change "/part-00000.parquet" with ("/part-00000" +:+ ".parquet") at 1.
      rewrite <- append_assoc, endswith_app. cbn. by rewrite andb_false_r. }
    unfold target_key, data_files. cbn [List.filter].
    by rewrite !Hsucc, Hpart, Hpq.
  - repeat constructor.
  - intros ext contents key H. unfold target_key.
    by rewrite (data_files_none _ _ H).
  - intros ext pre k post key Hk Hpre. unfold target_key.
    by rewrite (data_files_first _ _ _ _ Hk Hpre).
  - intros. split; reflexivity.
Qed.

(** The listing [_SUCCESS], [part-00000.csv] under the key of the scores
    table, and a listing holding only the sentinel. *)
Lemma remote_reader_key_resolution_witness :
  target_key ".csv"
    ["modeling/company_scores.csv/_SUCCESS";
     "modeling/company_scores.csv/part-00000.csv"]
    "modeling/company_scores.csv"
  = "modeling/company_scores.csv/part-00000.csv"
  /\ target_key ".parquet" ["cleaned/spine_cleaned.parquet/_SUCCESS"]
       "cleaned/spine_cleaned.parquet"
     = "cleaned/spine_cleaned.parquet".
Proof.
  split.
  - apply (proj1 remote_reader_key_resolution "modeling/company_scores.csv").
    reflexivity.
  - apply (proj1 (proj2 (proj2 remote_reader_key_resolution))).
    intros k Hk. apply list_elem_of_singleton in Hk as ->.
    intros H. apply data_file_test in H. discriminate.
Defined.

End RemoteReaderFacts.

(** ** format_usd *)

Module FormatFacts.
Import Spec.

(** Rounding to the nearest integer: the result is within half a unit. *)
Lemma round_half_even_nearest n d :
  0 <= n -> 0 < d -> 2 * Z.abs (Fmt.round_half_even n d * d - n) <= d.
Proof.
  intros Hn Hd. unfold Fmt.round_half_even.
  pose proof (Z.div_mod n d ltac:(lia)) as E.
  pose proof (Z.mod_pos_bound n d Hd) as B.
  destruct (Z.compare_spec (2 * (n mod d)) d) as [C|C|C];
    [destruct (Z.even (n / d))|..]; nia.
Qed.

(** The integer that [format_f] prints for [m * 2^e] at [p] decimals is
    [m * 2^e * 10^p] itself when that is an integer, and otherwise within
    half a unit of it. *)
Lemma scaled_nearest p m e :
  if 0 <=? e
  then Fmt.scaled p m e = Zpos m * 2 ^ e * 10 ^ Z.of_nat p
  else 2 * Z.abs (Fmt.scaled p m e * 2 ^ (- e) - Zpos m * 10 ^ Z.of_nat p) <= 2 ^ (- e).
Proof.
  unfold Fmt.scaled. destruct (0 <=? e) eqn:E; [done|].
  apply round_half_even_nearest.
  - apply Z.mul_nonneg_nonneg; [lia | apply Z.pow_nonneg; lia].
  - apply Z.pow_pos_nonneg; lia.
Qed.

Lemma digits1 x : (x < 10)%N -> Fmt.digits 1 x = pretty x.
Proof.
  intros H.
  assert (x = 0 \/ x = 1 \/ x = 2 \/ x = 3 \/ x = 4 \/ x = 5 \/ x = 6 \/ x = 7
          \/ x = 8 \/ x = 9)%N as Hx by lia.
  repeat (destruct Hx as [->|Hx]; [reflexivity|]). by subst.
Qed.

(** The shape of the two renderings used for large amounts: whole part,
    point, one digit; and the whole number alone. *)
Lemma format_f_one_decimal s m e :
  let n := Fmt.scaled 1 m e in
  Fmt.format_f false 1 (S754_finite s m e) =
    (if s then "-" else "") +:+ pretty (Z.to_N (n / 10)) +:+ "."
    +:+ pretty (Z.to_N (n mod 10)).
Proof.
  cbv zeta. unfold Fmt.format_f, Fmt.fixed.
  change (10 ^ Z.of_nat 1) with 10. rewrite digits1; [done|].
  pose proof (Z.mod_pos_bound (Fmt.scaled 1 m e) 10 ltac:(lia)). lia.
Qed.

Lemma append_empty_r (s : string) : s +:+ "" = s.
Proof.
  induction s as [|a s IH]; [done|].
  change (String a (s +:+ "") = String a s). by f_equal.
Qed.

Lemma format_f_whole s m e :
  Fmt.format_f false 0 (S754_finite s m e) =
    (if s then "-" else "") +:+ pretty (Z.to_N (Fmt.scaled 0 m e)).
Proof.
  unfold Fmt.format_f, Fmt.fixed. cbn [Z.of_nat]. rewrite Z.pow_0_r, Z.div_1_r.
  by rewrite append_empty_r.
Qed.

Lemma format_f_grouped s m e :
  Fmt.format_f true 0 (S754_finite s m e) =
    (if s then "-" else "")
    +:+ Fmt.group_thousands (pretty (Z.to_N (Fmt.scaled 0 m e))).
Proof.
  unfold Fmt.format_f, Fmt.fixed. cbn [Z.of_nat]. rewrite Z.pow_0_r, Z.div_1_r.
  by rewrite append_empty_r.
Qed.

(** C4: the stated values of [format_usd] (given as [int] and as [float]),
    the value at 999,999.5, which the thousands rule renders as
    ["$1000K"], and the rule itself: ["N/A"] for a missing value; from
    1,000,000 up the amount in millions with one decimal; from 1,000 up the
    amount in thousands as a whole number; below that the whole number of
    dollars, comma-grouped.  The number printed is the binary64 quotient
    rounded to the nearest, ties to even. *)
Theorem format_usd_rule :
  (format_usd (PyInt 0) = Ok "$0"
   /\ format_usd (PyInt 1500) = Ok "$2K"
   /\ format_usd (PyInt 2300000) = Ok "$2.3M"
   /\ format_usd (float_lit 0) = Ok "$0"
   /\ format_usd (float_lit 1500) = Ok "$2K"
   /\ format_usd (float_lit 2300000) = Ok "$2.3M"
   /\ format_usd PyNone = Ok "N/A"
   /\ format_usd NaN = Ok "N/A"
   /\ format_usd (half 1999999) = Ok "$1000K")
  /\ (forall value, isna value = true -> format_usd value = Ok "N/A")
  /\ (forall value q,
        isna value = false -> py_ge value (PyInt 1000000) = Ok true ->
        py_truediv value 1000000 = Ok q ->
        format_usd value = Ok ("$" +:+ Fmt.format_f false 1 q +:+ "M"))
  /\ (forall value q,
        isna value = false -> py_ge value (PyInt 1000000) = Ok false ->
        py_ge value (PyInt 1000) = Ok true ->
        py_truediv value 1000 = Ok q ->
        format_usd value = Ok ("$" +:+ Fmt.format_f false 0 q +:+ "K"))
  /\ (forall value s,
        isna value = false -> py_ge value (PyInt 1000000) = Ok false ->
        py_ge value (PyInt 1000) = Ok false ->
        py_format_f true 0 value = Ok s ->
        format_usd value = Ok ("$" +:+ s))
  /\ (forall s m e,
        Fmt.format_f false 1 (S754_finite s m e) =
          (if s then "-" else "") +:+ pretty (Z.to_N (Fmt.scaled 1 m e / 10)) +:+ "."
          +:+ pretty (Z.to_N (Fmt.scaled 1 m e mod 10))
        /\ Fmt.format_f false 0 (S754_finite s m e) =
          (if s then "-" else "") +:+ pretty (Z.to_N (Fmt.scaled 0 m e))
        /\ Fmt.format_f true 0 (S754_finite s m e) =
          (if s then "-" else "")
          +:+ Fmt.group_thousands (pretty (Z.to_N (Fmt.scaled 0 m e))))
  /\ (forall p m e,
        if 0 <=? e
        then Fmt.scaled p m e = Zpos m * 2 ^ e * 10 ^ Z.of_nat p
        else 2 * Z.abs (Fmt.scaled p m e * 2 ^ (- e) - Zpos m * 10 ^ Z.of_nat p)
             <= 2 ^ (- e)).
Proof.
  split; [by vm_compute|].
  split; [intros value H; unfold format_usd; by rewrite H|].
  split; [|split; [|split; [|split]]].
  - intros value q Hna Hm Hq. unfold format_usd. by rewrite Hna, Hm, Hq.
  - intros value q Hna Hm Hk Hq. unfold format_usd. by rewrite Hna, Hm, Hk, Hq.
  - intros value s Hna Hm Hk Hs. unfold format_usd. by rewrite Hna, Hm, Hk, Hs.
  - intros s m e. split; [apply format_f_one_decimal|].
    split; [apply format_f_whole | apply format_f_grouped].
  - apply scaled_nearest.
Qed.

(** The rule at seven-figure, four-figure and three-figure amounts. *)
Lemma format_usd_rule_witness :
  format_usd (PyInt 1050000) = Ok "$1.1M"
  /\ format_usd (PyInt 2500) = Ok "$2K"
  /\ format_usd (PyInt (-1234567)) = Ok "$-1,234,567"
  /\ format_usd (PyFloat S754_nan) = Ok "N/A".
Proof.
  destruct format_usd_rule as (_ & Hna & Hm & Hk & Hd & _).
  split; [|split; [|split]].
  - rewrite (Hm (PyInt 1050000) (S754_finite false 4728779608739021 (-52)));
      reflexivity.
  - rewrite (Hk (PyInt 2500) (S754_finite false 5629499534213120 (-51)));
      reflexivity.
  - rewrite (Hd (PyInt (-1234567)) "-1,234,567"); reflexivity.
  - apply Hna. reflexivity.
Defined.

End FormatFacts.

(** ** The table operations *)

Module PdFacts.

Lemma bind_Ok {A B} (m : result A) (k : A -> result B) b :
  (m ≫= k) = Ok b -> exists a, m = Ok a /\ k a = Ok b.
Proof. destruct m as [a|e]; [by exists a | discriminate]. Qed.

Lemma elem_of_map {A B} (f : A -> B) (l : list A) y :
  y ∈ map f l <-> exists x, y = f x /\ x ∈ l.
Proof.
  rewrite list_elem_of_In, in_map_iff.
  split; intros (x & H1 & H2); exists x; by rewrite ?list_elem_of_In in *.
Qed.

Lemma elem_of_List_filter {A} (p : A -> bool) (l : list A) x :
  x ∈ List.filter p l <-> x ∈ l /\ p x = true.
Proof. by rewrite !list_elem_of_In, filter_In. Qed.

Lemma elem_of_flat_map {A B} (f : A -> list B) (l : list A) y :
  y ∈ flat_map f l <-> exists x, x ∈ l /\ y ∈ f x.
Proof.
  rewrite list_elem_of_In, in_flat_map.
  split; intros (x & H1 & H2); exists x; by rewrite ?list_elem_of_In in *.
Qed.

Lemma map_fst_fmap {A B} (l : list (A * B)) : map fst l = l.*1.
Proof. induction l; cbn; by f_equal. Qed.

(** Reading a row assembled from a list of named cells. *)
Lemma get_list_to_map (l : list (string * cell)) k v :
  (forall v', (k, v') ∈ l -> v = v') -> (k, v) ∈ l -> get (list_to_map l) k = v.
Proof.
  intros Huniq Hin. unfold get.
  by rewrite (elem_of_list_to_map_1' l k v Huniq Hin).
Qed.

Lemma get_list_to_map_absent (l : list (string * cell)) k :
  k ∉ map fst l -> get (list_to_map l) k = NaN.
Proof.
  intros Hk. unfold get. rewrite map_fst_fmap in Hk.
  by rewrite (not_elem_of_list_to_map_1 l k Hk).
Qed.

Lemma get_insert r c v c' :
  get (<[c:=v]> r) c' = if decide (c = c') then v else get r c'.
Proof. unfold get. rewrite lookup_insert. by destruct (decide (c = c')). Qed.

Lemma get_delete r c c' : c ≠ c' -> get (delete c r) c' = get r c'.
Proof. intros H. unfold get. by rewrite lookup_delete_ne. Qed.

(** *** Column access *)

Lemma getitem_Ok df c s :
  pd.getitem df c = Ok s -> c ∈ columns df /\ s = map (fun r => get r c) (rows df).
Proof.
  unfold pd.getitem. destruct (decide (c ∈ columns df)); [|discriminate].
  by intros [= <-].
Qed.

Lemma getitem_in df c :
  c ∈ columns df -> pd.getitem df c = Ok (map (fun r => get r c) (rows df)).
Proof. intros H. unfold pd.getitem. by destruct (decide (c ∈ columns df)). Qed.

Abbreviation restrict := pd.restrict.

Lemma getitem_cols_Ok df cols df' :
  pd.getitem_cols df cols = Ok df' ->
  (forall c, c ∈ cols -> c ∈ columns df)
  /\ columns df' = cols /\ rows df' = map (restrict cols) (rows df).
Proof.
  unfold pd.getitem_cols.
  destruct (filter (fun c => c ∉ columns df) cols) as [|c l] eqn:E; [|discriminate].
  intros [= <-]. split; [|done].
  intros c Hc. destruct (decide (c ∈ columns df)) as [|Hn]; [done|].
  assert (c ∈ filter (fun c => c ∉ columns df) cols) as Hin
    by by apply list_elem_of_filter.
  rewrite E in Hin. by apply elem_of_nil in Hin.
Qed.

Lemma getitem_cols_in df cols :
  (forall c, c ∈ cols -> c ∈ columns df) ->
  pd.getitem_cols df cols =
    Ok {| columns := cols; rows := map (restrict cols) (rows df) |}.
Proof.
  intros H. unfold pd.getitem_cols.
  destruct (filter (fun c => c ∉ columns df) cols) as [|c l] eqn:E; [done|].
  assert (c ∈ filter (fun c => c ∉ columns df) cols) as Hin
    by (rewrite E; left).
  apply list_elem_of_filter in Hin as [Hn Hc]. by destruct Hn; apply H.
Qed.

Lemma get_restrict cols r c :
  get (restrict cols r) c = if decide (c ∈ cols) then get r c else NaN.
Proof.
  unfold pd.restrict. destruct (decide (c ∈ cols)) as [Hc|Hc].
  - apply get_list_to_map.
    + intros v' Hv'. apply elem_of_map in Hv' as (c' & [= -> ->] & _). done.
    + apply elem_of_map. by exists c.
  - apply get_list_to_map_absent. rewrite map_map. cbn. by rewrite map_id.
Qed.

(** *** Left merge *)

Section Merge.
Variables (L R M : DataFrame) (on : string) (suf : string * string).
Hypothesis Hmerge : pd.merge L R on suf = Ok M.

Abbreviation lname := (pd.suffixed L R on (fst suf)).
Abbreviation rname := (pd.suffixed L R on (snd suf)).

(** What a merged row [m] holds, given the left row [l] it extends: the
    left cells under their (possibly suffixed) names, and the cells of one
    matching right row, or missing values when no right row matches. *)
Definition joined (l m : gmap string cell) : Prop :=
  (forall c, c ∈ columns L -> get m (lname c) = get l c)
  /\ ((exists r, r ∈ rows R /\ pd.key_match (get l on) (get r on) = true
         /\ forall c, c ∈ columns R -> c ≠ on -> get m (rname c) = get r c)
      \/ ((forall r, r ∈ rows R -> pd.key_match (get l on) (get r on) = false)
          /\ forall c, c ∈ columns R -> c ≠ on -> get m (rname c) = NaN))
  /\ (forall n, n ∉ columns M -> get m n = NaN).

Lemma merge_inv :
  on ∈ columns L /\ on ∈ columns R /\ NoDup (columns M)
  /\ columns M = (map lname (columns L)
                  ++ map rname (filter (fun c => c ≠ on) (columns R)))%list
  /\ rows M =
       flat_map
         (fun l =>
            match List.filter (fun r => pd.key_match (get l on) (get r on)) (rows R) with
            | [] => [pd.join_row
                       (map (fun c => (c, lname c)) (columns L))
                       (map (fun c => (c, rname c)) (filter (fun c => c ≠ on) (columns R)))
                       l None]
            | ms => map (fun r => pd.join_row
                       (map (fun c => (c, lname c)) (columns L))
                       (map (fun c => (c, rname c)) (filter (fun c => c ≠ on) (columns R)))
                       l (Some r)) ms
            end)
         (rows L).
Proof.
  revert Hmerge. unfold pd.merge.
  destruct (decide (on ∈ columns L)); [|discriminate].
  destruct (decide (on ∈ columns R)); [|discriminate].
  cbv zeta. rewrite !map_map. cbn [snd].
  destruct (decide (NoDup _)) as [Hnd|]; [|discriminate].
  intros [= <-]. cbn [columns rows]. done.
Qed.

Lemma join_row_joined l (o : option (gmap string cell)) :
  match o with
  | Some r => r ∈ rows R /\ pd.key_match (get l on) (get r on) = true
  | None => forall r, r ∈ rows R -> pd.key_match (get l on) (get r on) = false
  end ->
  joined l (pd.join_row
              (map (fun c => (c, lname c)) (columns L))
              (map (fun c => (c, rname c)) (filter (fun c => c ≠ on) (columns R)))
              l o).
Proof.
  destruct merge_inv as (_ & _ & Hnd & Hcols & _). rewrite Hcols in Hnd.
  intros Ho.
  set (pairs := (map (fun cn : string * string => (snd cn, get l (fst cn)))
                   (map (fun c => (c, lname c)) (columns L)) ++
                 map (fun cn : string * string =>
                        (snd cn, match o with Some r' => get r' (fst cn) | None => NaN end))
                   (map (fun c => (c, rname c))
                      (filter (fun c => c ≠ on) (columns R))))%list).
  assert (Hfst : map fst pairs =
                 (map lname (columns L)
                  ++ map rname (filter (fun c => c ≠ on) (columns R)))%list).
  { unfold pairs. rewrite map_app, !map_map. done. }
  assert (Hget : forall k v, (k, v) ∈ pairs -> get (list_to_map pairs) k = v).
  { intros k v Hin. unfold get.
    rewrite (elem_of_list_to_map_1 pairs k v); [done| |done].
    rewrite <- map_fst_fmap, Hfst. done. }
  assert (Hright : forall c, c ∈ columns R -> c ≠ on ->
            get (list_to_map pairs) (rname c) =
            match o with Some r' => get r' c | None => NaN end).
  { intros c Hc Hne. apply Hget. unfold pairs. apply elem_of_app. right.
    rewrite map_map. apply elem_of_map. exists c. split; [done|].
    by apply list_elem_of_filter. }
  unfold joined, pd.join_row. fold pairs. split; [|split].
  - intros c Hc. apply Hget. unfold pairs. apply elem_of_app. left.
    rewrite map_map. apply elem_of_map. by exists c.
  - destruct o as [r|].
    + left. exists r. destruct Ho. split; [done|]. split; [done|]. apply Hright.
    + right. split; [done|]. apply Hright.
  - intros n Hn. apply get_list_to_map_absent. by rewrite Hfst, <- Hcols.
Qed.

(** Every merged row extends some left row. *)
Lemma merge_row_inv m : m ∈ rows M -> exists l, l ∈ rows L /\ joined l m.
Proof.
  destruct merge_inv as (_ & _ & _ & _ & Hrows). rewrite Hrows.
  intros (l & Hl & Hm)%elem_of_flat_map. exists l. split; [done|].
  destruct (List.filter _ (rows R)) as [|r0 ms] eqn:E.
  - apply list_elem_of_singleton in Hm as ->. apply (join_row_joined l None).
    intros r Hr. destruct (pd.key_match (get l on) (get r on)) eqn:Ek; [|done].
    assert (r ∈ List.filter (fun r => pd.key_match (get l on) (get r on)) (rows R))
      as Hin by by apply elem_of_List_filter.
    rewrite E in Hin. by apply elem_of_nil in Hin.
  - apply elem_of_map in Hm as (r & -> & Hr). apply (join_row_joined l (Some r)).
    rewrite <- E in Hr. by apply elem_of_List_filter in Hr.
Qed.

(** Every left row is kept. *)
Lemma merge_row_kept l : l ∈ rows L -> exists m, m ∈ rows M /\ joined l m.
Proof.
  intros Hl. destruct merge_inv as (_ & _ & _ & _ & Hrows).
  destruct (List.filter (fun r => pd.key_match (get l on) (get r on)) (rows R))
    as [|r0 ms] eqn:E.
  - eexists. split.
    + rewrite Hrows. apply elem_of_flat_map. exists l. split; [done|].
      rewrite E. by left.
    + apply (join_row_joined l None).
      intros r Hr. destruct (pd.key_match (get l on) (get r on)) eqn:Ek; [|done].
      assert (r ∈ List.filter (fun r => pd.key_match (get l on) (get r on)) (rows R))
        as Hin by by apply elem_of_List_filter.
      rewrite E in Hin. by apply elem_of_nil in Hin.
  - eexists. split.
    + rewrite Hrows. apply elem_of_flat_map. exists l. split; [done|].
      rewrite E. apply elem_of_map. exists r0. split; [done | by left].
    + apply (join_row_joined l (Some r0)).
      assert (r0 ∈ List.filter (fun r => pd.key_match (get l on) (get r on)) (rows R))
        as Hin by (rewrite E; left).
      by apply elem_of_List_filter in Hin.
Qed.

Lemma suffixed_left_only c suffix : c ∉ columns R -> pd.suffixed L R on suffix c = c.
Proof.
  intros H. unfold pd.suffixed, pd.overlap.
  rewrite bool_decide_eq_false_2; [done | tauto].
Qed.

Lemma suffixed_right_only c suffix : c ∉ columns L -> pd.suffixed L R on suffix c = c.
Proof.
  intros H. unfold pd.suffixed, pd.overlap.
  rewrite bool_decide_eq_false_2; [done | tauto].
Qed.

Lemma suffixed_on suffix : pd.suffixed L R on suffix on = on.
Proof.
  unfold pd.suffixed, pd.overlap. rewrite bool_decide_eq_false_2; [done | tauto].
Qed.

(** Where a column of the merged table comes from. *)
Lemma merge_columns_inv n :
  n ∈ columns M ->
  n ∈ columns L \/ n ∈ columns R
  \/ exists c, c ∈ columns L /\ c ∈ columns R /\ c ≠ on
               /\ (n = c +:+ fst suf \/ n = c +:+ snd suf).
Proof.
  destruct merge_inv as (_ & _ & _ & Hcols & _). rewrite Hcols.
  intros [H|H]%elem_of_app; apply elem_of_map in H as (c & -> & Hc).
  - unfold pd.suffixed, pd.overlap. case_bool_decide as Ho; [|by left].
    right. right. exists c. destruct Ho as (? & ? & ?). auto.
  - apply list_elem_of_filter in Hc as [Hne Hc].
    unfold pd.suffixed, pd.overlap. case_bool_decide as Ho; [|by right; left].
    right. right. exists c. destruct Ho as (? & ? & ?). auto.
Qed.

Lemma merge_columns_left c :
  c ∈ columns L -> pd.suffixed L R on (fst suf) c ∈ columns M.
Proof.
  destruct merge_inv as (_ & _ & _ & Hcols & _). rewrite Hcols.
  intros Hc. apply elem_of_app. left. apply elem_of_map. by exists c.
Qed.

Lemma merge_columns_right c :
  c ∈ columns R -> c ≠ on -> pd.suffixed L R on (snd suf) c ∈ columns M.
Proof.
  destruct merge_inv as (_ & _ & _ & Hcols & _). rewrite Hcols.
  intros Hc Hne. apply elem_of_app. right. apply elem_of_map. exists c.
  split; [done|]. by apply list_elem_of_filter.
Qed.
End Merge.

(** *** Column assignment, masks, sorting *)

Lemma zip_with_map_r {A B C} (f : A -> B -> C) (g : A -> B) (l : list A) :
  zip_with f l (map g l) = map (fun a => f a (g a)) l.
Proof. induction l; cbn; by f_equal. Qed.

Lemma setitem_map df c (f : gmap string cell -> cell) :
  rows (pd.setitem df c (map f (rows df))) = map (fun r => <[c:=f r]> r) (rows df).
Proof. cbn. apply zip_with_map_r. Qed.

Lemma setitem_columns df c vs n :
  n ∈ columns (pd.setitem df c vs) <-> n ∈ columns df \/ n = c.
Proof.
  cbn. destruct (decide (c ∈ columns df)).
  - split; [by left | by intros [?| ->]].
  - rewrite elem_of_app, list_elem_of_singleton. done.
Qed.

Lemma drop_Ok df c df' :
  pd.drop df c = Ok df' ->
  (forall n, n ∈ columns df' <-> n ∈ columns df /\ n ≠ c)
  /\ rows df' = map (delete c) (rows df).
Proof.
  unfold pd.drop. destruct (decide (c ∈ columns df)); [|discriminate].
  intros [= <-]. split; [|done]. intros n. cbn.
  rewrite list_elem_of_filter. tauto.
Qed.

Lemma traverse_Ok {A B} (f : A -> result B) l l' :
  traverse f l = Ok l' -> Forall2 (fun a b => f a = Ok b) l l'.
Proof.
  revert l'. induction l as [|a l IH]; intros l'; cbn.
  - intros [= <-]. constructor.
  - intros (b & Hb & (bs & Hbs & [= <-])%bind_Ok)%bind_Ok.
    constructor; [done | by apply IH].
Qed.

Lemma traverse_total {A B} (f : A -> result B) (g : A -> B) l :
  (forall a, a ∈ l -> f a = Ok (g a)) -> traverse f l = Ok (map g l).
Proof.
  induction l as [|a l IH]; intros H; cbn; [done|].
  rewrite (H a) by left. cbn. rewrite IH; [done|].
  intros a' Ha'. apply H. by right.
Qed.

(** Assigning a column computed cell by cell, each computation succeeding. *)
Lemma setitem_traverse df c c' (f : cell -> result cell) vs m :
  traverse f (map (fun r => get r c') (rows df)) = Ok vs ->
  m ∈ rows (pd.setitem df c vs) ->
  exists r v, r ∈ rows df /\ f (get r c') = Ok v /\ m = <[c:=v]> r.
Proof.
  intros Ht%traverse_Ok. cbn. revert vs Ht.
  induction (rows df) as [|r l IH]; intros vs Ht; inversion Ht; subst; cbn.
  - by intros ?%elem_of_nil.
  - intros [->|Hin]%elem_of_cons.
    + eexists _, _. split; [by left|]. done.
    + destruct (IH _ H3 Hin) as (r' & v & Hr' & Hv & ->).
      exists r', v. split; [by right | done].
Qed.

Lemma setitem_traverse_kept df c c' (f : cell -> result cell) vs r :
  traverse f (map (fun r => get r c') (rows df)) = Ok vs ->
  r ∈ rows df ->
  exists v, f (get r c') = Ok v /\ <[c:=v]> r ∈ rows (pd.setitem df c vs).
Proof.
  intros Ht%traverse_Ok. cbn. revert vs Ht.
  induction (rows df) as [|r0 l IH]; intros vs Ht; inversion Ht; subst; cbn.
  - by intros ?%elem_of_nil.
  - intros [->|Hin]%elem_of_cons.
    + eexists. split; [done | by left].
    + destruct (IH _ H3 Hin) as (v & Hv & Hr). exists v. split; [done | by right].
Qed.

Lemma loc_mask_map df (p : gmap string cell -> bool) :
  pd.loc_mask df (map p (rows df)) =
    {| columns := columns df; rows := List.filter p (rows df) |}.
Proof.
  unfold pd.loc_mask. f_equal.
  induction (rows df) as [|r l IH]; cbn; [done|].
  destruct (p r); cbn; [by rewrite IH | done].
Qed.

Lemma List_filter_filter {A} (p q : A -> bool) l :
  List.filter q (List.filter p l) = List.filter (fun x => p x && q x) l.
Proof.
  induction l as [|a l IH]; cbn; [done|].
  destruct (p a); cbn; [destruct (q a)|]; rewrite ?IH; done.
Qed.

Lemma sort_values_Ok df by_ df' :
  pd.sort_values df by_ = Ok df' ->
  by_ ∈ columns df /\ columns df' = columns df /\ rows df' ≡ₚ rows df.
Proof.
  unfold pd.sort_values. intros (keys & [Hby _]%getitem_Ok & H)%bind_Ok.
  destruct (_ || _); [|discriminate]. injection H as <-.
  split; [done|]. split; [done|]. cbn.
  rewrite merge_sort_Permutation.
  induction (rows df) as [|r l IH]; cbn; [done|].
  destruct (negb (isna (get r by_))); cbn.
  - by constructor.
  - by rewrite <- Permutation_middle, IH.
Qed.

End PdFacts.

(** ** The stages of prepare_master_table *)

Module Pipeline.
Import PdFacts Spec.

Definition cid : string := "company_id".

(** The row written by the name repair: Hiring's name, else Spine's. *)
Definition name_row (r : gmap string cell) : gmap string cell :=
  delete "name_spine"
    (<["name" := if isna (get r "name") then get r "name_spine" else get r "name"]> r).

Definition stage_label (code : cell) : cell :=
  let v := match List.find (fun kv => py_eq (fst kv) code) FUNDING_STAGE_LABELS with
           | Some kv => PyStr (snd kv)
           | None => NaN
           end in
  if isna v then PyStr "Unknown" else v.

Definition ind_cols (features : DataFrame) : list string :=
  "company_id" :: List.filter (fun c => Str.startswith c "ind_") (columns features).

(** [ind_df[["company_id", "primary_industry"]]], row by row from Features. *)
Definition ind_table (features : DataFrame) : DataFrame :=
  {| columns := ["company_id"; "primary_industry"];
     rows := map (fun f =>
                    restrict ["company_id"; "primary_industry"]
                      (<["primary_industry" :=
                           PyStr (derive_primary_industry (restrict (ind_cols features) f))]>
                         (restrict (ind_cols features) f)))
                 (rows features) |}.

(** [features[["company_id", "has_job_postings"]]] *)
Definition jobs_table (features : DataFrame) : DataFrame :=
  {| columns := ["company_id"; "has_job_postings"];
     rows := map (restrict ["company_id"; "has_job_postings"]) (rows features) |}.

(** The intermediate tables of a successful run, in program order. *)
Variant Stages (data : Data.Bundle) (master : DataFrame) : Prop :=
| stages_intro
    (scores1 spine1 df1 df2 df3 scores_full df4 df5 df6 df7 df8 : DataFrame)
    (display : list cell)
    (scores1_eq :
       pd.getitem_cols (Data.scores data)
         ["company_id"; "momentum_score"; "momentum_tier"; "momentum_rank"] = Ok scores1)
    (spine1_eq :
       pd.getitem_cols (Data.spine data)
         (filter (fun c => c ∈ columns (Data.spine data)) spine_cols) = Ok spine1)
    (df1_eq : pd.merge (Data.hiring data) scores1 "company_id" ("_x", "_y") = Ok df1)
    (df2_eq : pd.merge df1 spine1 "company_id" ("", "_spine") = Ok df2)
    (df3_cols : forall n, n ∈ columns df3 <-> n ∈ columns df2 /\ n ≠ "name_spine")
    (df3_rows :
       rows df3 = if decide ("name_spine" ∈ columns df2)
                  then map name_row (rows df2) else rows df2)
    (scores_full_eq :
       pd.getitem_cols (Data.scores data) ["company_id"; "funding_stage"] = Ok scores_full)
    (df4_eq : pd.merge df3 scores_full "company_id" ("", "_dup") = Ok df4)
    (df4_stage : "funding_stage" ∈ columns df4)
    (df5_eq :
       df5 = pd.setitem df4 "funding_stage_label"
               (map (fun r => stage_label (get r "funding_stage")) (rows df4)))
    (ind_cols_ok :
       forall c, c ∈ ind_cols (Data.features data) -> c ∈ columns (Data.features data))
    (df6_eq :
       pd.merge df5 (ind_table (Data.features data)) "company_id" ("_x", "_y") = Ok df6)
    (df7_eq :
       (if decide ("has_job_postings" ∈ columns (Data.features data)) then
          pd.merge df6 (jobs_table (Data.features data)) "company_id" ("_x", "_y")
        else Ok df6) = Ok df7)
    (df7_funding : "total_funding_usd" ∈ columns df7)
    (display_eq :
       traverse (fun v => s ← format_usd v; Ok (PyStr s))
         (map (fun r => get r "total_funding_usd") (rows df7)) = Ok display)
    (df8_eq : df8 = pd.setitem df7 "total_funding_display" display)
    (master_eq : pd.sort_values df8 "hiring_rank" = Ok master).

Lemma fillna_series_map {A} (f g : A -> cell) (l : list A) :
  pd.fillna_series (map f l) (map g l) =
  map (fun a => if isna (f a) then g a else f a) l.
Proof. induction l; cbn; by f_equal. Qed.

Lemma prepare_stages data master :
  prepare_master_table data = Ok master -> Stages data master.
Proof.
  unfold prepare_master_table. cbv zeta.
  intros (scores1 & Hscores1 & H)%bind_Ok.
  apply bind_Ok in H as (spine1 & Hspine1 & H).
  apply bind_Ok in H as (df1 & Hdf1 & H).
  apply bind_Ok in H as (df2 & Hdf2 & H).
  apply bind_Ok in H as (df3 & Hdf3 & H).
  apply bind_Ok in H as (scores_full & Hsf & H).
  apply bind_Ok in H as (df4 & Hdf4 & H).
  apply bind_Ok in H as (fs & [Hfs ->]%getitem_Ok & H).
  apply bind_Ok in H as (ind_df & Hind_df & H).
  apply bind_Ok in H as (ind & Hind & H).
  apply bind_Ok in H as (df6 & Hdf6 & H).
  apply bind_Ok in H as (df7 & Hdf7 & H).
  apply bind_Ok in H as (tf & [Htf ->]%getitem_Ok & H).
  apply bind_Ok in H as (display & Hdisplay & H).
  apply getitem_cols_Ok in Hind_df as (Hic & Hind_cols & Hind_rows).
  apply getitem_cols_Ok in Hind as (_ & Hc & Hr).
  assert (ind = ind_table (Data.features data)) as ->.
  { rewrite setitem_map, Hind_rows, !map_map in Hr.
    destruct ind as [ic ir]. cbn [columns rows] in Hc, Hr. by subst ic ir. }
  assert ((if decide ("has_job_postings" ∈ columns (Data.features data)) then
             pd.merge df6 (jobs_table (Data.features data)) "company_id" ("_x", "_y")
           else Ok df6) = Ok df7) as Hdf7'.
  { destruct (decide ("has_job_postings" ∈ columns (Data.features data))); [|done].
    apply bind_Ok in Hdf7 as (jobs & Hjobs & Hdf7).
    apply getitem_cols_Ok in Hjobs as (_ & Hc' & Hr').
    destruct jobs as [jc jr]. cbn [columns rows] in Hc', Hr'. by subst. }
  eapply (stages_intro data master scores1 spine1 df1 df2 df3 scores_full df4 _ df6 df7 _ display);
    try done.
  - (* the name repair keeps every column but name_spine *)
    destruct (decide ("name_spine" ∈ columns df2)) as [Hns|Hns].
    + apply bind_Ok in Hdf3 as (name & [Hname ->]%getitem_Ok & Hdf3).
      apply bind_Ok in Hdf3 as (ns & [_ ->]%getitem_Ok & Hdf3).
      apply drop_Ok in Hdf3 as [Hcols _]. intros n. rewrite Hcols, setitem_columns.
      split; [|tauto]. intros [[?| ->] ?]; done.
    + injection Hdf3 as <-. intros n. split; [|tauto].
      intros Hn. split; [done|]. by intros ->.
  - destruct (decide ("name_spine" ∈ columns df2)) as [Hns|Hns].
    + apply bind_Ok in Hdf3 as (name & [Hname ->]%getitem_Ok & Hdf3).
      apply bind_Ok in Hdf3 as (ns & [_ ->]%getitem_Ok & Hdf3).
      apply drop_Ok in Hdf3 as [_ ->].
      rewrite fillna_series_map, setitem_map, map_map. done.
    + by injection Hdf3 as <-.
  - rewrite <- Hdf6. unfold pd.fillna, pd.map_dict. by rewrite !map_map.
Qed.

Lemma append_empty (s : string) : s +:+ "" = s.
Proof.
  induction s as [|a s IH]; [done|].
  change (String a (s +:+ "") = String a s). by f_equal.
Qed.

Lemma suffixed_empty L R on c : pd.suffixed L R on "" c = c.
Proof. unfold pd.suffixed. destruct (pd.overlap L R on c); [apply append_empty | done]. Qed.

Lemma joined_keep L R M on suf l m c :
  joined L R M on suf l m -> c ∈ columns L ->
  c ∉ columns R \/ c = on \/ fst suf = "" ->
  get m c = get l c.
Proof.
  intros (Hl & _ & _) Hc Hcase. rewrite <- (Hl c Hc). f_equal.
  symmetry. destruct Hcase as [H | [-> | ->]].
  - by apply suffixed_left_only.
  - apply suffixed_on.
  - apply suffixed_empty.
Qed.

Lemma joined_new L R M on suf l m c :
  joined L R M on suf l m -> c ∈ columns R -> c ≠ on -> c ∉ columns L ->
  (exists r, r ∈ rows R /\ pd.key_match (get l on) (get r on) = true
             /\ get m c = get r c)
  \/ ((forall r, r ∈ rows R -> pd.key_match (get l on) (get r on) = false)
      /\ get m c = NaN).
Proof.
  intros (_ & Hr & _) Hc Hne HL.
  pose proof (suffixed_right_only L R on c (snd suf) HL) as Hname.
  destruct Hr as [(r & Hin & Hk & Hg) | [Hno Hg]].
  - left. exists r. split; [done|]. split; [done|].
    rewrite <- (Hg c Hc Hne). by rewrite Hname.
  - right. split; [done|]. rewrite <- (Hg c Hc Hne). by rewrite Hname.
Qed.

Lemma joined_cell_restrict T T' cols k c v :
  rows T' = map (restrict cols) (rows T) -> "company_id" ∈ cols -> c ∈ cols ->
  (exists r, r ∈ rows T' /\ pd.key_match k (get r "company_id") = true /\ v = get r c)
  \/ ((forall r, r ∈ rows T' -> pd.key_match k (get r "company_id") = false) /\ v = NaN) ->
  joined_cell T k (fun r => get r c) v.
Proof.
  intros Hrows Hcid Hc [(r' & Hin & Hk & ->) | [Hno ->]].
  - rewrite Hrows in Hin. apply elem_of_map in Hin as (r & -> & Hr).
    rewrite get_restrict in Hk |- *.
    destruct (decide ("company_id" ∈ cols)); [|done].
    destruct (decide (c ∈ cols)); [|done].
    left. by exists r.
  - right. split; [|done]. intros r Hr.
    specialize (Hno (restrict cols r)). rewrite get_restrict in Hno.
    destruct (decide ("company_id" ∈ cols)); [|done].
    apply Hno. rewrite Hrows. apply elem_of_map. by exists r.
Qed.

(** Deciding a closed fact about literal column names. *)
Ltac by_decide := refine (bool_decide_unpack _ _); vm_compute; exact I.

(** Membership in a literal list. *)
Ltac in_list := repeat first [apply list_elem_of_here | apply list_elem_of_further].

Lemma merge_keep_col L R M on suf c :
  pd.merge L R on suf = Ok M -> c ∈ columns L ->
  c ∉ columns R \/ c = on \/ fst suf = "" ->
  c ∈ columns M.
Proof.
  intros HM Hc Hcase. pose proof (merge_columns_left _ _ _ _ _ HM c Hc) as H.
  destruct Hcase as [Hn | [-> | Hs]].
  - by rewrite (suffixed_left_only L R on c _ Hn) in H.
  - by rewrite suffixed_on in H.
  - by rewrite Hs, suffixed_empty in H.
Qed.

(** A merged column that is neither a right column nor a suffixed name is a
    left column. *)
Lemma merge_col_back L R M on suf n :
  pd.merge L R on suf = Ok M -> n ∈ columns M -> n ∉ columns R ->
  fst suf = "" \/ Str.endswith n (fst suf) = false ->
  Str.endswith n (snd suf) = false ->
  n ∈ columns L.
Proof.
  intros HM Hn HR H1 H2.
  destruct (merge_columns_inv _ _ _ _ _ HM n Hn) as [?|[?|(c & Hc & _ & _ & [E|E])]];
    [done..| |].
  - destruct H1 as [H1|H1].
    + rewrite H1 in E. assert (c +:+ "" = c) as Hc'.
      { clear. induction c as [|a c IH]; [done|].
        change (String a (c +:+ "") = String a c). by f_equal. }
      by rewrite E, Hc'.
    + subst n. by rewrite StrFacts.endswith_app in H1.
  - subst n. by rewrite StrFacts.endswith_app in H2.
Qed.

(** A column carried by both sides leaves the merged table under suffixed
    names only. *)
Lemma merge_renamed_gone L R M on suf c :
  pd.merge L R on suf = Ok M -> c ∈ columns L -> c ∈ columns R -> c ≠ on ->
  Str.endswith c (fst suf) = false -> Str.endswith c (snd suf) = false ->
  c ∉ columns M.
Proof.
  intros HM HL HR Hne H1 H2.
  destruct (merge_inv _ _ _ _ _ HM) as (_ & _ & _ & Hcols & _). rewrite Hcols.
  assert (Hov : forall x suffix, Str.endswith c suffix = false ->
                  pd.suffixed L R on suffix x ≠ c).
  { intros x suffix Hs. unfold pd.suffixed, pd.overlap. case_bool_decide as Ho.
    - intros E. by rewrite <- E, StrFacts.endswith_app in Hs.
    - intros ->. by destruct Ho. }
  intros [H|H]%elem_of_app; apply elem_of_map in H as (x & E & _); symmetry in E.
  - by apply (Hov x (fst suf)).
  - by apply (Hov x (snd suf)).
Qed.

Lemma not_suffixed n c suffix : Str.endswith n suffix = false -> n ≠ c +:+ suffix.
Proof. intros H ->. by rewrite StrFacts.endswith_app in H. Qed.

(** What the master row [m] made from the Hiring row [h] holds. *)
Record tracks (data : Data.Bundle) (h m : gmap string cell) : Prop := {
  tr_key : get m "company_id" = get h "company_id";
  tr_hiring :
    forall c, c ∈ columns (Data.hiring data) -> c ∉ touched -> get m c = get h c;
  tr_name :
    "name" ∈ columns (Data.hiring data) -> isna (get h "name") = false ->
    get m "name" = get h "name";
  tr_scores :
    forall c, c ∈ ["momentum_score"; "momentum_tier"; "momentum_rank"; "funding_stage"] ->
    c ∉ columns (Data.hiring data) ->
    joined_cell (Data.scores data) (get h "company_id") (fun s => get s c) (get m c);
  tr_spine :
    forall c, c ∈ spine_cols -> c ∈ columns (Data.spine data) ->
    c ≠ "company_id" -> c ≠ "name" -> c ∉ columns (Data.hiring data) ->
    joined_cell (Data.spine data) (get h "company_id") (fun s => get s c) (get m c);
  tr_label : exists code, get m "funding_stage_label" = stage_label code;
  tr_industry :
    "primary_industry" ∉ columns (Data.hiring data) ->
    joined_cell (Data.features data) (get h "company_id")
      (fun f => PyStr (derive_primary_industry (restrict (ind_cols (Data.features data)) f)))
      (get m "primary_industry");
  tr_jobs :
    "has_job_postings" ∈ columns (Data.features data) ->
    "has_job_postings" ∉ columns (Data.hiring data) ->
    joined_cell (Data.features data) (get h "company_id")
      (fun f => get f "has_job_postings") (get m "has_job_postings")
}.

(** The columns of the master table. *)
Record master_columns (data : Data.Bundle) (master : DataFrame) : Prop := {
  mc_hiring :
    forall c, c ∈ columns (Data.hiring data) -> c ∉ touched -> c ∈ columns master;
  mc_scores :
    forall c, c ∈ ["momentum_score"; "momentum_tier"; "momentum_rank"; "funding_stage"] ->
    c ∉ columns (Data.hiring data) -> c ∈ columns master;
  mc_spine :
    forall c, c ∈ spine_cols -> c ∈ columns (Data.spine data) ->
    c ≠ "company_id" -> c ≠ "name" -> c ∉ columns (Data.hiring data) ->
    c ∈ columns master;
  mc_label : "funding_stage_label" ∈ columns master;
  mc_industry :
    "primary_industry" ∉ columns (Data.hiring data) -> "primary_industry" ∈ columns master;
  mc_jobs :
    "has_job_postings" ∈ columns (Data.features data) ->
    "has_job_postings" ∉ columns (Data.hiring data) -> "has_job_postings" ∈ columns master;
  mc_display : "total_funding_display" ∈ columns master;
  mc_funding :
    "total_funding_usd" ∈ columns (Data.spine data)
    \/ "total_funding_usd" ∈ columns (Data.hiring data);
  mc_tier :
    "momentum_tier" ∈ columns master -> "momentum_tier" ∉ columns (Data.hiring data)
}.

(** What the master row [m] made from the Hiring row [h] holds in the
    columns the run computes. *)
Record derived (data : Data.Bundle) (h m : gmap string cell) : Prop := {
  dv_name :
    "name" ∈ columns (Data.hiring data) -> "name" ∈ columns (Data.spine data) ->
    isna (get h "name") = true ->
    joined_cell (Data.spine data) (get h "company_id") (fun s => get s "name")
      (get m "name");
  dv_display :
    exists s, format_usd (get m "total_funding_usd") = Ok s
              /\ get m "total_funding_display" = PyStr s;
  dv_label : get m "funding_stage_label" = stage_label (get m "funding_stage")
}.

Section Rows.
Variables (data : Data.Bundle) (master : DataFrame).
Variables (scores1 spine1 df1 df2 df3 scores_full df4 df5 df6 df7 df8 : DataFrame).
Variable display : list cell.
Hypothesis scores1_eq :
  pd.getitem_cols (Data.scores data)
    ["company_id"; "momentum_score"; "momentum_tier"; "momentum_rank"] = Ok scores1.
Hypothesis spine1_eq :
  pd.getitem_cols (Data.spine data)
    (filter (fun c => c ∈ columns (Data.spine data)) spine_cols) = Ok spine1.
Hypothesis df1_eq : pd.merge (Data.hiring data) scores1 "company_id" ("_x", "_y") = Ok df1.
Hypothesis df2_eq : pd.merge df1 spine1 "company_id" ("", "_spine") = Ok df2.
Hypothesis df3_cols : forall n, n ∈ columns df3 <-> n ∈ columns df2 /\ n ≠ "name_spine".
Hypothesis df3_rows :
  rows df3 = if decide ("name_spine" ∈ columns df2)
             then map name_row (rows df2) else rows df2.
Hypothesis scores_full_eq :
  pd.getitem_cols (Data.scores data) ["company_id"; "funding_stage"] = Ok scores_full.
Hypothesis df4_eq : pd.merge df3 scores_full "company_id" ("", "_dup") = Ok df4.
Hypothesis df4_stage : "funding_stage" ∈ columns df4.
Hypothesis df5_eq :
  df5 = pd.setitem df4 "funding_stage_label"
          (map (fun r => stage_label (get r "funding_stage")) (rows df4)).
Hypothesis df6_eq :
  pd.merge df5 (ind_table (Data.features data)) "company_id" ("_x", "_y") = Ok df6.
Hypothesis df7_eq :
  (if decide ("has_job_postings" ∈ columns (Data.features data)) then
     pd.merge df6 (jobs_table (Data.features data)) "company_id" ("_x", "_y")
   else Ok df6) = Ok df7.
Hypothesis df7_funding : "total_funding_usd" ∈ columns df7.
Hypothesis display_eq :
  traverse (fun v => s ← format_usd v; Ok (PyStr s))
    (map (fun r => get r "total_funding_usd") (rows df7)) = Ok display.
Hypothesis df8_eq : df8 = pd.setitem df7 "total_funding_display" display.
Hypothesis master_eq : pd.sort_values df8 "hiring_rank" = Ok master.

(** How one row travels from a stage to the master table. *)
Definition step8 (m7 m : gmap string cell) : Prop :=
  exists s, format_usd (get m7 "total_funding_usd") = Ok s
            /\ m = <["total_funding_display" := PyStr s]> m7.

Definition step7 (m6 m : gmap string cell) : Prop :=
  exists m7,
    (if decide ("has_job_postings" ∈ columns (Data.features data)) then
       joined df6 (jobs_table (Data.features data)) df7 "company_id" ("_x", "_y") m6 m7
     else m7 = m6)
    /\ step8 m7 m.

Definition step6 (m5 m : gmap string cell) : Prop :=
  exists m6,
    joined df5 (ind_table (Data.features data)) df6 "company_id" ("_x", "_y") m5 m6
    /\ step7 m6 m.

Definition step5 (m4 m : gmap string cell) : Prop :=
  step6 (<["funding_stage_label" := stage_label (get m4 "funding_stage")]> m4) m.

Definition step4 (m3 m : gmap string cell) : Prop :=
  exists m4, joined df3 scores_full df4 "company_id" ("", "_dup") m3 m4 /\ step5 m4 m.

Definition step3 (m2 m : gmap string cell) : Prop :=
  step4 (if decide ("name_spine" ∈ columns df2) then name_row m2 else m2) m.

Definition step2 (m1 m : gmap string cell) : Prop :=
  exists m2, joined df1 spine1 df2 "company_id" ("", "_spine") m1 m2 /\ step3 m2 m.

Definition step1 (h m : gmap string cell) : Prop :=
  exists m1,
    joined (Data.hiring data) scores1 df1 "company_id" ("_x", "_y") h m1 /\ step2 m1 m.

(** Every Hiring row reaches the master table. *)
Lemma rows_forward h :
  h ∈ rows (Data.hiring data) -> exists m, m ∈ rows master /\ step1 h m.
Proof.
  intros Hh.
  destruct (merge_row_kept _ _ _ _ _ df1_eq h Hh) as (m1 & Hm1 & J1).
  destruct (merge_row_kept _ _ _ _ _ df2_eq m1 Hm1) as (m2 & Hm2 & J2).
  set (m3 := if decide ("name_spine" ∈ columns df2) then name_row m2 else m2).
  assert (Hm3 : m3 ∈ rows df3).
  { rewrite df3_rows. unfold m3.
    destruct (decide ("name_spine" ∈ columns df2)); [|done].
    apply elem_of_map. by exists m2. }
  destruct (merge_row_kept _ _ _ _ _ df4_eq m3 Hm3) as (m4 & Hm4 & J4).
  set (m5 := <["funding_stage_label" := stage_label (get m4 "funding_stage")]> m4).
  assert (Hm5 : m5 ∈ rows df5).
  { rewrite df5_eq, setitem_map. apply elem_of_map. by exists m4. }
  destruct (merge_row_kept _ _ _ _ _ df6_eq m5 Hm5) as (m6 & Hm6 & J6).
  assert (exists m7, m7 ∈ rows df7 /\
            if decide ("has_job_postings" ∈ columns (Data.features data)) then
              joined df6 (jobs_table (Data.features data)) df7 "company_id" ("_x", "_y") m6 m7
            else m7 = m6) as (m7 & Hm7 & J7).
  { pose proof df7_eq as H7. revert H7.
    destruct (decide ("has_job_postings" ∈ columns (Data.features data))); intros H7.
    - apply (merge_row_kept _ _ _ _ _ H7 m6 Hm6).
    - injection H7 as <-. by exists m6. }
  destruct (setitem_traverse_kept df7 "total_funding_display" _ _ _ m7 display_eq Hm7)
    as (v & Hv & Hin).
  apply bind_Ok in Hv as (s & Hs & [= <-]).
  exists (<["total_funding_display" := PyStr s]> m7). split.
  - destruct (sort_values_Ok _ _ _ master_eq) as (_ & _ & Hperm).
    rewrite Hperm, df8_eq. done.
  - exists m1. split; [done|]. exists m2. split; [done|].
    exists m4. split; [done|]. exists m6. split; [done|].
    exists m7. split; [done|]. by exists s.
Qed.

(** Every master row comes from a Hiring row. *)
Lemma rows_backward m :
  m ∈ rows master -> exists h, h ∈ rows (Data.hiring data) /\ step1 h m.
Proof.
  intros Hm.
  destruct (sort_values_Ok _ _ _ master_eq) as (_ & _ & Hperm).
  rewrite Hperm, df8_eq in Hm.
  destruct (setitem_traverse df7 "total_funding_display" _ _ _ m display_eq Hm)
    as (m7 & v & Hm7 & Hv & ->).
  apply bind_Ok in Hv as (s & Hs & [= <-]).
  assert (exists m6, m6 ∈ rows df6 /\
            if decide ("has_job_postings" ∈ columns (Data.features data)) then
              joined df6 (jobs_table (Data.features data)) df7 "company_id" ("_x", "_y") m6 m7
            else m7 = m6) as (m6 & Hm6 & J7).
  { pose proof df7_eq as H7. revert H7.
    destruct (decide ("has_job_postings" ∈ columns (Data.features data))); intros H7.
    - apply (merge_row_inv _ _ _ _ _ H7 m7 Hm7).
    - injection H7 as <-. by exists m7. }
  destruct (merge_row_inv _ _ _ _ _ df6_eq m6 Hm6) as (m5 & Hm5 & J6).
  rewrite df5_eq, setitem_map in Hm5. apply elem_of_map in Hm5 as (m4 & -> & Hm4).
  destruct (merge_row_inv _ _ _ _ _ df4_eq m4 Hm4) as (m3 & Hm3 & J4).
  assert (exists m2, m2 ∈ rows df2 /\
            m3 = if decide ("name_spine" ∈ columns df2) then name_row m2 else m2)
    as (m2 & Hm2 & ->).
  { rewrite df3_rows in Hm3. destruct (decide ("name_spine" ∈ columns df2)).
    - apply elem_of_map in Hm3 as (m2 & -> & Hm2). by exists m2.
    - by exists m3. }
  destruct (merge_row_inv _ _ _ _ _ df2_eq m2 Hm2) as (m1 & Hm1 & J2).
  destruct (merge_row_inv _ _ _ _ _ df1_eq m1 Hm1) as (h & Hh & J1).
  exists h. split; [done|].
  exists m1. split; [done|]. exists m2. split; [done|].
  exists m4. split; [done|]. exists m6. split; [done|].
  exists m7. split; [done|]. by exists s.
Qed.

(** *** Columns of the intermediate tables *)

Lemma scores1_shape :
  columns scores1 = ["company_id"; "momentum_score"; "momentum_tier"; "momentum_rank"]
  /\ rows scores1 = map (restrict (columns scores1)) (rows (Data.scores data)).
Proof. apply getitem_cols_Ok in scores1_eq as (_ & -> & ->). done. Qed.

Lemma spine1_shape :
  columns spine1 = filter (fun c => c ∈ columns (Data.spine data)) spine_cols
  /\ rows spine1 = map (restrict (columns spine1)) (rows (Data.spine data)).
Proof. apply getitem_cols_Ok in spine1_eq as (_ & -> & ->). done. Qed.

Lemma scores_full_shape :
  columns scores_full = ["company_id"; "funding_stage"]
  /\ rows scores_full = map (restrict (columns scores_full)) (rows (Data.scores data)).
Proof. apply getitem_cols_Ok in scores_full_eq as (_ & -> & ->). done. Qed.

(** A name made by a merge suffix. *)
Definition suffix_name (n : string) : bool :=
  Str.endswith n "_x" || Str.endswith n "_y"
  || Str.endswith n "_spine" || Str.endswith n "_dup".

Lemma suffix_name_x c : suffix_name (c +:+ "_x") = true.
Proof. unfold suffix_name. by rewrite StrFacts.endswith_app. Qed.
Lemma suffix_name_y c : suffix_name (c +:+ "_y") = true.
Proof. unfold suffix_name. by rewrite StrFacts.endswith_app, orb_true_r. Qed.
Lemma suffix_name_spine c : suffix_name (c +:+ "_spine") = true.
Proof. unfold suffix_name. by rewrite StrFacts.endswith_app, !orb_true_r. Qed.
Lemma suffix_name_dup c : suffix_name (c +:+ "_dup") = true.
Proof. unfold suffix_name. by rewrite StrFacts.endswith_app, !orb_true_r. Qed.

(** Every column of a stage is a Hiring column, one of the named joined or
    assigned columns, or a suffixed name. *)
Definition known (names : list string) (n : string) : Prop :=
  n ∈ columns (Data.hiring data) \/ n ∈ names \/ suffix_name n = true.

Lemma known_mono names names' n :
  (forall x, x ∈ names -> x ∈ names') -> known names n -> known names' n.
Proof. unfold known. intros H [?|[?|?]]; auto. Qed.

Definition names1 : list string := ["momentum_score"; "momentum_tier"; "momentum_rank"].
Definition names3 : list string := (names1 ++ spine_cols)%list.
Definition names5 : list string := (names3 ++ ["funding_stage"; "funding_stage_label"])%list.
Definition names6 : list string := (names5 ++ ["primary_industry"])%list.
Definition names7 : list string := (names6 ++ ["has_job_postings"])%list.

Lemma cid_hiring : "company_id" ∈ columns (Data.hiring data).
Proof. by destruct (merge_inv _ _ _ _ _ df1_eq) as (? & _). Qed.

Lemma df1_known n : n ∈ columns df1 -> known names1 n.
Proof.
  intros Hn. destruct scores1_shape as [Hc _].
  destruct (merge_columns_inv _ _ _ _ _ df1_eq n Hn)
    as [?|[H|(c & _ & _ & _ & [->| ->])]].
  - by left.
  - rewrite Hc in H. apply elem_of_cons in H as [->|H].
    + left. apply cid_hiring.
    + right. by left.
  - right. right. apply suffix_name_x.
  - right. right. apply suffix_name_y.
Qed.

Lemma df2_known n : n ∈ columns df2 -> known names3 n.
Proof.
  intros Hn. destruct spine1_shape as [Hc _].
  destruct (merge_columns_inv _ _ _ _ _ df2_eq n Hn)
    as [H|[H|(c & H & _ & _ & [->| ->])]].
  - apply (known_mono names1); [|by apply df1_known].
    intros x Hx. apply elem_of_app. by left.
  - rewrite Hc in H. apply list_elem_of_filter in H as [_ H].
    right. left. apply elem_of_app. by right.
  - cbn [fst]. rewrite append_empty.
    apply (known_mono names1); [|by apply df1_known].
    intros x Hx. apply elem_of_app. by left.
  - right. right. apply suffix_name_spine.
Qed.

Lemma df3_known n : n ∈ columns df3 -> known names3 n.
Proof. intros [Hn _]%df3_cols. by apply df2_known. Qed.

Lemma df4_known n : n ∈ columns df4 -> known names5 n.
Proof.
  intros Hn. destruct scores_full_shape as [Hc _].
  destruct (merge_columns_inv _ _ _ _ _ df4_eq n Hn)
    as [H|[H|(c & H & _ & _ & [->| ->])]].
  - apply (known_mono names3); [|by apply df3_known].
    intros x Hx. apply elem_of_app. by left.
  - rewrite Hc in H. apply elem_of_cons in H as [->|H].
    + left. apply cid_hiring.
    + apply list_elem_of_singleton in H as ->. right. left.
      apply elem_of_app. right. by left.
  - cbn [fst]. rewrite append_empty.
    apply (known_mono names3); [|by apply df3_known].
    intros x Hx. apply elem_of_app. by left.
  - right. right. apply suffix_name_dup.
Qed.

Lemma df5_known n : n ∈ columns df5 -> known names5 n.
Proof.
  rewrite df5_eq, setitem_columns. intros [H| ->]; [by apply df4_known|].
  right. left. apply elem_of_app. right. right. by left.
Qed.

Lemma df6_known n : n ∈ columns df6 -> known names6 n.
Proof.
  intros Hn.
  destruct (merge_columns_inv _ _ _ _ _ df6_eq n Hn)
    as [H|[H|(c & _ & _ & _ & [->| ->])]].
  - apply (known_mono names5); [|by apply df5_known].
    intros x Hx. apply elem_of_app. by left.
  - cbn in H. apply elem_of_cons in H as [->|H].
    + left. apply cid_hiring.
    + apply list_elem_of_singleton in H as ->. right. left.
      apply elem_of_app. right. by left.
  - right. right. apply suffix_name_x.
  - right. right. apply suffix_name_y.
Qed.

Lemma df7_known n : n ∈ columns df7 -> known names7 n.
Proof.
  intros Hn. pose proof df7_eq as H7. revert H7.
  destruct (decide ("has_job_postings" ∈ columns (Data.features data))); intros H7.
  - destruct (merge_columns_inv _ _ _ _ _ H7 n Hn)
      as [H|[H|(c & _ & _ & _ & [->| ->])]].
    + apply (known_mono names6); [|by apply df6_known].
      intros x Hx. apply elem_of_app. by left.
    + cbn in H. apply elem_of_cons in H as [->|H].
      * left. apply cid_hiring.
      * apply list_elem_of_singleton in H as ->. right. left.
        apply elem_of_app. right. by left.
    + right. right. apply suffix_name_x.
    + right. right. apply suffix_name_y.
  - injection H7 as <-. apply (known_mono names6); [|by apply df6_known].
    intros x Hx. apply elem_of_app. by left.
Qed.

(** *** Cells that travel unchanged *)

Lemma keep8 m7 m c :
  step8 m7 m -> c ≠ "total_funding_display" -> get m c = get m7 c.
Proof.
  intros (s & _ & ->) Hc. rewrite get_insert.
  by destruct (decide ("total_funding_display" = c)).
Qed.

Lemma not_in_pair (c a b : string) : c ≠ b -> c ∉ [a; b] \/ c = a.
Proof.
  intros Hb. destruct (decide (c = a)) as [->|Ha]; [by right | left].
  intros [?|[?|?%elem_of_nil]%elem_of_cons]%elem_of_cons; done.
Qed.

Lemma keep7 m6 m c :
  step7 m6 m -> c ∈ columns df6 ->
  c ≠ "has_job_postings" -> c ≠ "total_funding_display" ->
  get m c = get m6 c.
Proof.
  intros (m7 & J7 & S8) Hc H1 H2. rewrite (keep8 _ _ _ S8 H2).
  destruct (decide ("has_job_postings" ∈ columns (Data.features data))); [|by subst].
  apply (joined_keep _ _ _ _ _ _ _ _ J7 Hc).
  destruct (not_in_pair c "company_id" "has_job_postings" H1); auto.
Qed.

Lemma keep6 m5 m c :
  step6 m5 m -> c ∈ columns df5 -> c ≠ "primary_industry" ->
  c ≠ "has_job_postings" -> c ≠ "total_funding_display" ->
  get m c = get m5 c.
Proof.
  intros (m6 & J6 & S7) Hc H0 H1 H2.
  assert (Hcase : c ∉ columns (ind_table (Data.features data)) \/ c = "company_id"
                  \/ fst ("_x", "_y") = "").
  { destruct (not_in_pair c "company_id" "primary_industry" H0); auto. }
  rewrite (keep7 _ _ _ S7 (merge_keep_col _ _ _ _ _ _ df6_eq Hc Hcase) H1 H2).
  apply (joined_keep _ _ _ _ _ _ _ _ J6 Hc Hcase).
Qed.

Lemma keep5 m4 m c :
  step5 m4 m -> c ∈ columns df4 -> c ≠ "funding_stage_label" ->
  c ≠ "primary_industry" -> c ≠ "has_job_postings" -> c ≠ "total_funding_display" ->
  get m c = get m4 c.
Proof.
  intros S6 Hc Hl H0 H1 H2. unfold step5 in S6.
  rewrite (keep6 _ _ _ S6); [| |done..].
  - rewrite get_insert. by destruct (decide ("funding_stage_label" = c)).
  - rewrite df5_eq. apply setitem_columns. by left.
Qed.

Lemma keep4 m3 m c :
  step4 m3 m -> c ∈ columns df3 -> c ≠ "funding_stage_label" ->
  c ≠ "primary_industry" -> c ≠ "has_job_postings" -> c ≠ "total_funding_display" ->
  get m c = get m3 c.
Proof.
  intros (m4 & J4 & S5) Hc Hl H0 H1 H2.
  assert (Hcase : c ∉ columns scores_full \/ c = "company_id" \/ fst ("", "_dup") = "")
    by auto.
  rewrite (keep5 _ _ _ S5 (merge_keep_col _ _ _ _ _ _ df4_eq Hc Hcase) Hl H0 H1 H2).
  apply (joined_keep _ _ _ _ _ _ _ _ J4 Hc Hcase).
Qed.

Lemma keep3 m2 m c :
  step3 m2 m -> c ∈ columns df2 -> c ≠ "name" -> c ≠ "name_spine" ->
  c ≠ "funding_stage_label" ->
  c ≠ "primary_industry" -> c ≠ "has_job_postings" -> c ≠ "total_funding_display" ->
  get m c = get m2 c.
Proof.
  intros S4 Hc Hn Hs Hl H0 H1 H2. unfold step3 in S4.
  rewrite (keep4 _ _ _ S4); [| |done..].
  - destruct (decide ("name_spine" ∈ columns df2)); [|done].
    unfold name_row. rewrite get_delete, get_insert by done.
    by destruct (decide ("name" = c)).
  - by apply df3_cols.
Qed.

Lemma keep2 m1 m c :
  step2 m1 m -> c ∈ columns df1 -> c ≠ "name" -> c ≠ "name_spine" ->
  c ≠ "funding_stage_label" ->
  c ≠ "primary_industry" -> c ≠ "has_job_postings" -> c ≠ "total_funding_display" ->
  get m c = get m1 c.
Proof.
  intros (m2 & J2 & S3) Hc Hn Hs Hl H0 H1 H2.
  assert (Hcase : c ∉ columns spine1 \/ c = "company_id" \/ fst ("", "_spine") = "")
    by auto.
  rewrite (keep3 _ _ _ S3 (merge_keep_col _ _ _ _ _ _ df2_eq Hc Hcase) Hn Hs Hl H0 H1 H2).
  apply (joined_keep _ _ _ _ _ _ _ _ J2 Hc Hcase).
Qed.

Lemma keep1 h m c :
  step1 h m -> c ∈ columns (Data.hiring data) -> c ∉ touched ->
  get m c = get h c.
Proof.
  intros (m1 & J1 & S2) Hc Ht.
  assert (Hne : forall x, x ∈ touched -> c ≠ x) by (intros x Hx ->; done).
  assert (Hcase : c ∉ columns scores1 \/ c = "company_id" \/ fst ("_x", "_y") = "").
  { destruct (decide (c = "company_id")) as [->|Hcid]; [auto|left].
    destruct scores1_shape as [-> _].
    intros [?|Hin]%elem_of_cons; [done|]. apply Ht.
    unfold touched. revert Hin. rewrite !elem_of_cons, elem_of_nil. tauto. }
  rewrite (keep2 _ _ _ S2 (merge_keep_col _ _ _ _ _ _ df1_eq Hc Hcase));
    [|apply Hne; unfold touched; in_list..].
  apply (joined_keep _ _ _ _ _ _ _ _ J1 Hc Hcase).
Qed.

(** *** The key *)

Lemma cid1 h m1 :
  joined (Data.hiring data) scores1 df1 "company_id" ("_x", "_y") h m1 ->
  get m1 "company_id" = get h "company_id" /\ "company_id" ∈ columns df1.
Proof.
  intros J1. split.
  - apply (joined_keep _ _ _ _ _ _ _ _ J1 cid_hiring). auto.
  - apply (merge_keep_col _ _ _ _ _ _ df1_eq cid_hiring). auto.
Qed.

Lemma cid3 h m1 m2 :
  joined (Data.hiring data) scores1 df1 "company_id" ("_x", "_y") h m1 ->
  joined df1 spine1 df2 "company_id" ("", "_spine") m1 m2 ->
  get (if decide ("name_spine" ∈ columns df2) then name_row m2 else m2) "company_id"
    = get h "company_id"
  /\ "company_id" ∈ columns df3.
Proof.
  intros J1 J2. destruct (cid1 _ _ J1) as [<- Hc1].
  rewrite <- (joined_keep _ _ _ _ _ _ _ _ J2 Hc1) by auto. split.
  - destruct (decide ("name_spine" ∈ columns df2)); [|done].
    unfold name_row. by rewrite get_delete, get_insert.
  - apply df3_cols. split; [|done].
    apply (merge_keep_col _ _ _ _ _ _ df2_eq Hc1). auto.
Qed.

Lemma cid5 h m1 m2 m4 :
  joined (Data.hiring data) scores1 df1 "company_id" ("_x", "_y") h m1 ->
  joined df1 spine1 df2 "company_id" ("", "_spine") m1 m2 ->
  joined df3 scores_full df4 "company_id" ("", "_dup")
    (if decide ("name_spine" ∈ columns df2) then name_row m2 else m2) m4 ->
  get (<["funding_stage_label" := stage_label (get m4 "funding_stage")]> m4)
      "company_id" = get h "company_id"
  /\ "company_id" ∈ columns df5.
Proof.
  intros J1 J2 J4. destruct (cid3 _ _ _ J1 J2) as [<- Hc3].
  rewrite <- (joined_keep _ _ _ _ _ _ _ _ J4 Hc3) by auto. split.
  - by rewrite get_insert.
  - rewrite df5_eq. apply setitem_columns. left.
    apply (merge_keep_col _ _ _ _ _ _ df4_eq Hc3). auto.
Qed.

(** *** The joined cells *)

Lemma names1_plain c :
  c ∈ names1 ->
  c ≠ "company_id" /\ c ≠ "name" /\ c ≠ "name_spine" /\ c ≠ "funding_stage_label"
  /\ c ≠ "primary_industry" /\ c ≠ "has_job_postings" /\ c ≠ "total_funding_display".
Proof.
  unfold names1. rewrite !elem_of_cons, elem_of_nil.
  intros [->|[->|[->|[]]]]; by_decide.
Qed.

Lemma scores_cell h m c :
  step1 h m -> c ∈ names1 -> c ∉ columns (Data.hiring data) ->
  joined_cell (Data.scores data) (get h "company_id") (fun s => get s c) (get m c).
Proof.
  intros (m1 & J1 & S2) Hc Hh.
  destruct (names1_plain c Hc) as (N0 & N1 & N2 & N3 & N4 & N5 & N6).
  destruct scores1_shape as [Hcols Hrows].
  assert (Hc1 : c ∈ columns scores1).
  { rewrite Hcols. by right. }
  assert (Hc2 : c ∈ columns df1).
  { rewrite <- (suffixed_right_only (Data.hiring data) scores1 "company_id" c "_y" Hh).
    by apply (merge_columns_right _ _ _ _ _ df1_eq). }
  rewrite (keep2 _ _ _ S2 Hc2 N1 N2 N3 N4 N5 N6).
  apply (joined_cell_restrict _ scores1 (columns scores1)); [done|rewrite Hcols; in_list|done|].
  destruct (joined_new _ _ _ _ _ _ _ _ J1 Hc1 N0 Hh) as [(r & ? & ? & ?)|[? ?]];
    [left; by exists r | by right].
Qed.

Lemma stage_cell h m :
  step1 h m -> "funding_stage" ∉ columns (Data.hiring data) ->
  joined_cell (Data.scores data) (get h "company_id")
    (fun s => get s "funding_stage") (get m "funding_stage").
Proof.
  intros (m1 & J1 & m2 & J2 & m4 & J4 & S6) Hh.
  destruct (cid3 _ _ _ J1 J2) as [Hk Hc3].
  destruct scores_full_shape as [Hcols Hrows].
  assert (H3 : "funding_stage" ∉ columns df3).
  { intros [?|[Hn|Hn]]%df3_known; [done| |done].
    revert Hn. by_decide. }
  assert (Hc4 : "funding_stage" ∈ columns scores_full) by (rewrite Hcols; in_list).
  assert (Hc5 : "funding_stage" ∈ columns df5).
  { rewrite df5_eq. apply setitem_columns. left.
    rewrite <- (suffixed_right_only df3 scores_full "company_id" "funding_stage" "_dup" H3).
    by apply (merge_columns_right _ _ _ _ _ df4_eq). }
  rewrite (keep6 _ _ _ S6 Hc5) by done. rewrite get_insert. cbn.
  rewrite <- Hk.
  apply (joined_cell_restrict _ scores_full (columns scores_full));
    [done|rewrite Hcols; in_list|done|].
  assert ("funding_stage" ≠ "company_id") as Hne by done.
  destruct (joined_new _ _ _ _ _ _ _ _ J4 Hc4 Hne H3) as [(r & ? & ? & ?)|[? ?]];
    [left; by exists r | by right].
Qed.

Lemma spine_cols_plain c :
  c ∈ spine_cols ->
  (c ∉ names1) /\ suffix_name c = false /\ c ≠ "name_spine"
  /\ c ≠ "funding_stage_label" /\ c ≠ "primary_industry"
  /\ c ≠ "has_job_postings" /\ c ≠ "total_funding_display".
Proof.
  unfold spine_cols. rewrite !elem_of_cons, elem_of_nil. intros H.
  repeat (destruct H as [->|H]; [by_decide|]). done.
Qed.

Lemma spine_cell h m c :
  step1 h m -> c ∈ spine_cols -> c ∈ columns (Data.spine data) ->
  c ≠ "company_id" -> c ≠ "name" -> c ∉ columns (Data.hiring data) ->
  joined_cell (Data.spine data) (get h "company_id") (fun s => get s c) (get m c).
Proof.
  intros (m1 & J1 & m2 & J2 & S3) Hc Hs N0 N1 Hh.
  destruct (spine_cols_plain c Hc) as (P1 & P2 & N2 & N3 & N4 & N5 & N6).
  destruct (cid1 _ _ J1) as [Hk Hcid1].
  destruct spine1_shape as [Hcols Hrows].
  assert (Hc1 : c ∈ columns spine1).
  { rewrite Hcols. by apply list_elem_of_filter. }
  assert (H1 : c ∉ columns df1).
  { intros [?|[?|Hn]]%df1_known; [done..|]. by rewrite P2 in Hn. }
  assert (Hc2 : c ∈ columns df2).
  { rewrite <- (suffixed_right_only df1 spine1 "company_id" c "_spine" H1).
    by apply (merge_columns_right _ _ _ _ _ df2_eq). }
  rewrite (keep3 _ _ _ S3 Hc2 N1 N2 N3 N4 N5 N6). rewrite <- Hk.
  apply (joined_cell_restrict _ spine1 (columns spine1)); [done| |done|].
  { destruct (merge_inv _ _ _ _ _ df2_eq) as (_ & ? & _). done. }
  destruct (joined_new _ _ _ _ _ _ _ _ J2 Hc1 N0 H1) as [(r & ? & ? & ?)|[? ?]];
    [left; by exists r | by right].
Qed.

(** The label written for a stage code. *)
Lemma label_cell h m :
  step1 h m -> exists code, get m "funding_stage_label" = stage_label code.
Proof.
  intros (m1 & J1 & m2 & J2 & m4 & J4 & S6). eexists.
  rewrite (keep6 _ _ _ S6); [by rewrite get_insert | | done..].
  rewrite df5_eq. apply setitem_columns. by right.
Qed.

Lemma ind_table_cells f :
  let r := restrict ["company_id"; "primary_industry"]
             (<["primary_industry" :=
                  PyStr (derive_primary_industry
                           (restrict (ind_cols (Data.features data)) f))]>
                (restrict (ind_cols (Data.features data)) f)) in
  get r "company_id" = get f "company_id"
  /\ get r "primary_industry" =
       PyStr (derive_primary_industry (restrict (ind_cols (Data.features data)) f)).
Proof.
  cbv zeta. split.
  - rewrite get_restrict.
    destruct (decide ("company_id" ∈ ["company_id"; "primary_industry"])) as [|n];
      [|destruct n; in_list].
    rewrite get_insert.
    destruct (decide ("primary_industry" = "company_id")); [done|].
    rewrite get_restrict.
    destruct (decide ("company_id" ∈ ind_cols (Data.features data))) as [|n'];
      [done | destruct n'; unfold ind_cols; in_list].
  - rewrite get_restrict.
    destruct (decide ("primary_industry" ∈ ["company_id"; "primary_industry"])) as [|n];
      [|destruct n; in_list].
    by rewrite get_insert.
Qed.

Lemma industry_cell h m :
  step1 h m -> "primary_industry" ∉ columns (Data.hiring data) ->
  joined_cell (Data.features data) (get h "company_id")
    (fun f => PyStr (derive_primary_industry (restrict (ind_cols (Data.features data)) f)))
    (get m "primary_industry").
Proof.
  intros (m1 & J1 & m2 & J2 & m4 & J4 & m6 & J6 & S7) Hh.
  destruct (cid5 _ _ _ _ J1 J2 J4) as [Hk Hc5].
  assert (H5 : "primary_industry" ∉ columns df5).
  { intros [?|[Hn|Hn]]%df5_known; [done| |done]. revert Hn. by_decide. }
  assert (Hc : "primary_industry" ∈ columns (ind_table (Data.features data)))
    by (cbn; in_list).
  assert (Hc6 : "primary_industry" ∈ columns df6).
  { rewrite <- (suffixed_right_only df5 (ind_table (Data.features data))
                 "company_id" "primary_industry" "_y" H5).
    by apply (merge_columns_right _ _ _ _ _ df6_eq). }
  rewrite (keep7 _ _ _ S7 Hc6) by done. rewrite <- Hk.
  assert ("primary_industry" ≠ "company_id") as Hne by done.
  destruct (joined_new _ _ _ _ _ _ _ _ J6 Hc Hne H5) as [(r & Hr & Hm & ->)|[Hno ->]].
  - unfold ind_table in Hr. cbn [rows] in Hr.
    apply elem_of_map in Hr as (f & -> & Hf).
    destruct (ind_table_cells f) as [E1 E2]. cbv zeta in E1, E2.
    rewrite E1 in Hm. rewrite E2. left. by exists f.
  - right. split; [|done]. intros f Hf.
    destruct (ind_table_cells f) as [E1 _]. cbv zeta in E1. rewrite <- E1.
    apply Hno. unfold ind_table. cbn [rows]. apply elem_of_map. by exists f.
Qed.

Lemma jobs_cell h m :
  step1 h m -> "has_job_postings" ∈ columns (Data.features data) ->
  "has_job_postings" ∉ columns (Data.hiring data) ->
  joined_cell (Data.features data) (get h "company_id")
    (fun f => get f "has_job_postings") (get m "has_job_postings").
Proof.
  intros (m1 & J1 & m2 & J2 & m4 & J4 & m6 & J6 & m7 & J7 & S8) Hf Hh.
  destruct (cid5 _ _ _ _ J1 J2 J4) as [Hk Hc5].
  destruct (decide ("has_job_postings" ∈ columns (Data.features data))); [|done].
  assert (Hk6 : get m6 "company_id" = get h "company_id").
  { rewrite <- Hk. apply (joined_keep _ _ _ _ _ _ _ _ J6 Hc5). auto. }
  assert (H6 : "has_job_postings" ∉ columns df6).
  { intros [?|[Hn|Hn]]%df6_known; [done| |done]. revert Hn. by_decide. }
  assert (Hc : "has_job_postings" ∈ columns (jobs_table (Data.features data)))
    by (cbn; in_list).
  rewrite (keep8 _ _ _ S8) by done. rewrite <- Hk6.
  apply (joined_cell_restrict _ (jobs_table (Data.features data))
           ["company_id"; "has_job_postings"]); [done|in_list|in_list|].
  assert ("has_job_postings" ≠ "company_id") as Hne by done.
  destruct (joined_new _ _ _ _ _ _ _ _ J7 Hc Hne H6) as [(r & ? & ? & ?)|[? ?]];
    [left; by exists r | by right].
Qed.

Lemma name_cell h m :
  step1 h m -> "name" ∈ columns (Data.hiring data) ->
  isna (get h "name") = false -> get m "name" = get h "name".
Proof.
  intros (m1 & J1 & m2 & J2 & S4) Hc Hna.
  assert (E1 : get m1 "name" = get h "name").
  { apply (joined_keep _ _ _ _ _ _ _ _ J1 Hc). left.
    destruct scores1_shape as [-> _]. by_decide. }
  assert (Hc1 : "name" ∈ columns df1).
  { apply (merge_keep_col _ _ _ _ _ _ df1_eq Hc). left.
    destruct scores1_shape as [-> _]. by_decide. }
  assert (E2 : get m2 "name" = get m1 "name")
    by (apply (joined_keep _ _ _ _ _ _ _ _ J2 Hc1); auto).
  assert (Hc3 : "name" ∈ columns df3).
  { apply df3_cols. split; [|done]. apply (merge_keep_col _ _ _ _ _ _ df2_eq Hc1). auto. }
  unfold step3 in S4. rewrite (keep4 _ _ _ S4 Hc3) by done. rewrite <- E1, <- E2.
  destruct (decide ("name_spine" ∈ columns df2)); [|done].
  unfold name_row. rewrite get_delete, get_insert by done. cbn.
  by rewrite E2, E1, Hna.
Qed.

(** *** Columns that reach the master table *)

Lemma col8 c : c ∈ columns df7 -> c ∈ columns master.
Proof.
  intros Hc. destruct (sort_values_Ok _ _ _ master_eq) as (_ & -> & _).
  rewrite df8_eq. apply setitem_columns. by left.
Qed.

Lemma col7 c : c ∈ columns df6 -> c ≠ "has_job_postings" -> c ∈ columns master.
Proof.
  intros Hc H1. apply col8. pose proof df7_eq as H7. revert H7.
  destruct (decide ("has_job_postings" ∈ columns (Data.features data))); intros H7.
  - apply (merge_keep_col _ _ _ _ _ _ H7 Hc).
    destruct (not_in_pair c "company_id" "has_job_postings" H1); auto.
  - by injection H7 as <-.
Qed.

Lemma col6 c :
  c ∈ columns df5 -> c ≠ "primary_industry" -> c ≠ "has_job_postings" ->
  c ∈ columns master.
Proof.
  intros Hc H0 H1. apply col7; [|done].
  apply (merge_keep_col _ _ _ _ _ _ df6_eq Hc).
  destruct (not_in_pair c "company_id" "primary_industry" H0); auto.
Qed.

Lemma col4 c :
  c ∈ columns df3 -> c ≠ "primary_industry" -> c ≠ "has_job_postings" ->
  c ∈ columns master.
Proof.
  intros Hc H0 H1. apply col6; [|done..].
  rewrite df5_eq. apply setitem_columns. left.
  apply (merge_keep_col _ _ _ _ _ _ df4_eq Hc). auto.
Qed.

Lemma col2 c :
  c ∈ columns df1 -> c ≠ "name_spine" ->
  c ≠ "primary_industry" -> c ≠ "has_job_postings" ->
  c ∈ columns master.
Proof.
  intros Hc Hs H0 H1. apply col4; [|done..]. apply df3_cols. split; [|done].
  apply (merge_keep_col _ _ _ _ _ _ df2_eq Hc). auto.
Qed.

(** The master table has a [momentum_tier] column only when Hiring has
    none of that name. *)
Lemma tier_column :
  "momentum_tier" ∈ columns master -> "momentum_tier" ∉ columns (Data.hiring data).
Proof.
  intros Hm Hh. destruct (sort_values_Ok _ _ _ master_eq) as (_ & Hc8 & _).
  rewrite Hc8, df8_eq in Hm. apply setitem_columns in Hm as [Hm|?]; [|done].
  assert (H6 : "momentum_tier" ∈ columns df6).
  { pose proof df7_eq as H7. revert H7.
    destruct (decide ("has_job_postings" ∈ columns (Data.features data))); intros H7.
    - apply (merge_col_back _ _ _ _ _ _ H7 Hm); [by_decide | by right | done].
    - by injection H7 as <-. }
  assert (H5 : "momentum_tier" ∈ columns df5).
  { apply (merge_col_back _ _ _ _ _ _ df6_eq H6); [by_decide | by right | done]. }
  rewrite df5_eq in H5. apply setitem_columns in H5 as [H4|?]; [|done].
  destruct scores_full_shape as [Hsf _]. destruct spine1_shape as [Hsp _].
  assert (H3 : "momentum_tier" ∈ columns df3).
  { apply (merge_col_back _ _ _ _ _ _ df4_eq H4); [|by left|done].
    rewrite Hsf. by_decide. }
  apply df3_cols in H3 as [H2 _].
  assert (H1 : "momentum_tier" ∈ columns df1).
  { apply (merge_col_back _ _ _ _ _ _ df2_eq H2); [|by left|done].
    rewrite Hsp. intros [_ Hin]%list_elem_of_filter. revert Hin. by_decide. }
  destruct scores1_shape as [Hs1 _].
  revert H1. apply (merge_renamed_gone _ _ _ _ _ _ df1_eq Hh); [|done..].
  rewrite Hs1. in_list.
Qed.

(** The run reads [total_funding_usd], which only Spine or Hiring can
    supply. *)
Lemma funding_column :
  "total_funding_usd" ∈ columns (Data.spine data)
  \/ "total_funding_usd" ∈ columns (Data.hiring data).
Proof.
  pose proof df7_funding as H7'.
  assert (H6 : "total_funding_usd" ∈ columns df6).
  { pose proof df7_eq as H7. revert H7.
    destruct (decide ("has_job_postings" ∈ columns (Data.features data))); intros H7.
    - apply (merge_col_back _ _ _ _ _ _ H7 H7'); [by_decide | by right | done].
    - by injection H7 as <-. }
  assert (H5 : "total_funding_usd" ∈ columns df5).
  { apply (merge_col_back _ _ _ _ _ _ df6_eq H6); [by_decide | by right | done]. }
  rewrite df5_eq in H5. apply setitem_columns in H5 as [H4|?]; [|done].
  destruct scores_full_shape as [Hsf _]. destruct spine1_shape as [Hsp _].
  destruct scores1_shape as [Hs1 _].
  assert (H3 : "total_funding_usd" ∈ columns df3).
  { apply (merge_col_back _ _ _ _ _ _ df4_eq H4); [|by left|done].
    rewrite Hsf. by_decide. }
  apply df3_cols in H3 as [H2 _].
  destruct (decide ("total_funding_usd" ∈ columns (Data.spine data))) as [|Hn];
    [by left | right].
  assert (H1 : "total_funding_usd" ∈ columns df1).
  { apply (merge_col_back _ _ _ _ _ _ df2_eq H2); [|by left|done].
    rewrite Hsp. by intros [? _]%list_elem_of_filter. }
  apply (merge_col_back _ _ _ _ _ _ df1_eq H1); [|by right|done].
  rewrite Hs1. by_decide.
Qed.

Lemma step1_tracks h m : step1 h m -> tracks data h m.
Proof.
  intros S1. split.
  - apply keep1; [done | apply cid_hiring | by_decide].
  - intros c. by apply keep1.
  - by apply name_cell.
  - intros c [->|Hc]%elem_of_cons Hh.
    + apply scores_cell; [done|unfold names1; in_list|done].
    + apply elem_of_cons in Hc as [->|Hc];
        [apply scores_cell; [done|unfold names1; in_list|done]|].
      apply elem_of_cons in Hc as [->|Hc];
        [apply scores_cell; [done|unfold names1; in_list|done]|].
      apply list_elem_of_singleton in Hc as ->. by apply stage_cell.
  - intros c. by apply spine_cell.
  - by apply (label_cell h).
  - by apply industry_cell.
  - by apply jobs_cell.
Qed.

Lemma stages_columns : master_columns data master.
Proof.
  destruct scores1_shape as [Hs1 _]. destruct spine1_shape as [Hsp _].
  destruct scores_full_shape as [Hsf _].
  assert (Hscore : forall c, c ∈ names1 -> c ∉ columns (Data.hiring data) ->
                     c ∈ columns master).
  { intros c Hc Hh. destruct (names1_plain c Hc) as (N0 & N1 & N2 & N3 & N4 & N5 & N6).
    apply col2; [|done..].
    rewrite <- (suffixed_right_only (Data.hiring data) scores1 "company_id" c "_y" Hh).
    apply (merge_columns_right _ _ _ _ _ df1_eq); [|done]. rewrite Hs1. by right. }
  split.
  - intros c Hc Ht.
    assert (Hne : forall x, x ∈ touched -> c ≠ x) by (intros x Hx ->; done).
    apply col2; [|apply Hne; unfold touched; in_list..].
    apply (merge_keep_col _ _ _ _ _ _ df1_eq Hc).
    destruct (decide (c = "company_id")) as [->|Hcid]; [auto|left].
    rewrite Hs1. intros [?|Hin]%elem_of_cons; [done|]. apply Ht.
    unfold touched. revert Hin. rewrite !elem_of_cons, elem_of_nil. tauto.
  - intros c [->|Hc]%elem_of_cons Hh; [apply Hscore; [unfold names1; in_list|done]|].
    apply elem_of_cons in Hc as [->|Hc]; [apply Hscore; [unfold names1; in_list|done]|].
    apply elem_of_cons in Hc as [->|Hc]; [apply Hscore; [unfold names1; in_list|done]|].
    apply list_elem_of_singleton in Hc as ->.
    apply col6; [|done..]. rewrite df5_eq. apply setitem_columns. left.
    assert (H3 : "funding_stage" ∉ columns df3).
    { intros [?|[Hn|Hn]]%df3_known; [done| |done]. revert Hn. by_decide. }
    rewrite <- (suffixed_right_only df3 scores_full "company_id" "funding_stage" "_dup" H3).
    apply (merge_columns_right _ _ _ _ _ df4_eq); [|done]. rewrite Hsf. in_list.
  - intros c Hc Hs N0 N1 Hh.
    destruct (spine_cols_plain c Hc) as (P1 & P2 & N2 & N3 & N4 & N5 & N6).
    apply col4; [|done..]. apply df3_cols. split; [|done].
    assert (H1 : c ∉ columns df1).
    { intros [?|[?|Hn]]%df1_known; [done..|]. by rewrite P2 in Hn. }
    rewrite <- (suffixed_right_only df1 spine1 "company_id" c "_spine" H1).
    apply (merge_columns_right _ _ _ _ _ df2_eq); [|done].
    rewrite Hsp. by apply list_elem_of_filter.
  - apply col6; [|done..]. rewrite df5_eq. apply setitem_columns. by right.
  - intros Hh. apply col7; [|done].
    assert (H5 : "primary_industry" ∉ columns df5).
    { intros [?|[Hn|Hn]]%df5_known; [done| |done]. revert Hn. by_decide. }
    rewrite <- (suffixed_right_only df5 (ind_table (Data.features data))
                 "company_id" "primary_industry" "_y" H5).
    apply (merge_columns_right _ _ _ _ _ df6_eq); [cbn; in_list | done].
  - intros Hf Hh. apply col8. pose proof df7_eq as H7. revert H7.
    destruct (decide ("has_job_postings" ∈ columns (Data.features data))); [|done].
    intros H7.
    assert (H6 : "has_job_postings" ∉ columns df6).
    { intros [?|[Hn|Hn]]%df6_known; [done| |done]. revert Hn. by_decide. }
    rewrite <- (suffixed_right_only df6 (jobs_table (Data.features data))
                 "company_id" "has_job_postings" "_y" H6).
    apply (merge_columns_right _ _ _ _ _ H7); [cbn; in_list | done].
  - destruct (sort_values_Ok _ _ _ master_eq) as (_ & -> & _).
    rewrite df8_eq. apply setitem_columns. by right.
  - apply funding_column.
  - apply tier_column.
Qed.

(** *** The derived cells *)

(** The display string is [format_usd] of the row's own amount. *)
Lemma display_cell h m :
  step1 h m ->
  exists s, format_usd (get m "total_funding_usd") = Ok s
            /\ get m "total_funding_display" = PyStr s.
Proof.
  intros (m1 & _ & m2 & _ & m4 & _ & m6 & _ & m7 & _ & s & Hs & ->).
  exists s. rewrite !get_insert.
  destruct (decide ("total_funding_display" = "total_funding_usd")); [done|].
  by destruct (decide ("total_funding_display" = "total_funding_display")).
Qed.

(** The stage label is the label of the row's own stage code. *)
Lemma label_code_cell h m :
  step1 h m -> get m "funding_stage_label" = stage_label (get m "funding_stage").
Proof.
  intros (m1 & J1 & m2 & J2 & m4 & J4 & S6).
  assert (Hc : "funding_stage" ∈ columns df5).
  { rewrite df5_eq. apply setitem_columns. left. exact df4_stage. }
  assert (Hl : "funding_stage_label" ∈ columns df5).
  { rewrite df5_eq. apply setitem_columns. by right. }
  rewrite (keep6 _ _ "funding_stage_label" S6 Hl), (keep6 _ _ "funding_stage" S6 Hc) by done.
  by rewrite !get_insert.
Qed.

(** A Hiring row without a name takes the name Spine has for the company. *)
Lemma name_fallback h m :
  step1 h m -> "name" ∈ columns (Data.hiring data) -> "name" ∈ columns (Data.spine data) ->
  isna (get h "name") = true ->
  joined_cell (Data.spine data) (get h "company_id") (fun s => get s "name") (get m "name").
Proof.
  intros (m1 & J1 & m2 & J2 & S4) Hh Hs Hna.
  destruct scores1_shape as [Hs1 _]. destruct spine1_shape as [Hsp Hsprows].
  destruct (cid1 _ _ J1) as [Hk Hcid1].
  assert (Hnot : "name" ∉ columns scores1) by (rewrite Hs1; by_decide).
  assert (E1 : get m1 "name" = get h "name")
    by (apply (joined_keep _ _ _ _ _ _ _ _ J1 Hh); by left).
  assert (Hc1 : "name" ∈ columns df1)
    by (apply (merge_keep_col _ _ _ _ _ _ df1_eq Hh); by left).
  assert (Hc1' : "name" ∈ columns spine1).
  { rewrite Hsp. apply list_elem_of_filter. split; [done|]. unfold spine_cols. in_list. }
  assert (E2 : get m2 "name" = get m1 "name")
    by (apply (joined_keep _ _ _ _ _ _ _ _ J2 Hc1); auto).
  assert (Hname : pd.suffixed df1 spine1 "company_id" "_spine" "name" = "name_spine").
  { unfold pd.suffixed, pd.overlap. by rewrite bool_decide_eq_true_2. }
  assert (Hns : "name_spine" ∈ columns df2).
  { rewrite <- Hname. by apply (merge_columns_right _ _ _ _ _ df2_eq). }
  assert (Hc3 : "name" ∈ columns df3).
  { apply df3_cols. split; [|done]. apply (merge_keep_col _ _ _ _ _ _ df2_eq Hc1). auto. }
  unfold step3 in S4. rewrite (keep4 _ _ _ S4 Hc3) by done.
  destruct (decide ("name_spine" ∈ columns df2)); [|done].
  unfold name_row. rewrite get_delete, get_insert by done.
  destruct (decide ("name" = "name")); [|done].
  rewrite E2, E1, Hna. rewrite <- Hk.
  apply (joined_cell_restrict _ spine1 (columns spine1)); [done| |done|].
  { destruct (merge_inv _ _ _ _ _ df2_eq) as (_ & ? & _). done. }
  destruct J2 as (_ & [(r & Hr & Hm & Hg) | [Hno Hg]] & _).
  - left. exists r. split; [done|]. split; [done|].
    rewrite <- (Hg "name" Hc1') by done. cbn [snd]. by rewrite Hname.
  - right. split; [done|]. rewrite <- (Hg "name" Hc1') by done. cbn [snd]. by rewrite Hname.
Qed.

(** The master table has a [name] column when Hiring or Spine has one. *)
Lemma name_column :
  "name" ∈ columns (Data.hiring data) \/ "name" ∈ columns (Data.spine data) ->
  "name" ∈ columns master.
Proof.
  destruct scores1_shape as [Hs1 _]. destruct spine1_shape as [Hsp _].
  intros H. apply col4; [|done..]. apply df3_cols. split; [|done].
  destruct (decide ("name" ∈ columns (Data.hiring data))) as [Hh|Hh].
  - assert (Hc1 : "name" ∈ columns df1).
    { apply (merge_keep_col _ _ _ _ _ _ df1_eq Hh). left. rewrite Hs1. by_decide. }
    apply (merge_keep_col _ _ _ _ _ _ df2_eq Hc1). auto.
  - destruct H as [?|Hs]; [done|].
    assert (H1 : "name" ∉ columns df1).
    { intros [?|[Hn|Hn]]%df1_known; [done| |done]. revert Hn. by_decide. }
    rewrite <- (suffixed_right_only df1 spine1 "company_id" "name" "_spine" H1).
    apply (merge_columns_right _ _ _ _ _ df2_eq); [|done].
    rewrite Hsp. apply list_elem_of_filter. split; [done|]. unfold spine_cols. in_list.
Qed.

(** The helper column of the name repair never reaches the master table. *)
Lemma name_spine_gone : "name_spine" ∉ columns master.
Proof.
  intros Hm. destruct (sort_values_Ok _ _ _ master_eq) as (_ & Hc8 & _).
  rewrite Hc8, df8_eq in Hm. apply setitem_columns in Hm as [Hm|?]; [|done].
  assert (H6 : "name_spine" ∈ columns df6).
  { pose proof df7_eq as H7. revert H7.
    destruct (decide ("has_job_postings" ∈ columns (Data.features data))); intros H7.
    - apply (merge_col_back _ _ _ _ _ _ H7 Hm); [by_decide | by right | done].
    - by injection H7 as <-. }
  assert (H5 : "name_spine" ∈ columns df5).
  { apply (merge_col_back _ _ _ _ _ _ df6_eq H6); [by_decide | by right | done]. }
  rewrite df5_eq in H5. apply setitem_columns in H5 as [H4|?]; [|done].
  destruct scores_full_shape as [Hsf _].
  assert (H3 : "name_spine" ∈ columns df3).
  { apply (merge_col_back _ _ _ _ _ _ df4_eq H4); [|by left|done].
    rewrite Hsf. by_decide. }
  by apply df3_cols in H3 as [_ ?].
Qed.

(** The column the table is sorted by. *)
Lemma rank_column : "hiring_rank" ∈ columns master.
Proof. by destruct (sort_values_Ok _ _ _ master_eq) as (? & -> & _). Qed.

(** Where a column of the master table comes from. *)
Lemma master_known n :
  n ∈ columns master -> n = "total_funding_display" \/ known names7 n.
Proof.
  destruct (sort_values_Ok _ _ _ master_eq) as (_ & -> & _).
  rewrite df8_eq. intros [H| ->]%setitem_columns; [right | by left].
  by apply df7_known.
Qed.

Lemma step1_derived h m : step1 h m -> derived data h m.
Proof.
  intros S1. split.
  - by apply name_fallback.
  - by apply (display_cell h).
  - by apply (label_code_cell h).
Qed.

End Rows.

(** Every Hiring row reaches the master table, and every master row comes
    from a Hiring row. *)
Lemma master_rows data master :
  prepare_master_table data = Ok master ->
  (forall h, h ∈ rows (Data.hiring data) ->
     exists m, m ∈ rows master /\ tracks data h m)
  /\ (forall m, m ∈ rows master ->
        exists h, h ∈ rows (Data.hiring data) /\ tracks data h m)
  /\ master_columns data master.
Proof.
  intros [scores1 spine1 df1 df2 df3 scores_full df4 df5 df6 df7 df8 display
          E1 E2 E3 E4 E5 E6 E7 E8 E9 E10 E11 E12 E13 E14 E15 E16 E17]%prepare_stages.
  split; [|split].
  - intros h Hh.
    edestruct (rows_forward data master scores1 spine1 df1 df2 df3 scores_full df4 df5 df6
                 df7 df8 display) as (m & Hm & S1); [eassumption..|].
    exists m. split; [done|]. eapply step1_tracks; eassumption.
  - intros m Hm.
    edestruct (rows_backward data master scores1 spine1 df1 df2 df3 scores_full df4 df5 df6
                 df7 df8 display) as (h & Hh & S1); [eassumption..|].
    exists h. split; [done|]. eapply step1_tracks; eassumption.
  - eapply stages_columns; eassumption.
Qed.

(** The same two directions with the computed columns, and the columns the
    rendering reads. *)
Lemma master_rows_derived data master :
  prepare_master_table data = Ok master ->
  (forall h, h ∈ rows (Data.hiring data) ->
     exists m, m ∈ rows master /\ tracks data h m /\ derived data h m)
  /\ (forall m, m ∈ rows master ->
        exists h, h ∈ rows (Data.hiring data) /\ tracks data h m /\ derived data h m)
  /\ ("name" ∈ columns (Data.hiring data) \/ "name" ∈ columns (Data.spine data) ->
      "name" ∈ columns master)
  /\ ("name_spine" ∉ columns master)
  /\ "hiring_rank" ∈ columns master
  /\ (forall n, n ∈ columns master ->
        n ∈ columns (Data.hiring data) \/ n = "total_funding_display"
        \/ n ∈ names7 \/ suffix_name n = true).
Proof.
  intros [scores1 spine1 df1 df2 df3 scores_full df4 df5 df6 df7 df8 display
          E1 E2 E3 E4 E5 E6 E7 E8 E9 E10 E11 E12 E13 E14 E15 E16 E17]%prepare_stages.
  split; [|split; [|split; [|split; [|split]]]].
  - intros h Hh.
    edestruct (rows_forward data master scores1 spine1 df1 df2 df3 scores_full df4 df5 df6
                 df7 df8 display) as (m & Hm & S1); [eassumption..|].
    exists m. split; [done|].
    split; [eapply step1_tracks | eapply step1_derived]; eassumption.
  - intros m Hm.
    edestruct (rows_backward data master scores1 spine1 df1 df2 df3 scores_full df4 df5 df6
                 df7 df8 display) as (h & Hh & S1); [eassumption..|].
    exists h. split; [done|].
    split; [eapply step1_tracks | eapply step1_derived]; eassumption.
  - eapply name_column; eassumption.
  - eapply name_spine_gone; eassumption.
  - eapply rank_column; eassumption.
  - intros n Hn.
    edestruct (master_known data master scores1 spine1 df1 df2 df3 scores_full df4 df5 df6
                 df7 df8 display) as [?|[?|[?|?]]]; [eassumption..| | | |]; auto.
Qed.

End Pipeline.

(** ** The worked bundle runs *)

Module ExamplesFacts.
Import Examples.

Lemma demo_run : prepare_master_table demo = Ok demo_master.
Proof. vm_compute. reflexivity. Qed.

End ExamplesFacts.

(** ** prepare_master_table *)

Module MasterFacts.
Import PdFacts Pipeline Spec Examples ExamplesFacts.

Lemma joined_cell_absent T k f v : joined_cell T k f v -> absent T k -> v = NaN.
Proof.
  intros [(r & [Hr Hk] & _) | [_ ->]] Hno; [|done].
  by rewrite (Hno r Hr) in Hk.
Qed.

Lemma joined_cell_present T k f v r :
  joined_cell T k f v -> matches T k r -> exists r', matches T k r' /\ v = f r'.
Proof.
  intros [(r' & Hr' & ->) | [Hno _]] [Hr Hk]; [by exists r'|].
  by rewrite (Hno r Hr) in Hk.
Qed.

(** C1: a successful run keeps every Hiring row.  The master row made from
    a Hiring row carries its Hiring cells (its name when it has one), and
    for a company that Scores, Spine or Features does not know, the cells
    joined from that table are missing. *)
Theorem hiring_rows_kept data master :
  prepare_master_table data = Ok master ->
  forall h, h ∈ rows (Data.hiring data) ->
  exists m, m ∈ rows master
    /\ (forall c, c ∈ columns (Data.hiring data) -> c ∉ touched ->
          c ∈ columns master /\ get m c = get h c)
    /\ ("name" ∈ columns (Data.hiring data) -> isna (get h "name") = false ->
          get m "name" = get h "name")
    /\ (absent (Data.scores data) (get h "company_id") ->
        forall c, c ∈ ["momentum_score"; "momentum_tier"; "momentum_rank"; "funding_stage"] ->
          c ∉ columns (Data.hiring data) -> c ∈ columns master /\ get m c = NaN)
    /\ (absent (Data.spine data) (get h "company_id") ->
        forall c, c ∈ spine_cols -> c ∈ columns (Data.spine data) ->
          c ≠ "company_id" -> c ≠ "name" -> c ∉ columns (Data.hiring data) ->
          c ∈ columns master /\ get m c = NaN)
    /\ (absent (Data.features data) (get h "company_id") ->
        ("primary_industry" ∉ columns (Data.hiring data) ->
           "primary_industry" ∈ columns master /\ get m "primary_industry" = NaN)
        /\ ("has_job_postings" ∈ columns (Data.features data) ->
            "has_job_postings" ∉ columns (Data.hiring data) ->
            "has_job_postings" ∈ columns master /\ get m "has_job_postings" = NaN)).
Proof.
  intros Hrun h Hh. destruct (master_rows _ _ Hrun) as (Hfwd & _ & Hcols).
  destruct (Hfwd h Hh) as (m & Hm & T). exists m. split; [done|].
  destruct T, Hcols. repeat split; eauto using joined_cell_absent.
Qed.

(** In [demo], company c3 is in Hiring only: its master row keeps its rank
    and has no tier, city or industry. *)
Lemma hiring_rows_kept_witness :
  exists m, m ∈ rows demo_master
    /\ get m "company_id" = PyStr "c3"
    /\ get m "hiring_rank" = PyInt 3
    /\ get m "momentum_tier" = NaN
    /\ get m "city" = NaN
    /\ get m "primary_industry" = NaN.
Proof.
  destruct (hiring_rows_kept demo demo_master demo_run demo_c3)
    as (m & Hm & Hkeep & _ & Hscores & Hspine & Hfeat).
  { cbn. in_list. }
  exists m. split; [exact Hm|].
  assert (Hnone : forall T : DataFrame,
            forallb (fun r => negb (pd.key_match (PyStr "c3") (get r "company_id")))
                    (rows T) = true ->
            absent T (PyStr "c3")).
  { intros T HT r Hr. rewrite forallb_forall in HT.
    apply negb_true_iff, HT. by apply list_elem_of_In. }
  split; [apply (Hkeep "company_id"); [cbn; in_list | by_decide]|].
  split; [apply (Hkeep "hiring_rank"); [cbn; in_list | by_decide]|].
  split; [apply Hscores; [by apply Hnone | in_list | by_decide]|].
  split; [apply Hspine; [by apply Hnone | in_list | cbn; in_list | done | done | by_decide]|].
  apply Hfeat; [by apply Hnone | by_decide].
Defined.

Lemma first_industry_label items row :
  first_industry items row = "Other" \/ first_industry items row ∈ map snd items.
Proof.
  induction items as [|[col label] items IH]; cbn; [by left|].
  destruct (py_eq _ _); [right; by left|].
  destruct IH as [?|?]; [by left | right; by right].
Qed.

Lemma derive_primary_industry_label row :
  derive_primary_industry row ∈ industry_labels.
Proof.
  destruct (first_industry_label INDUSTRY_MAP row) as [H|H];
    unfold derive_primary_industry; [rewrite H; in_list|].
  revert H. generalize (first_industry INDUSTRY_MAP row). intros s.
  cbn. unfold industry_labels. rewrite !elem_of_cons, !elem_of_nil. tauto.
Qed.

(** C2 as stated fails: a company that Hiring lists and Features does not
    know has a missing [primary_industry] in the master table. *)
Lemma primary_industry_never_null_counterexample :
  ~ (forall data master,
       prepare_master_table data = Ok master ->
       forall m, m ∈ rows master ->
       exists s, get m "primary_industry" = PyStr s /\ s ∈ industry_labels).
Proof.
  intros H.
  (* the third master row is company c3, which Features does not list *)
  pose (m := List.nth 2 (rows demo_master) ∅).
  assert (Hm : m ∈ rows demo_master).
  { apply list_elem_of_In, nth_In. vm_compute. lia. }
  destruct (H demo demo_master demo_run m Hm) as (s & Hs & _).
  vm_compute in Hs. discriminate.
Qed.

(** C2, amended: [derive_primary_industry] always answers one of the twelve
    labels or ["Other"], and a master row carries that answer when its
    company is in Features; when Features does not know the company, the
    row's [primary_industry] is missing. *)
Theorem primary_industry_label_or_missing data master :
  prepare_master_table data = Ok master ->
  "primary_industry" ∉ columns (Data.hiring data) ->
  (forall row, derive_primary_industry row ∈ industry_labels)
  /\ "primary_industry" ∈ columns master
  /\ forall m, m ∈ rows master ->
       (forall f, matches (Data.features data) (get m "company_id") f ->
          exists s, get m "primary_industry" = PyStr s /\ s ∈ industry_labels)
       /\ (absent (Data.features data) (get m "company_id") ->
           get m "primary_industry" = NaN).
Proof.
  intros Hrun Hh. destruct (master_rows _ _ Hrun) as (_ & Hbwd & Hcols).
  split; [apply derive_primary_industry_label|].
  split; [by apply (mc_industry _ _ Hcols)|].
  intros m Hm. destruct (Hbwd m Hm) as (h & _ & T).
  rewrite (tr_key _ _ _ T). pose proof (tr_industry _ _ _ T Hh) as J. split.
  - intros f Hf. destruct (joined_cell_present _ _ _ _ _ J Hf) as (f' & _ & ->).
    eexists. split; [done|]. apply derive_primary_industry_label.
  - apply (joined_cell_absent _ _ _ _ J).
Qed.

(** In [demo]: c2 has no industry flag set, c1 is SaaS, c3 is not in
    Features. *)
Lemma primary_industry_label_or_missing_witness :
  "primary_industry" ∈ columns demo_master
  /\ map (fun m => get m "primary_industry") (rows demo_master)
     = [PyStr "Other"; PyStr "SaaS"; NaN].
Proof.
  split; [|vm_compute; reflexivity].
  apply (primary_industry_label_or_missing demo); [apply demo_run | by_decide].
Defined.

Lemma stage_label_in code :
  exists s, stage_label code = PyStr s /\ s ∈ stage_labels.
Proof.
  unfold stage_label.
  destruct (List.find _ FUNDING_STAGE_LABELS) as [[k v]|] eqn:E.
  - apply find_some in E as [Hin _]. exists v. split; [done|].
    cbn in Hin. unfold stage_labels.
    destruct Hin as [[= <- <-]|[[= <- <-]|[[= <- <-]|[[= <- <-]|[[= <- <-]|[]]]]]];
      in_list.
  - exists "Unknown". split; [done|]. unfold stage_labels. in_list.
Qed.

(** C8: in every master row [funding_stage_label] is one of the five stage
    labels or ["Unknown"], whatever the stage code; the label computed for a
    code, missing and out-of-range codes included, is always one of the
    six. *)
Theorem funding_stage_label_total data master :
  prepare_master_table data = Ok master ->
  "funding_stage_label" ∈ columns master
  /\ (forall m, m ∈ rows master ->
        exists s, get m "funding_stage_label" = PyStr s /\ s ∈ stage_labels
                  /\ isna (get m "funding_stage_label") = false)
  /\ (forall codes,
        Forall (fun v => exists s, v = PyStr s /\ s ∈ stage_labels)
          (pd.fillna (pd.map_dict FUNDING_STAGE_LABELS codes) (PyStr "Unknown"))).
Proof.
  intros Hrun. destruct (master_rows _ _ Hrun) as (_ & Hbwd & Hcols).
  split; [apply (mc_label _ _ Hcols)|]. split.
  - intros m Hm. destruct (Hbwd m Hm) as (h & _ & T).
    destruct (tr_label _ _ _ T) as [code ->].
    destruct (stage_label_in code) as (s & -> & Hs). by exists s.
  - intros codes. unfold pd.fillna, pd.map_dict. rewrite map_map.
    apply Forall_forall. intros v (code & -> & _)%elem_of_map.
    apply (stage_label_in code).
Qed.

(** In [demo]: c2 has the out-of-range code 7, c1 the code 2, c3 none. *)
Lemma funding_stage_label_total_witness :
  map (fun m => get m "funding_stage_label") (rows demo_master)
    = [PyStr "Unknown"; PyStr "Series A"; PyStr "Unknown"]
  /\ Forall (fun m => exists s, get m "funding_stage_label" = PyStr s
                               /\ s ∈ stage_labels
                               /\ isna (get m "funding_stage_label") = false)
       (rows demo_master).
Proof.
  split; [vm_compute; reflexivity|].
  apply Forall_forall. apply (funding_stage_label_total demo _ demo_run).
Defined.

(** No run succeeds on a bundle in which neither Spine nor Hiring has a
    [total_funding_usd] column. *)
Lemma funding_column_required data master :
  "total_funding_usd" ∉ columns (Data.spine data) ->
  "total_funding_usd" ∉ columns (Data.hiring data) ->
  prepare_master_table data ≠ Ok master.
Proof.
  intros Hs Hh Hrun. destruct (master_rows _ _ Hrun) as (_ & _ & Hcols).
  by destruct (mc_funding _ _ Hcols).
Qed.

(** C3 fails on the code: with a Spine that lacks [total_funding_usd] the
    column intersection succeeds, and the later unguarded read of
    [df["total_funding_usd"]] raises. *)
Theorem missing_funding_column_raises :
  prepare_master_table demo_unfunded = Raise (KeyError "total_funding_usd").
Proof. vm_compute. reflexivity. Qed.

End MasterFacts.

(** ** apply_filters *)

Module FilterFacts.
Import PdFacts Pipeline Spec Examples ExamplesFacts.

(** The test each criterion applies to a row. *)
Definition score_test (min_score : Z) (r : gmap string cell) : result bool :=
  let v := get r "hiring_score" in
  if isna v then Ok false else py_ge v (PyInt min_score).

Definition search_test (atoms : list Re.atom) (r : gmap string cell) : bool :=
  match get r "name" with
  | PyStr x => Re.search true atoms x
  | _ => false
  end.

Lemma isin_map df col values :
  pd.isin (map (fun r => get r col) (rows df)) values = map (member_test col values) (rows df).
Proof. unfold pd.isin. by rewrite map_map. Qed.

Lemma traverse_map {A B} (f : A -> result B) (d : B) l l' :
  traverse f l = Ok l' ->
  l' = map (fun a => match f a with Ok b => b | Raise _ => d end) l
  /\ forall a, a ∈ l -> exists b, f a = Ok b.
Proof.
  revert l'. induction l as [|a l IH]; intros l'; cbn.
  - intros [= <-]. split; [done|]. by intros a ?%elem_of_nil.
  - intros (b & Hb & (bs & Hbs & [= <-])%bind_Ok)%bind_Ok.
    destruct (IH _ Hbs) as [-> Hall]. rewrite Hb. split; [done|].
    intros a' [->|Ha']%elem_of_cons; [by exists b | by apply Hall].
Qed.

Lemma List_filter_true {A} (l : list A) : List.filter (fun _ => true) l = l.
Proof. induction l as [|a l IH]; cbn; [done | by rewrite IH]. Qed.

Definition unwrap (x : result bool) : bool :=
  match x with Ok b => b | Raise _ => false end.

(** One filtering step: the rows kept, in their order. *)
Lemma step_member df col values out :
  (col' ← pd.getitem df col; Ok (pd.loc_mask df (pd.isin col' values))) = Ok out ->
  col ∈ columns df
  /\ out = {| columns := columns df;
              rows := List.filter (member_test col values) (rows df) |}.
Proof.
  intros (c & [Hc ->]%getitem_Ok & [= <-])%bind_Ok. split; [done|].
  by rewrite isin_map, loc_mask_map.
Qed.

Lemma step_score df min_score out :
  (hs ← pd.getitem df "hiring_score";
   mask ← pd.ge hs (PyInt min_score);
   Ok (pd.loc_mask df mask)) = Ok out ->
  "hiring_score" ∈ columns df
  /\ (forall r, r ∈ rows df -> exists b, score_test min_score r = Ok b)
  /\ out = {| columns := columns df;
              rows := List.filter (fun r => unwrap (score_test min_score r)) (rows df) |}.
Proof.
  intros (c & [Hc ->]%getitem_Ok & (mask & Hmask & [= <-])%bind_Ok)%bind_Ok.
  split; [done|]. unfold pd.ge in Hmask.
  apply (traverse_map _ false) in Hmask as [-> Hall]. split.
  - intros r Hr. apply (Hall (get r "hiring_score")). apply elem_of_map. by exists r.
  - rewrite map_map. apply loc_mask_map.
Qed.

Lemma step_search df search out :
  (name ← pd.getitem df "name";
   mask ← pd.str_contains name search false;
   Ok (pd.loc_mask df mask)) = Ok out ->
  "name" ∈ columns df
  /\ exists atoms, Re.compile search = Ok atoms
     /\ out = {| columns := columns df;
                 rows := List.filter (search_test atoms) (rows df) |}.
Proof.
  intros (c & [Hc ->]%getitem_Ok & (mask & Hmask & [= <-])%bind_Ok)%bind_Ok.
  split; [done|]. unfold pd.str_contains in Hmask.
  apply bind_Ok in Hmask as (atoms & Hatoms & [= <-]).
  exists atoms. split; [done|]. rewrite map_map. apply loc_mask_map.
Qed.

(** The rows a successful call keeps: those passing every stated
    criterion, in the order of the input. *)
Definition row_test (min_score : Z) (tiers industries stages : list string)
    (atoms : option (list Re.atom)) (r : gmap string cell) : bool :=
  (if 0 <? min_score then unwrap (score_test min_score r) else true)
  && (match tiers with [] => true | _ => member_test "momentum_tier" tiers r end)
  && (match industries with [] => true | _ => member_test "primary_industry" industries r end)
  && (match stages with [] => true | _ => member_test "funding_stage_label" stages r end)
  && (match atoms with None => true | Some a => search_test a r end).

Lemma apply_filters_Ok df min_score tiers industries stages search out :
  apply_filters df min_score tiers industries stages search = Ok out ->
  exists atoms,
    (match search with
     | EmptyString => atoms = None
     | _ => exists a, Re.compile search = Ok a /\ atoms = Some a
     end)
    /\ columns out = columns df
    /\ rows out = List.filter (row_test min_score tiers industries stages atoms) (rows df)
    /\ (0 < min_score -> "hiring_score" ∈ columns df)
    /\ (tiers ≠ [] -> "momentum_tier" ∈ columns df).
Proof.
  unfold apply_filters.
  intros (f1 & H1 & (f2 & H2 & (f3 & H3 & (f4 & H4 & (f5 & H5 & [= <-])
    %bind_Ok)%bind_Ok)%bind_Ok)%bind_Ok)%bind_Ok.
  assert (S1 : columns f1 = columns df
               /\ rows f1 = List.filter
                    (fun r => if 0 <? min_score then unwrap (score_test min_score r) else true)
                    (rows df)
               /\ (0 < min_score -> "hiring_score" ∈ columns df)).
  { destruct (0 <? min_score) eqn:E.
    - apply step_score in H1 as (Hc & _ & ->). done.
    - injection H1 as <-. split; [done|]. split; [|lia].
      by rewrite List_filter_true. }
  destruct S1 as (C1 & R1 & K1).
  assert (Hmem : forall col values g g',
            (match values with
             | _ :: _ => (c ← pd.getitem g col; Ok (pd.loc_mask g (pd.isin c values)))
             | [] => Ok g
             end) = Ok g' ->
            columns g' = columns g
            /\ rows g' = List.filter
                 (fun r => match values with [] => true | _ => member_test col values r end)
                 (rows g)
            /\ (values ≠ [] -> col ∈ columns g)).
  { intros col [|v values] g g' Hg.
    - injection Hg as <-. split; [done|]. split; [|done].
      by rewrite List_filter_true.
    - apply step_member in Hg as (Hc & ->). done. }
  apply Hmem in H2 as (C2 & R2 & K2). apply Hmem in H3 as (C3 & R3 & _).
  apply Hmem in H4 as (C4 & R4 & _).
  assert (S5 : exists atoms,
            (match search with
             | EmptyString => atoms = None
             | _ => exists a, Re.compile search = Ok a /\ atoms = Some a
             end)
            /\ columns f5 = columns f4
            /\ rows f5 = List.filter
                 (fun r => match atoms with None => true | Some a => search_test a r end)
                 (rows f4)).
  { destruct search as [|ch search].
    - injection H5 as <-. exists None. split; [done|]. split; [done|].
      by rewrite List_filter_true.
    - apply step_search in H5 as (_ & atoms & Ha & ->).
      exists (Some atoms). split; [by exists atoms | done]. }
  destruct S5 as (atoms & Ha & C5 & R5). exists atoms. split; [done|].
  split; [congruence|]. split; [|split; [exact K1 | rewrite <- C1; exact K2]].
  rewrite R5, R4, R3, R2, R1, !List_filter_filter.
  apply filter_ext. intros r. unfold row_test. by rewrite !andb_assoc.
Qed.

Lemma score_test_spec n r : unwrap (score_test n r) = score_at_least n r.
Proof.
  unfold score_test, score_at_least.
  destruct (get r "hiring_score") as [|s|b|z|[sg| sg| |sg m e]]; try done.
Qed.

Lemma score_test_total n r :
  pd.is_str (get r "hiring_score") = false -> exists b, score_test n r = Ok b.
Proof.
  unfold score_test.
  destruct (get r "hiring_score") as [|s|b|z|[sg| sg| |sg m e]]; cbn; eauto; done.
Qed.

Lemma bind_ok {A B} (a : A) (k : A -> result B) : (Ok a ≫= k) = k a.
Proof. reflexivity. Qed.

(** When a call of [apply_filters] succeeds: every column it reads exists,
    no score is text, and the search pattern compiles. *)
Lemma apply_filters_total df min_score tiers industries stages search :
  (0 < min_score -> "hiring_score" ∈ columns df
     /\ forall r, r ∈ rows df -> pd.is_str (get r "hiring_score") = false) ->
  (tiers ≠ [] -> "momentum_tier" ∈ columns df) ->
  (industries ≠ [] -> "primary_industry" ∈ columns df) ->
  (stages ≠ [] -> "funding_stage_label" ∈ columns df) ->
  (search ≠ "" -> "name" ∈ columns df /\ exists a, Re.compile search = Ok a) ->
  exists out, apply_filters df min_score tiers industries stages search = Ok out.
Proof.
  intros H1 H2 H3 H4 H5. unfold apply_filters.
  assert (S1 : exists f1,
            (if 0 <? min_score then
               hs ← pd.getitem df "hiring_score";
               mask ← pd.ge hs (PyInt min_score);
               Ok (pd.loc_mask df mask)
             else Ok df) = Ok f1 /\ columns f1 = columns df).
  { destruct (0 <? min_score) eqn:E; [|by exists df].
    destruct H1 as [Hc Hr]; [lia|]. rewrite (getitem_in _ _ Hc). cbn.
    unfold pd.ge.
    rewrite (traverse_total _ (fun v => unwrap (if isna v then Ok false
                                                else py_ge v (PyInt min_score)))).
    - cbn. eexists. split; [done|]. done.
    - intros v (r & -> & Hin)%elem_of_map.
      destruct (score_test_total min_score r (Hr r Hin)) as [b Hb].
      unfold score_test in Hb. by rewrite Hb. }
  destruct S1 as (f1 & -> & C1). cbn.
  assert (Hmem : forall col values g,
            (values ≠ [] -> col ∈ columns g) ->
            exists g',
              (match values with
               | _ :: _ => (c ← pd.getitem g col; Ok (pd.loc_mask g (pd.isin c values)))
               | [] => Ok g
               end) = Ok g' /\ columns g' = columns g).
  { intros col [|v values] g Hc; [by exists g|].
    rewrite (getitem_in _ _ (Hc ltac:(done))). cbn. eexists. split; done. }
  destruct (Hmem "momentum_tier" tiers f1) as (f2 & -> & C2); [by rewrite C1|]. cbn.
  destruct (Hmem "primary_industry" industries f2) as (f3 & -> & C3);
    [by rewrite C2, C1|]. cbn.
  destruct (Hmem "funding_stage_label" stages f3) as (f4 & -> & C4);
    [by rewrite C3, C2, C1|]. cbn.
  destruct search as [|ch search]; [by eexists|].
  destruct H5 as (Hc & a & Ha); [done|].
  rewrite <- C1, <- C2, <- C3, <- C4 in Hc. rewrite (getitem_in _ _ Hc), bind_ok.
  unfold pd.str_contains. rewrite Ha, !bind_ok. by eexists.
Qed.

(** C6: with no criterion set the filter returns its input, same rows in
    the same order, same columns; so does any threshold that is not
    positive, and no column has to exist for it. *)
Theorem no_criteria_is_identity df :
  apply_filters df 0 [] [] [] "" = Ok df
  /\ (forall out, apply_filters df 0 [] [] [] "" = Ok out ->
        columns out = columns df /\ rows out = rows df)
  /\ (forall min_score, min_score <= 0 -> apply_filters df min_score [] [] [] "" = Ok df).
Proof.
  assert (H : forall min_score, min_score <= 0 ->
                apply_filters df min_score [] [] [] "" = Ok df).
  { intros min_score Hle. unfold apply_filters.
    destruct (0 <? min_score) eqn:E; [lia | reflexivity]. }
  split; [by apply H|]. split; [|exact H].
  intros out Hout. rewrite (H 0) in Hout by lia. by injection Hout as <-.
Qed.

(** A negative threshold on [demo]'s master table. *)
Lemma no_criteria_is_identity_witness :
  apply_filters demo_master (-5) [] [] [] "" = Ok demo_master.
Proof. apply (proj2 (proj2 (no_criteria_is_identity demo_master))). lia. Defined.

(** C7: with [min_score = 50] alone the result is exactly the rows whose
    [hiring_score] is at least 50, in their order; with a tier selection
    added, exactly the rows that also have their [momentum_tier] in the
    selection.  The call succeeds whenever the columns it reads exist and no
    score is text. *)
Theorem min_score_and_tiers df tiers :
  (forall out, apply_filters df 50 [] [] [] "" = Ok out ->
     columns out = columns df
     /\ rows out = List.filter (score_at_least 50) (rows df))
  /\ (forall out, tiers ≠ [] -> apply_filters df 50 tiers [] [] "" = Ok out ->
        columns out = columns df
        /\ rows out = List.filter
             (fun r => score_at_least 50 r && member_test "momentum_tier" tiers r)
             (rows df))
  /\ ("hiring_score" ∈ columns df ->
      (forall r, r ∈ rows df -> pd.is_str (get r "hiring_score") = false) ->
      (tiers ≠ [] -> "momentum_tier" ∈ columns df) ->
      exists out, apply_filters df 50 tiers [] [] "" = Ok out).
Proof.
  split; [|split].
  - intros out (atoms & -> & Hc & -> & _)%apply_filters_Ok. split; [done|].
    apply filter_ext. intros r. unfold row_test. cbn.
    by rewrite score_test_spec, !andb_true_r.
  - intros out Ht (atoms & -> & Hc & -> & _)%apply_filters_Ok. split; [done|].
    apply filter_ext. intros r. unfold row_test. cbn.
    rewrite score_test_spec, !andb_true_r. by destruct tiers.
  - intros Hc Hr Ht. apply apply_filters_total; done.
Qed.

(** On [demo]'s master table, a score of 50 and the tier High leave c1. *)
Lemma min_score_and_tiers_witness :
  exists out,
    apply_filters demo_master 50 ["High"] [] [] "" = Ok out
    /\ map (fun r => get r "company_id") (rows out) = [PyStr "c1"].
Proof.
  destruct (min_score_and_tiers demo_master ["High"]) as (_ & Hboth & Hruns).
  destruct Hruns as [out Hout].
  { by_decide. }
  { apply Forall_forall. by_decide. }
  { intros _. by_decide. }
  exists out. split; [exact Hout|].
  destruct (Hboth out ltac:(done) Hout) as [_ ->]. vm_compute. reflexivity.
Defined.

(** C10: under a non-empty tier selection every row kept has its
    [momentum_tier] among the selected labels, so a row whose tier is
    missing is dropped, also when all five tiers are selected; and since a
    company that Scores does not know has no tier in the master table, it is
    dropped from the master table under any tier selection. *)
Theorem null_tier_rows_dropped :
  (forall df min_score tiers industries stages search out,
     tiers ≠ [] ->
     apply_filters df min_score tiers industries stages search = Ok out ->
     (forall r, r ∈ rows out ->
        r ∈ rows df /\ exists t, get r "momentum_tier" = PyStr t /\ t ∈ tiers)
     /\ (forall r, isna (get r "momentum_tier") = true -> r ∉ rows out))
  /\ (forall df out,
        apply_filters df 0 all_tiers [] [] "" = Ok out ->
        forall r, isna (get r "momentum_tier") = true -> r ∉ rows out)
  /\ (forall data master min_score tiers industries stages search out,
        prepare_master_table data = Ok master ->
        tiers ≠ [] ->
        apply_filters master min_score tiers industries stages search = Ok out ->
        forall r, absent (Data.scores data) (get r "company_id") -> r ∉ rows out).
Proof.
  assert (Hkept : forall df min_score tiers industries stages search out,
            tiers ≠ [] ->
            apply_filters df min_score tiers industries stages search = Ok out ->
            forall r, r ∈ rows out ->
              r ∈ rows df /\ exists t, get r "momentum_tier" = PyStr t /\ t ∈ tiers).
  { intros df min_score tiers industries stages search out Ht
           (atoms & _ & _ & -> & _)%apply_filters_Ok r [Hr Htest]%elem_of_List_filter.
    split; [done|]. unfold row_test in Htest.
    apply andb_prop in Htest as [Htest _]. apply andb_prop in Htest as [Htest _].
    apply andb_prop in Htest as [Htest _]. apply andb_prop in Htest as [_ Htest].
    destruct tiers as [|t0 tiers]; [done|]. unfold member_test in Htest.
    destruct (get r "momentum_tier") as [|t| | |]; try done.
    exists t. split; [done|]. by apply bool_decide_eq_true in Htest. }
  assert (Hnull : forall df min_score tiers industries stages search out,
            tiers ≠ [] ->
            apply_filters df min_score tiers industries stages search = Ok out ->
            forall r, isna (get r "momentum_tier") = true -> r ∉ rows out).
  { intros df min_score tiers industries stages search out Ht Hout r Hna Hr.
    destruct (Hkept _ _ _ _ _ _ _ Ht Hout r Hr) as (_ & t & E & _).
    by rewrite E in Hna. }
  split; [|split].
  - intros. split; eauto.
  - intros df out Hout. by apply (Hnull df 0 all_tiers [] [] "" out).
  - intros data master min_score tiers industries stages search out Hrun Ht Hout r Habs Hr.
    destruct (Hkept _ _ _ _ _ _ _ Ht Hout r Hr) as (Hm & t & E & _).
    destruct (master_rows _ _ Hrun) as (_ & Hbwd & Hcols).
    destruct (Hbwd r Hm) as (h & _ & T).
    apply apply_filters_Ok in Hout as (_ & _ & _ & _ & _ & Hcol).
    pose proof (mc_tier _ _ Hcols (Hcol Ht)) as Hh.
    assert (Hin : "momentum_tier" ∈ ["momentum_score"; "momentum_tier"; "momentum_rank";
                                     "funding_stage"]) by in_list.
    pose proof (tr_scores _ _ _ T "momentum_tier" Hin Hh) as J.
    rewrite <- (tr_key _ _ _ T) in J.
    destruct J as [(s & [Hs Hk] & _) | [_ Hnan]].
    + by rewrite (Habs s Hs) in Hk.
    + by rewrite E in Hnan.
Qed.

(** With every tier selected, [demo]'s company c3, which Scores does not
    list, is gone. *)
Lemma null_tier_rows_dropped_witness :
  exists out,
    apply_filters demo_master 0 all_tiers [] [] "" = Ok out
    /\ map (fun r => get r "company_id") (rows out) = [PyStr "c2"; PyStr "c1"]
    /\ List.nth 2 (rows demo_master) ∅ ∉ rows out.
Proof.
  eexists. split; [vm_compute; reflexivity|]. split; [vm_compute; reflexivity|].
  apply (proj2 (proj2 null_tier_rows_dropped) demo demo_master 0 all_tiers [] [] "" _
           demo_run ltac:(done) ltac:(vm_compute; reflexivity)).
  intros s Hs. revert s Hs. apply Forall_forall. by_decide.
Defined.

(** *** The name search *)







(** C5 fails on the code: the search string is compiled as a regular
    expression, so searching for a full stop keeps every row with a non-empty
    name although none of the names contains a full stop. *)
Theorem search_is_a_regex :
  exists out,
    apply_filters demo_master 0 [] [] [] "." = Ok out
    /\ map (fun r => get r "name") (rows out) = [PyStr "Beta"; PyStr "Acme"; PyStr "Gamma"]
    /\ ~ icontains "Beta" "." /\ ~ icontains "Acme" "." /\ ~ icontains "Gamma" ".".
Proof.
  eexists. split; [vm_compute; reflexivity|]. split; [vm_compute; reflexivity|].
  repeat split; intros H; apply StrFacts.contains_spec in H; discriminate.
Qed.

End FilterFacts.

(** ** Exact comparison of numbers *)

Module NumFacts.

(** Comparing [m1 * 2^e1] with [m2 * 2^e2] at any common scale. *)
Lemma xnum_compare_scale m1 e1 m2 e2 K :
  K <= e1 -> K <= e2 ->
  xnum_compare (Fin m1 e1) (Fin m2 e2) = Z.compare (m1 * 2 ^ (e1 - K)) (m2 * 2 ^ (e2 - K)).
Proof.
  intros H1 H2. cbn. set (e := Z.min e1 e2).
  replace (e1 - K) with ((e1 - e) + (e - K)) by lia.
  replace (e2 - K) with ((e2 - e) + (e - K)) by lia.
  rewrite !Z.pow_add_r, !Z.mul_assoc by lia.
  apply Zmult_compare_compat_r. apply Z.lt_gt, Z.pow_pos_nonneg; lia.
Qed.

Lemma xnum_compare_antisym x y : xnum_compare y x = CompOpp (xnum_compare x y).
Proof.
  destruct x as [|m1 e1|], y as [|m2 e2|]; try done.
  cbn. rewrite (Z.min_comm e2 e1). apply Z.compare_antisym.
Qed.

(** A number written as [m * 2^e] with [e <= 0] compares as the integer it
    equals. *)
Lemma xnum_compare_int m e k y :
  e <= 0 -> m = k * 2 ^ (- e) ->
  xnum_compare (Fin m e) y = xnum_compare (Fin k 0) y.
Proof.
  intros He ->. destruct y as [|m2 e2|]; [done| |done].
  rewrite (xnum_compare_scale _ e _ e2 (Z.min e e2)) by lia.
  rewrite (xnum_compare_scale _ 0 _ e2 (Z.min e e2)) by lia.
  f_equal. rewrite <- Z.mul_assoc, <- Z.pow_add_r by lia. f_equal. f_equal. lia.
Qed.

(** Integers compare as integers. *)
Lemma xnum_compare_ints a b : xnum_compare (Fin a 0) (Fin b 0) = Z.compare a b.
Proof. cbn. by rewrite !Z.mul_1_r. Qed.

Lemma cell_le_ints a b : pd.cell_le (PyInt a) (PyInt b) <-> a <= b.
Proof. unfold pd.cell_le. cbn [num_of_cell]. rewrite xnum_compare_ints. done. Qed.

#[global] Instance cell_le_total : Total pd.cell_le.
Proof.
  intros a b. unfold pd.cell_le.
  destruct (num_of_cell a) as [x|] eqn:Ea, (num_of_cell b) as [y|] eqn:Eb.
  - rewrite (xnum_compare_antisym x y). destruct (xnum_compare x y); cbn; auto.
  - destruct a, b; by left.
  - destruct a, b; by left.
  - destruct a as [|s1| | |], b as [|s2| | |]; try by left.
    apply String.leb_total.
Qed.

End NumFacts.

(** ** apply_filters: what a call needs, and how calls compose *)

Module FilterLaws.
Import PdFacts Pipeline Spec Examples ExamplesFacts FilterFacts.

Lemma frame_eq (a b : DataFrame) : columns a = columns b -> rows a = rows b -> a = b.
Proof. destruct a, b; cbn; by intros -> ->. Qed.

(** The pattern a call searches with: none for an empty search string. *)
Definition compiled (search : string) (atoms : option (list Re.atom)) : Prop :=
  match search with
  | EmptyString => atoms = None
  | _ => exists a, Re.compile search = Ok a /\ atoms = Some a
  end.

Lemma compiled_inj search a1 a2 : compiled search a1 -> compiled search a2 -> a1 = a2.
Proof.
  destruct search as [|c s]; cbn; [congruence|].
  intros (a & Ha & ->) (a' & Ha' & ->). congruence.
Qed.

(** What a call reads: the column of every criterion that is set, with no
    text among the scores. *)
Definition readable (df : DataFrame) (min_score : Z)
    (tiers industries stages : list string) (search : string) : Prop :=
  (0 < min_score -> "hiring_score" ∈ columns df
     /\ forall r, r ∈ rows df -> pd.is_str (get r "hiring_score") = false)
  /\ (tiers ≠ [] -> "momentum_tier" ∈ columns df)
  /\ (industries ≠ [] -> "primary_industry" ∈ columns df)
  /\ (stages ≠ [] -> "funding_stage_label" ∈ columns df)
  /\ (search ≠ "" -> "name" ∈ columns df).

Lemma score_test_str n r b :
  score_test n r = Ok b -> pd.is_str (get r "hiring_score") = false.
Proof.
  unfold score_test. by destruct (get r "hiring_score") as [|s|?|?|[]].
Qed.

Lemma apply_filters_needs df min_score tiers industries stages search out :
  apply_filters df min_score tiers industries stages search = Ok out ->
  readable df min_score tiers industries stages search.
Proof.
  unfold apply_filters.
  intros (f1 & H1 & (f2 & H2 & (f3 & H3 & (f4 & H4 & (f5 & H5 & [= <-])
    %bind_Ok)%bind_Ok)%bind_Ok)%bind_Ok)%bind_Ok.
  assert (S1 : columns f1 = columns df
               /\ (0 < min_score -> "hiring_score" ∈ columns df
                   /\ forall r, r ∈ rows df -> pd.is_str (get r "hiring_score") = false)).
  { destruct (0 <? min_score) eqn:E.
    - apply step_score in H1 as (Hc & Hall & ->). split; [done|]. intros _.
      split; [done|]. intros r Hr. destruct (Hall r Hr) as [b Hb].
      by apply (score_test_str min_score r b).
    - injection H1 as <-. split; [done | lia]. }
  destruct S1 as [C1 K1].
  assert (Hmem : forall col values g g',
            (match values with
             | _ :: _ => (c ← pd.getitem g col; Ok (pd.loc_mask g (pd.isin c values)))
             | [] => Ok g
             end) = Ok g' ->
            columns g' = columns g /\ (values ≠ [] -> col ∈ columns g)).
  { intros col [|v values] g g' Hg.
    - by injection Hg as <-.
    - apply step_member in Hg as (Hc & ->). done. }
  apply Hmem in H2 as (C2 & K2). apply Hmem in H3 as (C3 & K3).
  apply Hmem in H4 as (C4 & K4).
  split; [exact K1|]. split; [by rewrite <- C1|].
  split; [by rewrite <- C1, <- C2|]. split; [by rewrite <- C1, <- C2, <- C3|].
  intros Hs. destruct search as [|ch search]; [done|].
  apply step_search in H5 as (Hc & _). by rewrite <- C1, <- C2, <- C3, <- C4.
Qed.

Lemma apply_filters_exact df min_score tiers industries stages search out :
  apply_filters df min_score tiers industries stages search = Ok out ->
  exists atoms,
    compiled search atoms
    /\ out = {| columns := columns df;
                rows := List.filter (row_test min_score tiers industries stages atoms)
                          (rows df) |}.
Proof.
  intros (atoms & Ha & Hc & Hr & _)%apply_filters_Ok. exists atoms.
  split; [exact Ha|]. by apply frame_eq.
Qed.

Lemma apply_filters_runs df min_score tiers industries stages search atoms :
  readable df min_score tiers industries stages search -> compiled search atoms ->
  apply_filters df min_score tiers industries stages search =
    Ok {| columns := columns df;
          rows := List.filter (row_test min_score tiers industries stages atoms)
                    (rows df) |}.
Proof.
  intros (R1 & R2 & R3 & R4 & R5) Ha.
  destruct (apply_filters_total df min_score tiers industries stages search)
    as [out Hout]; try done.
  { intros Hs. split; [by apply R5|]. destruct search as [|c s]; [done|].
    destruct Ha as (a & Ha & _). by exists a. }
  rewrite Hout. apply apply_filters_exact in Hout as (atoms' & Ha' & ->).
  by rewrite (compiled_inj _ _ _ Ha Ha').
Qed.

Lemma readable_filter df (p : gmap string cell -> bool) min_score tiers industries stages search :
  readable df min_score tiers industries stages search ->
  readable {| columns := columns df; rows := List.filter p (rows df) |}
    min_score tiers industries stages search.
Proof.
  intros (R1 & R2 & R3 & R4 & R5). repeat split; cbn; try tauto.
  intros r [Hr _]%elem_of_List_filter. by apply R1.
Qed.

(** A row against every criterion that is set. *)
Definition passes (min_score : Z) (tiers industries stages : list string)
    (search : string) (r : gmap string cell) : Prop :=
  (0 < min_score -> score_at_least min_score r = true)
  /\ (tiers ≠ [] -> exists t, get r "momentum_tier" = PyStr t /\ t ∈ tiers)
  /\ (industries ≠ [] -> exists t, get r "primary_industry" = PyStr t /\ t ∈ industries)
  /\ (stages ≠ [] -> exists t, get r "funding_stage_label" = PyStr t /\ t ∈ stages)
  /\ (search ≠ "" ->
      exists atoms name,
        Re.compile search = Ok atoms /\ get r "name" = PyStr name
        /\ Re.search true atoms name = true).

Lemma member_test_spec col values r :
  member_test col values r = true <-> exists t, get r col = PyStr t /\ t ∈ values.
Proof.
  unfold member_test. split.
  - destruct (get r col) as [|t| | |]; try done.
    intros H%bool_decide_eq_true. by exists t.
  - intros (t & -> & Ht). by apply bool_decide_eq_true.
Qed.

Lemma member_guard col values r :
  match values with [] => true | _ => member_test col values r end = true
  <-> (values ≠ [] -> exists t, get r col = PyStr t /\ t ∈ values).
Proof.
  destruct values as [|v values]; [done|]. rewrite member_test_spec.
  split; [by intros H _ | intros H; by apply H].
Qed.

Lemma score_guard min_score r :
  (if 0 <? min_score then unwrap (score_test min_score r) else true) = true
  <-> (0 < min_score -> score_at_least min_score r = true).
Proof.
  rewrite score_test_spec. destruct (0 <? min_score) eqn:E.
  - split; [by intros H _ | intros H; apply H; lia].
  - split; [intros _ ?; lia | done].
Qed.

Lemma search_guard search atoms r :
  compiled search atoms ->
  match atoms with None => true | Some a => search_test a r end = true
  <-> (search ≠ "" ->
       exists a name,
         Re.compile search = Ok a /\ get r "name" = PyStr name
         /\ Re.search true a name = true).
Proof.
  destruct search as [|c s]; cbn.
  - intros ->. done.
  - intros (a & Ha & ->). unfold search_test. split.
    + intros H _. destruct (get r "name") as [|name| | |]; try done. by exists a, name.
    + intros H. destruct H as (a' & name & Ha' & -> & Hs); [done|]. congruence.
Qed.

Lemma row_test_passes min_score tiers industries stages search atoms r :
  compiled search atoms ->
  row_test min_score tiers industries stages atoms r = true
  <-> passes min_score tiers industries stages search r.
Proof.
  intros Ha. unfold row_test, passes.
  rewrite !andb_true_iff, score_guard, !member_guard, (search_guard search atoms r Ha).
  tauto.
Qed.

Lemma sublist_List_filter {A} (p : A -> bool) (l : list A) : List.filter p l `sublist_of` l.
Proof.
  induction l as [|a l IH]; cbn; [done|].
  destruct (p a); [by apply sublist_skip | by apply sublist_cons].
Qed.

(** X1: A successful call of [apply_filters] keeps the columns and returns
    the rows that pass every criterion that is set, in the order of the
    input: the result is the input filtered by one test, a sub-list of the
    input, and a row is in it exactly when it is in the input and passes. *)
Theorem filter_keeps_passing_rows df min_score tiers industries stages search out :
  apply_filters df min_score tiers industries stages search = Ok out ->
  columns out = columns df
  /\ rows out `sublist_of` rows df
  /\ (exists keep,
        rows out = List.filter keep (rows df)
        /\ forall r, keep r = true <-> passes min_score tiers industries stages search r)
  /\ (forall r, r ∈ rows out <->
        r ∈ rows df /\ passes min_score tiers industries stages search r).
Proof.
  intros (atoms & Ha & ->)%apply_filters_exact. cbn [columns rows].
  split; [done|]. split; [apply sublist_List_filter|]. split.
  - eexists. split; [done|]. intros r. by apply row_test_passes.
  - intros r. rewrite elem_of_List_filter. by rewrite (row_test_passes _ _ _ _ search).
Qed.

(** [demo]'s master table under a score of 50, the tier High and two
    industries: company c1 is left. *)
Definition demo_high_saas : DataFrame :=
  Eval vm_compute in
    match apply_filters demo_master 50 ["High"] ["SaaS"; "AI"] [] "" with
    | Ok df => df
    | Raise _ => {| columns := []; rows := [] |}
    end.

Lemma demo_high_saas_run :
  apply_filters demo_master 50 ["High"] ["SaaS"; "AI"] [] "" = Ok demo_high_saas.
Proof. vm_compute. reflexivity. Qed.

Lemma filter_keeps_passing_rows_witness :
  columns demo_high_saas = columns demo_master
  /\ rows demo_high_saas `sublist_of` rows demo_master
  /\ map (fun r => get r "company_id") (rows demo_high_saas) = [PyStr "c1"].
Proof.
  destruct (filter_keeps_passing_rows _ _ _ _ _ _ _ demo_high_saas_run) as (Hc & Hs & _).
  split; [exact Hc|]. split; [exact Hs|]. vm_compute. reflexivity.
Defined.

(** X2: filtering is idempotent: applying the same criteria to the
    result of a successful call succeeds and returns that result. *)
Theorem filtering_twice_changes_nothing df min_score tiers industries stages search out :
  apply_filters df min_score tiers industries stages search = Ok out ->
  apply_filters out min_score tiers industries stages search = Ok out.
Proof.
  intros H. pose proof (apply_filters_needs _ _ _ _ _ _ _ H) as Hr.
  apply apply_filters_exact in H as (atoms & Ha & ->).
  rewrite (apply_filters_runs _ _ _ _ _ _ atoms); [|by apply readable_filter|done].
  f_equal. apply frame_eq; [done|]. cbn [rows]. rewrite List_filter_filter.
  apply filter_ext. intros r. by rewrite andb_diag.
Qed.

Lemma filtering_twice_changes_nothing_witness :
  apply_filters demo_high_saas 50 ["High"] ["SaaS"; "AI"] [] "" = Ok demo_high_saas.
Proof.
  apply (filtering_twice_changes_nothing demo_master). exact demo_high_saas_run.
Defined.









Lemma traverse_Raise {A B} (f : A -> result B) (l : list A) a e :
  a ∈ l -> f a = Raise e ->
  (forall a', a' ∈ l -> (exists b, f a' = Ok b) \/ f a' = Raise e) ->
  traverse f l = Raise e.
Proof.
  induction l as [|x l IH]; [by intros ?%elem_of_nil|].
  intros Ha Hf Hall. cbn.
  destruct (Hall x) as [[b Hb]|Hx]; [by left| |by rewrite Hx].
  rewrite Hb. cbn. apply elem_of_cons in Ha as [->|Ha]; [congruence|].
  rewrite IH; [done..|]. intros a' Ha'. apply Hall. by right.
Qed.

Lemma score_step_runs df min_score :
  (0 < min_score -> "hiring_score" ∈ columns df
     /\ forall r, r ∈ rows df -> pd.is_str (get r "hiring_score") = false) ->
  exists f1,
    (if 0 <? min_score then
       hs ← pd.getitem df "hiring_score";
       mask ← pd.ge hs (PyInt min_score);
       Ok (pd.loc_mask df mask)
     else Ok df) = Ok f1 /\ columns f1 = columns df.
Proof.
  intros H1. destruct (0 <? min_score) eqn:E; [|by exists df].
  destruct H1 as [Hc Hr]; [lia|]. rewrite (getitem_in _ _ Hc). cbn.
  unfold pd.ge.
  rewrite (traverse_total _ (fun v => unwrap (if isna v then Ok false
                                              else py_ge v (PyInt min_score)))).
  - cbn. eexists. split; done.
  - intros v (r & -> & Hin)%elem_of_map.
    destruct (score_test_total min_score r (Hr r Hin)) as [b Hb].
    unfold score_test in Hb. by rewrite Hb.
Qed.

Lemma member_step_runs col values g :
  (values ≠ [] -> col ∈ columns g) ->
  exists g',
    (match values with
     | _ :: _ => (c ← pd.getitem g col; Ok (pd.loc_mask g (pd.isin c values)))
     | [] => Ok g
     end) = Ok g' /\ columns g' = columns g.
Proof.
  destruct values as [|v values]; intros Hc; [by exists g|].
  rewrite (getitem_in _ _ (Hc ltac:(done))). cbn. eexists. split; done.
Qed.

Lemma member_step_fails col values g :
  values ≠ [] -> col ∉ columns g ->
  (match values with
   | _ :: _ => (c ← pd.getitem g col; Ok (pd.loc_mask g (pd.isin c values)))
   | [] => Ok g
   end) = Raise (KeyError col).
Proof.
  destruct values as [|v values]; intros Hv Hc; [done|].
  unfold pd.getitem. by destruct (decide (col ∈ columns g)).
Qed.

Lemma tiers_step_raises df min_score tiers industries stages search :
  (0 < min_score -> "hiring_score" ∈ columns df
     /\ forall r, r ∈ rows df -> pd.is_str (get r "hiring_score") = false) ->
  tiers ≠ [] -> "momentum_tier" ∉ columns df ->
  apply_filters df min_score tiers industries stages search
  = Raise (KeyError "momentum_tier").
Proof.
  intros H1 Ht Hc. unfold apply_filters.
  destruct (score_step_runs df min_score H1) as (f1 & -> & C1).
  rewrite bind_ok, member_step_fails; [done..|]. by rewrite C1.
Qed.

(** X5: the exception of a failing call.  A positive threshold on a
    table without [hiring_score] raises [KeyError]; with a score that is text
    it raises [TypeError]; and when the earlier criteria can be applied, a
    selection or a search whose column is missing raises the [KeyError] of
    that column, in the order tiers, industries, stages, search. *)
Theorem filter_first_failure df min_score tiers industries stages search :
  let score_ok :=
    0 < min_score -> "hiring_score" ∈ columns df
      /\ forall r, r ∈ rows df -> pd.is_str (get r "hiring_score") = false in
  let tiers_ok := tiers ≠ [] -> "momentum_tier" ∈ columns df in
  let industries_ok := industries ≠ [] -> "primary_industry" ∈ columns df in
  let stages_ok := stages ≠ [] -> "funding_stage_label" ∈ columns df in
  let run := apply_filters df min_score tiers industries stages search in
  (0 < min_score -> "hiring_score" ∉ columns df -> run = Raise (KeyError "hiring_score"))
  /\ (0 < min_score -> "hiring_score" ∈ columns df ->
      (exists r, r ∈ rows df /\ pd.is_str (get r "hiring_score") = true) ->
      run = Raise TypeError)
  /\ (score_ok -> tiers ≠ [] -> "momentum_tier" ∉ columns df ->
      run = Raise (KeyError "momentum_tier"))
  /\ (score_ok -> tiers_ok -> industries ≠ [] -> "primary_industry" ∉ columns df ->
      run = Raise (KeyError "primary_industry"))
  /\ (score_ok -> tiers_ok -> industries_ok -> stages ≠ [] ->
      "funding_stage_label" ∉ columns df ->
      run = Raise (KeyError "funding_stage_label"))
  /\ (score_ok -> tiers_ok -> industries_ok -> stages_ok -> search ≠ "" ->
      "name" ∉ columns df -> run = Raise (KeyError "name")).
Proof.
  cbv zeta. unfold apply_filters. split; [|split; [|split; [|split; [|split]]]].
  - intros Hm Hc. assert ((0 <? min_score) = true) as -> by lia.
    unfold pd.getitem. by destruct (decide ("hiring_score" ∈ columns df)).
  - intros Hm Hc (r & Hr & Hs). assert ((0 <? min_score) = true) as -> by lia.
    rewrite (getitem_in _ _ Hc), bind_ok. unfold pd.ge.
    rewrite (traverse_Raise _ _ (get r "hiring_score") TypeError); [done| | |].
    + apply elem_of_map. by exists r.
    + by destruct (get r "hiring_score").
    + intros v _. destruct v as [|s|b|z|[sg|sg| |sg m e]]; cbn; eauto.
  - intros H1 Ht Hc. by apply (tiers_step_raises df min_score tiers industries stages search).
  - intros H1 H2 Hi Hc. destruct (score_step_runs df min_score H1) as (f1 & -> & C1).
    rewrite bind_ok.
    destruct (member_step_runs "momentum_tier" tiers f1) as (f2 & -> & C2);
      [by rewrite C1|].
    rewrite bind_ok, member_step_fails; [done..|]. by rewrite C2, C1.
  - intros H1 H2 H3 Hs Hc. destruct (score_step_runs df min_score H1) as (f1 & -> & C1).
    rewrite bind_ok.
    destruct (member_step_runs "momentum_tier" tiers f1) as (f2 & -> & C2);
      [by rewrite C1|].
    rewrite bind_ok.
    destruct (member_step_runs "primary_industry" industries f2) as (f3 & -> & C3);
      [by rewrite C2, C1|].
    rewrite bind_ok, member_step_fails; [done..|]. by rewrite C3, C2, C1.
  - intros H1 H2 H3 H4 Hs Hc. destruct (score_step_runs df min_score H1) as (f1 & -> & C1).
    rewrite bind_ok.
    destruct (member_step_runs "momentum_tier" tiers f1) as (f2 & -> & C2);
      [by rewrite C1|].
    rewrite bind_ok.
    destruct (member_step_runs "primary_industry" industries f2) as (f3 & -> & C3);
      [by rewrite C2, C1|].
    rewrite bind_ok.
    destruct (member_step_runs "funding_stage_label" stages f3) as (f4 & -> & C4);
      [by rewrite C3, C2, C1|].
    rewrite bind_ok. destruct search as [|ch search]; [done|].
    unfold pd.getitem. destruct (decide ("name" ∈ columns f4)) as [Hin|]; [|done].
    by rewrite C4, C3, C2, C1 in Hin.
Qed.

Lemma filter_first_failure_witness :
  apply_filters demo_hiring 50 ["High"] [] [] "" = Raise (KeyError "momentum_tier")
  /\ apply_filters demo_scores 50 [] [] [] "" = Raise (KeyError "hiring_score").
Proof.
  split.
  - apply (filter_first_failure demo_hiring 50 ["High"] [] [] "").
    + intros _. split; [by_decide|]. apply Forall_forall. by_decide.
    + done.
    + by_decide.
  - apply (filter_first_failure demo_scores 50 [] [] [] ""); [lia | by_decide].
Defined.







End FilterLaws.

(** ** prepare_master_table: names, amounts, labels *)

Module MasterLaws.
Import PdFacts Pipeline Spec Examples ExamplesFacts MasterFacts NumFacts.

(** X8: the name repair.  When Hiring and Spine both have a [name]
    column, the master table has a [name] column and no [name_spine]; every
    master row comes from a Hiring row of the same company and carries that
    row's name when it has one, and otherwise the name of a Spine row of the
    company, or a missing name when Spine does not know the company. *)
Theorem name_prefers_hiring data master :
  prepare_master_table data = Ok master ->
  "name" ∈ columns (Data.hiring data) -> "name" ∈ columns (Data.spine data) ->
  "name" ∈ columns master
  /\ ("name_spine" ∉ columns master)
  /\ forall m, m ∈ rows master ->
       exists h, h ∈ rows (Data.hiring data)
         /\ get h "company_id" = get m "company_id"
         /\ (isna (get h "name") = false -> get m "name" = get h "name")
         /\ (isna (get h "name") = true ->
             joined_cell (Data.spine data) (get m "company_id")
               (fun s => get s "name") (get m "name")).
Proof.
  intros Hrun Hh Hs.
  destruct (master_rows_derived _ _ Hrun) as (_ & Hbwd & Hname & Hgone & _).
  split; [apply Hname; by left|]. split; [exact Hgone|].
  intros m Hm. destruct (Hbwd m Hm) as (h & Hin & T & D). exists h.
  split; [done|]. split; [by rewrite (tr_key _ _ _ T)|]. split.
  - by apply (tr_name _ _ _ T).
  - intros Hna. rewrite (tr_key _ _ _ T). by apply (dv_name _ _ _ D).
Qed.

(** In [demo], Hiring has no name for c2 and Spine calls it Beta. *)
Lemma name_prefers_hiring_witness :
  "name" ∈ columns demo_master
  /\ ("name_spine" ∉ columns demo_master)
  /\ map (fun m => get m "name") (rows demo_master)
     = [PyStr "Beta"; PyStr "Acme"; PyStr "Gamma"].
Proof.
  destruct (name_prefers_hiring demo demo_master demo_run) as (H1 & H2 & _);
    [by_decide | by_decide |].
  split; [exact H1|]. split; [exact H2|]. vm_compute. reflexivity.
Defined.

(** X9: in every master row [total_funding_display] is the text
    [format_usd] gives for the row's own [total_funding_usd]; for a company
    that Spine does not know (the amount coming from Spine) it is ["N/A"]. *)
Theorem funding_display_follows_amount data master :
  prepare_master_table data = Ok master ->
  "total_funding_display" ∈ columns master
  /\ forall m, m ∈ rows master ->
       (exists s, format_usd (get m "total_funding_usd") = Ok s
                  /\ get m "total_funding_display" = PyStr s)
       /\ ("total_funding_usd" ∈ columns (Data.spine data) ->
           "total_funding_usd" ∉ columns (Data.hiring data) ->
           absent (Data.spine data) (get m "company_id") ->
           get m "total_funding_display" = PyStr "N/A").
Proof.
  intros Hrun.
  destruct (master_rows_derived _ _ Hrun) as (_ & Hbwd & _).
  destruct (master_rows _ _ Hrun) as (_ & _ & Hcols).
  split; [apply (mc_display _ _ Hcols)|].
  intros m Hm. destruct (Hbwd m Hm) as (h & Hin & T & D).
  destruct (dv_display _ _ _ D) as (s & Hs & Hd). split; [by exists s|].
  intros Hsp Hh Habs.
  assert (Hnan : get m "total_funding_usd" = NaN).
  { apply (joined_cell_absent (Data.spine data) (get m "company_id")
             (fun s => get s "total_funding_usd")); [|done].
    rewrite (tr_key _ _ _ T).
    apply (tr_spine _ _ _ T); [unfold spine_cols; in_list | done..]. }
  rewrite Hnan in Hs. injection Hs as <-. exact Hd.
Qed.

(** In [demo] only c2 is in Spine. *)
Lemma funding_display_follows_amount_witness :
  map (fun m => get m "total_funding_display") (rows demo_master)
    = [PyStr "$2.3M"; PyStr "N/A"; PyStr "N/A"]
  /\ Forall (fun m => exists s, format_usd (get m "total_funding_usd") = Ok s
                                /\ get m "total_funding_display" = PyStr s)
       (rows demo_master).
Proof.
  split; [vm_compute; reflexivity|].
  apply Forall_forall. intros m Hm.
  apply (funding_display_follows_amount demo demo_master demo_run). exact Hm.
Defined.

(** *** Stage codes *)

(** The cell is a number equal to the integer [k]. *)
Definition code_is (code : cell) (k : Z) : bool :=
  match num_of_cell code with
  | Some x => match xnum_compare (Fin k 0) x with Eq => true | _ => false end
  | None => false
  end.

(** The label of a stage code, by the code's value. *)
Definition stage_of_code (code : cell) : string :=
  if code_is code 0 then "Pre-Seed / Angel"
  else if code_is code 1 then "Seed"
  else if code_is code 2 then "Series A"
  else if code_is code 3 then "Series B"
  else if code_is code 4 then "Post-IPO"
  else "Unknown".

Lemma py_eq_float_lit k m e code :
  float_lit k = PyFloat (S754_finite false m e) -> e <= 0 -> Zpos m = k * 2 ^ (- e) ->
  py_eq (float_lit k) code = code_is code k.
Proof.
  intros -> He Hm. unfold py_eq, code_is. cbn [num_of_cell cond_Zopp].
  destruct (num_of_cell code) as [x|]; [|done].
  by rewrite (xnum_compare_int _ _ k x He Hm).
Qed.

Lemma py_eq_float_lit_0 code : py_eq (float_lit 0) code = code_is code 0.
Proof. reflexivity. Qed.

Lemma stage_label_by_value code : stage_label code = PyStr (stage_of_code code).
Proof.
  unfold stage_label, stage_of_code, FUNDING_STAGE_LABELS. cbn [List.find fst snd].
  rewrite py_eq_float_lit_0.
  rewrite (py_eq_float_lit 1 4503599627370496 (-52)) by done.
  rewrite (py_eq_float_lit 2 4503599627370496 (-51)) by done.
  rewrite (py_eq_float_lit 3 6755399441055744 (-51)) by done.
  rewrite (py_eq_float_lit 4 4503599627370496 (-50)) by done.
  by repeat destruct (code_is code _).
Qed.

(** X10: in every master row the stage label is decided by the value of
    the row's own [funding_stage]: the codes 0 to 4, as integers or as
    floats, give the five labels, and every other cell (another number, text,
    a missing value) gives ["Unknown"].  Boolean codes are left aside: how
    pandas maps them depends on the column's dtype, which is not modelled. *)
Theorem stage_label_follows_code data master :
  prepare_master_table data = Ok master ->
  forall m, m ∈ rows master ->
    (forall b, get m "funding_stage" ≠ PyBool b) ->
    get m "funding_stage_label" = PyStr (stage_of_code (get m "funding_stage")).
Proof.
  intros Hrun m Hm _.
  destruct (master_rows_derived _ _ Hrun) as (_ & Hbwd & _).
  destruct (Hbwd m Hm) as (h & _ & _ & D).
  by rewrite (dv_label _ _ _ D), stage_label_by_value.
Qed.

(** In [demo] the codes are 7.0, 2.0 and none; and the labels of a few
    codes. *)
Lemma stage_label_follows_code_witness :
  map (fun m => get m "funding_stage_label") (rows demo_master)
    = map (fun m => PyStr (stage_of_code (get m "funding_stage"))) (rows demo_master)
  /\ map stage_of_code [PyInt 1; float_lit 1; half 3; PyInt 4; PyInt 5; PyStr "1"; NaN]
     = ["Seed"; "Seed"; "Unknown"; "Post-IPO"; "Unknown"; "Unknown"; "Unknown"].
Proof.
  split; [|vm_compute; reflexivity].
  assert (H : forallb (fun m => match get m "funding_stage" with
                               | PyBool _ => false
                               | _ => true
                               end) (rows demo_master) = true)
    by (vm_compute; reflexivity).
  rewrite forallb_forall in H. apply map_ext_in. intros m Hm.
  apply (stage_label_follows_code demo demo_master demo_run m).
  - by apply list_elem_of_In.
  - intros b Hb. specialize (H m Hm). by rewrite Hb in H.
Defined.

End MasterLaws.

(** ** prepare_master_table: order, size and columns of the master table *)

Module MasterShape.
Import PdFacts Pipeline Spec Examples ExamplesFacts MasterFacts NumFacts.

(** *** Order *)

Definition by_rank (a b : gmap string cell) : Prop :=
  pd.cell_le (get a "hiring_rank") (get b "hiring_rank").

Definition rank_of (r : gmap string cell) : Z :=
  match get r "hiring_rank" with PyInt z => z | _ => 0 end.

Lemma sort_values_rows df by_ df' :
  pd.sort_values df by_ = Ok df' ->
  let keys := map (fun r => get r by_) (rows df) in
  let present := List.filter (fun k => negb (isna k)) keys in
  (forallb pd.is_number present || forallb pd.is_str present = true)
  /\ rows df' =
       (merge_sort (fun r1 r2 => pd.cell_le (get r1 by_) (get r2 by_))
          (List.filter (fun r => negb (isna (get r by_))) (rows df))
        ++ List.filter (fun r => negb (negb (isna (get r by_)))) (rows df))%list.
Proof.
  unfold pd.sort_values. intros (keys & [_ ->]%getitem_Ok & H)%bind_Ok. cbv zeta.
  destruct (_ || _); [|discriminate]. by injection H as <-.
Qed.

Lemma cell_le_trans_num a b c :
  pd.is_number a = true -> pd.is_number b = true -> pd.is_number c = true ->
  pd.cell_le a b -> pd.cell_le b c -> pd.cell_le a c.
Proof.
  unfold pd.is_number, pd.cell_le.
  destruct (num_of_cell a) as [x|], (num_of_cell b) as [y|], (num_of_cell c) as [z|];
    try done.
  intros _ _ _.
  destruct x as [|m1 e1|], y as [|m2 e2|], z as [|m3 e3|]; try done.
  set (K := Z.min e1 (Z.min e2 e3)).
  rewrite (xnum_compare_scale m1 e1 m2 e2 K), (xnum_compare_scale m2 e2 m3 e3 K),
    (xnum_compare_scale m1 e1 m3 e3 K) by lia.
  rewrite !Z.compare_gt_iff. lia.
Qed.

Lemma Sorted_StronglySorted_on {A} (R : relation A) (P : A -> Prop) l :
  (forall x y z, P x -> P y -> P z -> R x y -> R y z -> R x z) ->
  Forall P l -> Sorted R l -> StronglySorted R l.
Proof.
  intros Htrans HP Hs. induction Hs as [|a l Hs IH Hhd]; [constructor|].
  apply Forall_cons in HP as [Pa HP]. specialize (IH HP). constructor; [done|].
  destruct Hhd as [|b l' Hab]; [constructor|].
  apply StronglySorted_inv in IH as [_ Hb]. apply Forall_cons in HP as [Pb HP'].
  constructor; [done|]. rewrite Forall_forall in *. intros c Hc.
  apply (Htrans a b c); auto.
Qed.

#[local] Instance by_rank_total : Total by_rank.
Proof. intros a b. apply (total pd.cell_le). Qed.

Lemma ranks_sorted l :
  Forall (fun r => exists z, get r "hiring_rank" = PyInt z) l ->
  StronglySorted by_rank l -> StronglySorted Z.le (map rank_of l).
Proof.
  intros HP Hs. induction Hs as [|a l Hs IH Ha]; [constructor|].
  apply Forall_cons in HP as [[za Pa] HP]. cbn [map]. constructor; [by apply IH|].
  apply Forall_forall. intros z (c & -> & Hc)%elem_of_map.
  rewrite Forall_forall in Ha, HP. destruct (HP c Hc) as [zc Pc].
  specialize (Ha c Hc). unfold by_rank in Ha. unfold rank_of.
  rewrite Pa, Pc in *. by apply cell_le_ints.
Qed.

(** X11: the master table is in rank order.  Its rows are the rows with a
    [hiring_rank], sorted, followed by the rows without one; when the ranks
    are numbers every earlier row has a rank no larger than every later one,
    and when they are all integers the list of ranks is non-decreasing. *)
Theorem master_sorted_by_rank data master :
  prepare_master_table data = Ok master ->
  exists ranked unranked,
    rows master = (ranked ++ unranked)%list
    /\ Forall (fun r => isna (get r "hiring_rank") = false) ranked
    /\ Forall (fun r => isna (get r "hiring_rank") = true) unranked
    /\ Sorted by_rank ranked
    /\ (Forall (fun r => pd.is_number (get r "hiring_rank") = true) ranked ->
        StronglySorted by_rank ranked)
    /\ ((forall m, m ∈ rows master -> exists z, get m "hiring_rank" = PyInt z) ->
        StronglySorted Z.le (map rank_of (rows master))).
Proof.
  intros [scores1 spine1 df1 df2 df3 scores_full df4 df5 df6 df7 df8 display
          _ _ _ _ _ _ _ _ _ _ _ _ _ _ _ _ Hsort]%prepare_stages.
  apply sort_values_rows in Hsort as [_ Hrows]. cbv zeta in Hrows.
  set (ranked := merge_sort _ _) in Hrows. set (unranked := List.filter _ _) in Hrows.
  assert (Hr : Forall (fun r => isna (get r "hiring_rank") = false) ranked).
  { apply Forall_forall. intros r Hin. unfold ranked in Hin.
    rewrite merge_sort_Permutation in Hin.
    apply elem_of_List_filter in Hin as [_ Hin]. by apply negb_true_iff in Hin. }
  assert (Hu : Forall (fun r => isna (get r "hiring_rank") = true) unranked).
  { apply Forall_forall. intros r [_ Hin]%elem_of_List_filter.
    by rewrite negb_involutive in Hin. }
  assert (Hs : Sorted by_rank ranked) by apply (Sorted_merge_sort by_rank).
  assert (Hss : Forall (fun r => pd.is_number (get r "hiring_rank") = true) ranked ->
                StronglySorted by_rank ranked).
  { intros Hn. apply (Sorted_StronglySorted_on by_rank _ ranked) in Hn; [done| |done].
    intros x y z. apply cell_le_trans_num. }
  exists ranked, unranked. repeat (split; [done|]).
  intros Hint.
  assert (unranked = []) as Hnil.
  { destruct unranked as [|u us] eqn:E; [done|]. exfalso.
    apply Forall_cons in Hu as [Hu _].
    destruct (Hint u) as [z Hz]; [rewrite Hrows; apply elem_of_app; right; left|].
    by rewrite Hz in Hu. }
  rewrite Hrows, Hnil, app_nil_r.
  assert (Hall : Forall (fun r => exists z, get r "hiring_rank" = PyInt z) ranked).
  { apply Forall_forall. intros r Hin. apply Hint. rewrite Hrows. apply elem_of_app. by left. }
  apply ranks_sorted; [done|]. apply Hss.
  apply (Forall_impl _ _ _ Hall). by intros r [z ->].
Qed.

(** [demo]'s master table: ranks 1, 2, 3. *)
Lemma master_sorted_by_rank_witness :
  map rank_of (rows demo_master) = [1; 2; 3]
  /\ StronglySorted Z.le (map rank_of (rows demo_master)).
Proof.
  split; [vm_compute; reflexivity|].
  destruct (master_sorted_by_rank demo demo_master demo_run)
    as (ranked & unranked & _ & _ & _ & _ & _ & H).
  apply H. apply Forall_forall.
  assert (Hb : forallb (fun m => match get m "hiring_rank" with
                                 | PyInt _ => true
                                 | _ => false
                                 end) (rows demo_master) = true)
    by (vm_compute; reflexivity).
  apply Forall_forall. intros m Hm%list_elem_of_In.
  rewrite forallb_forall in Hb. specialize (Hb m Hm).
  destruct (get m "hiring_rank") as [| | |z|]; try done. by exists z.
Defined.

(** *** Size *)

(** No key matches two rows of the table. *)
Definition unique_key (T : DataFrame) : Prop :=
  forall k,
    (length (List.filter (fun r => pd.key_match k (get r "company_id")) (rows T)) <= 1)%nat.

Lemma merge_length L R M on suf :
  pd.merge L R on suf = Ok M ->
  (length (rows L) <= length (rows M))%nat
  /\ ((forall k, (length (List.filter (fun r => pd.key_match k (get r on)) (rows R))
                  <= 1)%nat) ->
      length (rows M) = length (rows L)).
Proof.
  intros HM. destruct (merge_inv _ _ _ _ _ HM) as (_ & _ & _ & _ & ->).
  match goal with |- context [flat_map ?f _] => set (g := f) end.
  assert (G1 : forall l, (1 <= length (g l))%nat).
  { intros l. unfold g. destruct (List.filter _ (rows R)); cbn [length map]; lia. }
  assert (G2 : (forall k, (length (List.filter (fun r => pd.key_match k (get r on)) (rows R))
                           <= 1)%nat) ->
               forall l, length (g l) = 1%nat).
  { intros Hu l. specialize (Hu (get l on)). unfold g.
    destruct (List.filter _ (rows R)) as [|r0 [|r1 ms]]; cbn [length map] in *; lia. }
  clearbody g. split.
  - induction (rows L) as [|l ls IH]; [done|].
    cbn [flat_map]. rewrite length_app. cbn [length]. specialize (G1 l). lia.
  - intros Hu. induction (rows L) as [|l ls IH]; [done|].
    cbn [flat_map]. rewrite length_app, (G2 Hu l), IH. done.
Qed.

Lemma unique_map (T : DataFrame) (f : gmap string cell -> gmap string cell) k :
  (forall r, get (f r) "company_id" = get r "company_id") ->
  unique_key T ->
  (length (List.filter (fun r => pd.key_match k (get r "company_id")) (map f (rows T)))
   <= 1)%nat.
Proof.
  intros Hf Hu. rewrite filter_map_swap, length_map.
  rewrite (filter_ext _ (fun r => pd.key_match k (get r "company_id"))); [apply Hu|].
  intros r. by rewrite Hf.
Qed.

Lemma restrict_key cols r :
  "company_id" ∈ cols -> get (restrict cols r) "company_id" = get r "company_id".
Proof. intros H. rewrite get_restrict. by destruct (decide ("company_id" ∈ cols)). Qed.

(** X12: the master table has at least as many rows as Hiring, and
    exactly as many when no key matches two rows of Scores, of Spine or of
    Features. *)
Theorem master_row_count data master :
  prepare_master_table data = Ok master ->
  (length (rows (Data.hiring data)) <= length (rows master))%nat
  /\ (unique_key (Data.scores data) -> unique_key (Data.spine data) ->
      unique_key (Data.features data) ->
      length (rows master) = length (rows (Data.hiring data))).
Proof.
  intros [scores1 spine1 df1 df2 df3 scores_full df4 df5 df6 df7 df8 display
          Hs1 Hsp1 Hdf1 Hdf2 _ Hdf3 Hsf Hdf4 _ Hdf5 _ Hdf6 Hdf7 _ Hdisp Hdf8 Hsort]
    %prepare_stages.
  apply getitem_cols_Ok in Hs1 as (_ & Cs1 & Rs1).
  apply getitem_cols_Ok in Hsp1 as (_ & Csp1 & Rsp1).
  apply getitem_cols_Ok in Hsf as (_ & Csf & Rsf).
  destruct (merge_inv _ _ _ _ _ Hdf2) as (_ & Hcid_sp & _).
  destruct (merge_length _ _ _ _ _ Hdf1) as [A1 B1].
  destruct (merge_length _ _ _ _ _ Hdf2) as [A2 B2].
  destruct (merge_length _ _ _ _ _ Hdf4) as [A4 B4].
  destruct (merge_length _ _ _ _ _ Hdf6) as [A6 B6].
  assert (L3 : length (rows df3) = length (rows df2)).
  { rewrite Hdf3. destruct (decide _); [apply length_map | done]. }
  assert (L5 : length (rows df5) = length (rows df4)).
  { by rewrite Hdf5, setitem_map, length_map. }
  assert (L7 : (length (rows df6) <= length (rows df7))%nat
               /\ (unique_key (Data.features data) ->
                   length (rows df7) = length (rows df6))).
  { destruct (decide ("has_job_postings" ∈ columns (Data.features data))).
    - destruct (merge_length _ _ _ _ _ Hdf7) as [A7 B7]. split; [done|].
      intros Hu. apply B7. intros k. apply unique_map; [|done].
      intros r. apply restrict_key. in_list.
    - by injection Hdf7 as <-. }
  destruct L7 as [A7 B7].
  assert (L8 : length (rows df8) = length (rows df7)).
  { rewrite Hdf8. cbn [rows pd.setitem]. apply traverse_Ok, Forall2_length in Hdisp.
    rewrite length_map in Hdisp. by apply length_zip_with_l_eq. }
  assert (L9 : length (rows master) = length (rows df8)).
  { destruct (sort_values_Ok _ _ _ Hsort) as (_ & _ & Hp). by rewrite Hp. }
  split; [lia|]. intros Us Usp Uf.
  rewrite L9, L8, (B7 Uf), B6, L5, B4, L3, B2, B1; [done| | | |].
  - intros k. rewrite Rs1. apply unique_map; [|done].
    intros r. apply restrict_key. in_list.
  - intros k. rewrite Rsp1. apply unique_map; [|done].
    intros r. apply restrict_key. by rewrite <- Csp1.
  - intros k. rewrite Rsf. apply unique_map; [|done].
    intros r. apply restrict_key. in_list.
  - intros k. unfold ind_table. cbn [rows]. apply unique_map; [|done].
    intros r. apply (ind_table_cells data r).
Qed.

Lemma key_match_str k x : pd.key_match k (PyStr x) = true -> k = PyStr x.
Proof.
  unfold pd.key_match. rewrite andb_false_r. cbn [orb].
  destruct k as [|s|b|z|f]; cbn; try done.
  - by intros ->%String.eqb_eq.
  - by destruct f.
Qed.

(** A table whose keys are distinct strings. *)
Lemma unique_key_strings T ids :
  map (fun r => get r "company_id") (rows T) = map PyStr ids -> NoDup ids ->
  unique_key T.
Proof.
  intros Hmap Hnd k. revert ids Hmap Hnd.
  induction (rows T) as [|r rs IH]; intros ids Hmap Hnd; [cbn; lia|].
  destruct ids as [|x ids]; [done|]. injection Hmap as Hr Hrs.
  apply NoDup_cons in Hnd as [Hx Hnd]. specialize (IH ids Hrs Hnd).
  cbn [List.filter]. rewrite Hr.
  destruct (pd.key_match k (PyStr x)) eqn:E; [|done]. cbn [length].
  assert (List.filter (fun r => pd.key_match k (get r "company_id")) rs = []) as ->;
    [|cbn; lia].
  clear IH. revert ids Hrs Hx Hnd. induction rs as [|r' rs IH]; intros ids Hrs Hx Hnd; [done|].
  destruct ids as [|y ids]; [done|]. injection Hrs as Hr' Hrs.
  apply not_elem_of_cons in Hx as [Hxy Hx]. apply NoDup_cons in Hnd as [_ Hnd].
  cbn [List.filter]. rewrite Hr', (IH ids Hrs Hx Hnd).
  destruct (pd.key_match k (PyStr y)) eqn:E'; [|done]. exfalso. apply Hxy.
  apply key_match_str in E, E'. congruence.
Qed.

(** [demo]: three companies in Hiring, three master rows. *)
Lemma master_row_count_witness : length (rows demo_master) = 3%nat.
Proof.
  apply (proj2 (master_row_count demo demo_master demo_run)).
  - apply (unique_key_strings _ ["c1"; "c2"]); [vm_compute; reflexivity | by_decide].
  - apply (unique_key_strings _ ["c2"]); [vm_compute; reflexivity | by_decide].
  - apply (unique_key_strings _ ["c1"; "c2"]); [vm_compute; reflexivity | by_decide].
Defined.

(** *** Columns *)

Lemma hiring_has_key data master :
  prepare_master_table data = Ok master -> "company_id" ∈ columns (Data.hiring data).
Proof.
  intros [scores1 spine1 df1 df2 df3 scores_full df4 df5 df6 df7 df8 display
          _ _ Hdf1 _ _ _ _ _ _ _ _ _ _ _ _ _ _]%prepare_stages.
  by destruct (merge_inv _ _ _ _ _ Hdf1) as (? & _).
Qed.

(** X13: what a run reads.  A successful run shows that [company_id] is
    a column of all four tables, [hiring_rank] a column of Hiring, the three
    momentum columns and [funding_stage] columns of Scores, and
    [total_funding_usd] a column of Spine or of Hiring; and every column of
    the master table is a Hiring column, one of the joined or computed names,
    or a name made by a merge suffix. *)
Theorem prepare_needs_columns data master :
  prepare_master_table data = Ok master ->
  "company_id" ∈ columns (Data.hiring data)
  /\ "hiring_rank" ∈ columns (Data.hiring data)
  /\ (forall c, c ∈ ["company_id"; "momentum_score"; "momentum_tier"; "momentum_rank";
                     "funding_stage"] -> c ∈ columns (Data.scores data))
  /\ "company_id" ∈ columns (Data.spine data)
  /\ "company_id" ∈ columns (Data.features data)
  /\ ("total_funding_usd" ∈ columns (Data.spine data)
      \/ "total_funding_usd" ∈ columns (Data.hiring data))
  /\ (forall n, n ∈ columns master ->
        n ∈ columns (Data.hiring data) \/ n = "total_funding_display"
        \/ n ∈ names7 \/ suffix_name n = true).
Proof.
  intros Hrun.
  destruct (master_rows_derived _ _ Hrun) as (_ & _ & _ & _ & Hrank & Hknown).
  destruct (master_rows _ _ Hrun) as (_ & _ & Hcols).
  apply prepare_stages in Hrun
    as [scores1 spine1 df1 df2 df3 scores_full df4 df5 df6 df7 df8 display
        Hs1 Hsp1 Hdf1 Hdf2 _ _ Hsf _ _ _ Hic _ _ _ _ _ _].
  apply getitem_cols_Ok in Hs1 as (Hs1 & _ & _).
  apply getitem_cols_Ok in Hsp1 as (_ & Csp1 & _).
  apply getitem_cols_Ok in Hsf as (Hsf & _ & _).
  destruct (merge_inv _ _ _ _ _ Hdf1) as (Hcid & _).
  destruct (merge_inv _ _ _ _ _ Hdf2) as (_ & Hcid_sp & _).
  split; [done|]. split.
  { destruct (Hknown _ Hrank) as [?|[?|[Hn|Hn]]]; [done..| |done].
    revert Hn. by_decide. }
  split.
  { intros c [->|Hc]%elem_of_cons; [apply Hs1; in_list|].
    apply elem_of_cons in Hc as [->|Hc]; [apply Hs1; in_list|].
    apply elem_of_cons in Hc as [->|Hc]; [apply Hs1; in_list|].
    apply elem_of_cons in Hc as [->|Hc]; [apply Hs1; in_list|].
    apply list_elem_of_singleton in Hc as ->. apply Hsf. in_list. }
  split.
  { rewrite Csp1 in Hcid_sp. by apply list_elem_of_filter in Hcid_sp as [? _]. }
  split; [apply Hic; unfold ind_cols; in_list|].
  split; [apply (mc_funding _ _ Hcols) | exact Hknown].
Qed.

(** [demo] runs; its Scores table without the stage code does not. *)
Lemma prepare_needs_columns_witness :
  "hiring_rank" ∈ columns (Data.hiring demo)
  /\ forall master,
       prepare_master_table
         {| Data.scores := {| columns := ["company_id"; "momentum_score"; "momentum_tier";
                                          "momentum_rank"];
                              rows := rows demo_scores |};
            Data.hiring := demo_hiring; Data.features := demo_features;
            Data.metadata := demo_metadata; Data.spine := demo_spine |} ≠ Ok master.
Proof.
  split.
  - apply (prepare_needs_columns demo demo_master demo_run).
  - intros master Hrun.
    destruct (prepare_needs_columns _ _ Hrun) as (_ & _ & Hs & _).
    specialize (Hs "funding_stage" ltac:(in_list)). revert Hs. by_decide.
Defined.

End MasterShape.

(** ** derive_primary_industry: which flag wins *)

Module IndustryFacts.
Import PdFacts Pipeline Spec Examples ExamplesFacts MasterFacts NumFacts.

(** The test of [derive_primary_industry] on one column: the row has the
    column and its cell equals 1. *)
Definition flag_set (row : gmap string cell) (col : string) : bool :=
  py_eq (default (PyInt 0) (row !! col)) (PyInt 1).

Lemma first_industry_split pre col label post row :
  (forall c l, (c, l) ∈ pre -> flag_set row c = false) ->
  flag_set row col = true ->
  first_industry (pre ++ (col, label) :: post) row = label.
Proof.
  intros Hpre Hcol. induction pre as [|[c l] pre IH]; cbn.
  - unfold flag_set in Hcol. by rewrite Hcol.
  - fold (flag_set row c). rewrite (Hpre c l) by left.
    apply IH. intros c' l' Hin. apply (Hpre c' l'). by right.
Qed.

Lemma first_industry_none items row :
  (forall c l, (c, l) ∈ items -> flag_set row c = false) ->
  first_industry items row = "Other".
Proof.
  induction items as [|[c l] items IH]; intros H; cbn; [done|].
  fold (flag_set row c). rewrite (H c l) by left.
  apply IH. intros c' l' Hin. apply (H c' l'). by right.
Qed.

Lemma first_industry_some items row :
  (exists c l, (c, l) ∈ items /\ flag_set row c = true) ->
  first_industry items row ∈ map snd items.
Proof.
  induction items as [|[c l] items IH]; intros (c' & l' & Hin & Hset); cbn.
  - by apply elem_of_nil in Hin.
  - fold (flag_set row c). destruct (flag_set row c) eqn:E; [by left|]. right.
    apply elem_of_cons in Hin as [[= -> ->]|Hin]; [congruence|].
    apply IH. by exists c', l'.
Qed.

(** The cell equals 1: the integer, the float or the Boolean. *)
Lemma flag_set_value row col :
  flag_set row col = true <->
  exists v x, row !! col = Some v /\ num_of_cell v = Some x
              /\ xnum_compare x (Fin 1 0) = Eq.
Proof.
  unfold flag_set. destruct (row !! col) as [v|].
  - change (default (PyInt 0) (Some v)) with v.
    assert (py_eq v (PyInt 1)
            = match num_of_cell v with
              | Some x => match xnum_compare x (Fin 1 0) with Eq => true | _ => false end
              | None => false
              end) as -> by (by destruct v).
    split.
    + destruct (num_of_cell v) as [x|] eqn:E; [|done].
      destruct (xnum_compare x (Fin 1 0)) eqn:C; try done. intros _. by exists v, x.
    + intros (v' & x & [= <-] & -> & ->). done.
  - split; [done|]. by intros (v & x & ? & _).
Qed.

(** X14: [derive_primary_industry] answers the label of the first column
    of [INDUSTRY_MAP], in its declared order, whose cell equals 1, and
    ["Other"] exactly when there is none; a cell counts when the row has the
    column and its value is the number 1, so that 2, 0.5, text and missing
    values do not. *)
Theorem first_set_flag_wins row :
  (forall pre col label post,
     INDUSTRY_MAP = (pre ++ (col, label) :: post)%list ->
     (forall c l, (c, l) ∈ pre -> flag_set row c = false) ->
     flag_set row col = true ->
     derive_primary_industry row = label)
  /\ (derive_primary_industry row = "Other"
      <-> forall c l, (c, l) ∈ INDUSTRY_MAP -> flag_set row c = false)
  /\ (forall col, flag_set row col = true <->
        exists v x, row !! col = Some v /\ num_of_cell v = Some x
                    /\ xnum_compare x (Fin 1 0) = Eq).
Proof.
  split; [|split].
  - intros pre col label post E Hpre Hcol. unfold derive_primary_industry.
    rewrite E. by apply first_industry_split.
  - split.
    + intros Hother c l Hin. destruct (flag_set row c) eqn:E; [|done]. exfalso.
      assert (derive_primary_industry row ∈ map snd INDUSTRY_MAP) as Hl.
      { apply first_industry_some. by exists c, l. }
      rewrite Hother in Hl. revert Hl. by_decide.
    + apply first_industry_none.
  - apply flag_set_value.
Qed.

(** A company flagged SaaS and FinTech is SaaS; flags of 2, of 0.5 and of
    text do not count. *)
Lemma first_set_flag_wins_witness :
  derive_primary_industry
    (row_of [("ind_fintech", PyInt 1); ("ind_saas", float_lit 1); ("ind_ai", PyInt 0)])
    = "SaaS"
  /\ derive_primary_industry
       (row_of [("ind_ai", PyInt 2); ("ind_it", half 1); ("ind_ml", PyStr "1")])
     = "Other".
Proof.
  split.
  - apply (proj1 (first_set_flag_wins _)
             [("ind_ai", "AI"); ("ind_software", "Software"); ("ind_it", "IT")]
             "ind_saas" "SaaS"
             [("ind_healthcare", "Healthcare"); ("ind_fintech", "FinTech");
              ("ind_financial", "Financial Services"); ("ind_ml", "Machine Learning");
              ("ind_manufacturing", "Manufacturing"); ("ind_biotech", "Biotech");
              ("ind_genai", "Generative AI"); ("ind_devtools", "Developer Tools")]).
    + reflexivity.
    + intros c l Hin. repeat (apply elem_of_cons in Hin as [[= -> ->]|Hin]; [reflexivity|]).
      by apply elem_of_nil in Hin.
    + reflexivity.
  - apply (proj1 (proj2 (first_set_flag_wins _))).
    intros c l Hin. unfold INDUSTRY_MAP in Hin.
    repeat (apply elem_of_cons in Hin as [[= -> ->]|Hin]; [reflexivity|]).
    by apply elem_of_nil in Hin.
Defined.

(** *** In the master table *)

Lemma lookup_restrict cols r c :
  restrict cols r !! c = if decide (c ∈ cols) then Some (get r c) else None.
Proof.
  unfold pd.restrict. destruct (decide (c ∈ cols)) as [Hc|Hc].
  - apply elem_of_list_to_map_1'.
    + intros v' Hv'. apply elem_of_map in Hv' as (c' & [= -> ->] & _). done.
    + apply elem_of_map. by exists c.
  - apply not_elem_of_list_to_map_1. rewrite <- map_fst_fmap, map_map. cbn.
    by rewrite map_id.
Qed.

(** The flag of a Features row: the table has the column and the cell
    equals 1. *)
Definition features_flag (F : DataFrame) (f : gmap string cell) (col : string) : bool :=
  bool_decide (col ∈ columns F) && py_eq (get f col) (PyInt 1).

Lemma flag_set_restrict F f col :
  Str.startswith col "ind_" = true ->
  flag_set (restrict (ind_cols F) f) col = features_flag F f col.
Proof.
  intros Hind. unfold flag_set, features_flag. rewrite lookup_restrict.
  assert (col ∈ ind_cols F <-> col ∈ columns F) as Hiff.
  { unfold ind_cols. rewrite elem_of_cons, elem_of_List_filter. split.
    - intros [->|[? _]]; [discriminate | done].
    - intros ?. by right. }
  destruct (decide (col ∈ ind_cols F)) as [Hc|Hc].
  - by rewrite bool_decide_eq_true_2 by by apply Hiff.
  - by rewrite bool_decide_eq_false_2 by by rewrite <- Hiff.
Qed.

Lemma industry_map_prefixed : Forall (fun cl => Str.startswith (fst cl) "ind_" = true) INDUSTRY_MAP.
Proof. repeat constructor. Qed.

(** X15: the industry of a master row whose company Features knows is
    [derive_primary_industry] of a Features row of that company, cut down to
    the key and the [ind_] columns: a flag counts when Features has the
    column and the cell equals 1. *)
Theorem master_industry_reads_flags data master :
  prepare_master_table data = Ok master ->
  "primary_industry" ∉ columns (Data.hiring data) ->
  forall m f0, m ∈ rows master -> matches (Data.features data) (get m "company_id") f0 ->
  exists f row,
    matches (Data.features data) (get m "company_id") f
    /\ get m "primary_industry" = PyStr (derive_primary_industry row)
    /\ forall c l, (c, l) ∈ INDUSTRY_MAP ->
         flag_set row c = features_flag (Data.features data) f c.
Proof.
  intros Hrun Hh m f0 Hm Hf0.
  destruct (master_rows _ _ Hrun) as (_ & Hbwd & _).
  destruct (Hbwd m Hm) as (h & _ & T).
  pose proof (tr_industry _ _ _ T Hh) as J. rewrite <- (tr_key _ _ _ T) in J.
  destruct (joined_cell_present _ _ _ _ _ J Hf0) as (f & Hf & ->).
  exists f, (restrict (ind_cols (Data.features data)) f). split; [done|]. split; [done|].
  intros c l Hin. apply flag_set_restrict.
  pose proof industry_map_prefixed as Hp. rewrite Forall_forall in Hp.
  apply (Hp (c, l) Hin).
Qed.

(** In [demo], Features flags c1 as SaaS and c2 as nothing. *)
Lemma master_industry_reads_flags_witness :
  exists f row,
    matches demo_features (PyStr "c1") f
    /\ get (List.nth 1 (rows demo_master) ∅) "primary_industry"
       = PyStr (derive_primary_industry row)
    /\ forall c l, (c, l) ∈ INDUSTRY_MAP -> flag_set row c = features_flag demo_features f c.
Proof.
  apply (master_industry_reads_flags demo demo_master demo_run ltac:(by_decide)
           (List.nth 1 (rows demo_master) ∅) (List.nth 0 (rows demo_features) ∅)).
  - apply list_elem_of_In, nth_In. vm_compute. lia.
  - split; [apply list_elem_of_In, nth_In; vm_compute; lia | vm_compute; reflexivity].
Defined.

End IndustryFacts.

(** ** format_usd: where it fails, and negative amounts *)

Module FormatLaws.
Import Spec FormatFacts.

Lemma py_ge_float f n :
  exists b, py_ge (PyFloat f) (PyInt n) = Ok b.
Proof. destruct f; cbn; eauto. Qed.

(** X16: [format_usd] never fails on a float, whether finite, infinite
    or NaN, nor on [None]; it fails with [TypeError] on text.  On a float the
    result is ["N/A"] or starts with a dollar sign. *)
Theorem format_usd_fails_only_on_text :
  (forall f, exists s,
     format_usd (PyFloat f) = Ok s /\ (s = "N/A" \/ exists t, s = "$" +:+ t))
  /\ format_usd PyNone = Ok "N/A"
  /\ (forall s, format_usd (PyStr s) = Raise TypeError).
Proof.
  split; [|split; [reflexivity | reflexivity]].
  intros f. unfold format_usd.
  destruct (isna (PyFloat f)); [by eexists; split; [|left]|].
  destruct (py_ge_float f 1000000) as [b ->]. cbn [mbind result_bind].
  destruct b; [by eexists; split; [|right; eexists]|].
  destruct (py_ge_float f 1000) as [b ->]. cbn [mbind result_bind].
  destruct b; by eexists; split; [|right; eexists].
Qed.

Lemma neg_below p e n : 0 < n -> xnum_compare (Fin (Zneg p) e) (Fin n 0) = Lt.
Proof.
  intros Hn. cbn. apply Z.compare_lt_iff.
  assert (0 < 2 ^ (e - Z.min e 0)) by (apply Z.pow_pos_nonneg; lia).
  assert (0 < 2 ^ (0 - Z.min e 0)) by (apply Z.pow_pos_nonneg; lia).
  nia.
Qed.

Lemma py_ge_neg_float m e n :
  0 < n -> py_ge (PyFloat (S754_finite true m e)) (PyInt n) = Ok false.
Proof.
  intros Hn.
  change (py_ge (PyFloat (S754_finite true m e)) (PyInt n))
    with (Ok (A:=bool) (match xnum_compare (Fin (Zneg m) e) (Fin n 0) with
                        | Lt => false
                        | _ => true
                        end)).
  by rewrite neg_below.
Qed.

Lemma py_ge_neg_int p n : 0 < n -> py_ge (PyInt (Zneg p)) (PyInt n) = Ok false.
Proof.
  intros Hn.
  change (py_ge (PyInt (Zneg p)) (PyInt n))
    with (Ok (A:=bool) (match xnum_compare (Fin (Zneg p) 0) (Fin n 0) with
                        | Lt => false
                        | _ => true
                        end)).
  by rewrite neg_below.
Qed.

(** X17: a negative amount is never abbreviated: the thresholds compare
    the signed value, so whatever its size it is printed in full, with its
    sign and thousands separators. *)
Theorem negative_amounts_in_full :
  (forall m e,
     format_usd (PyFloat (S754_finite true m e))
     = Ok ("$-" +:+ Fmt.group_thousands (pretty (Z.to_N (Fmt.scaled 0 m e)))))
  /\ (forall p,
        format_usd (PyInt (Zneg p))
        = (f ← float_of_int (Zneg p); Ok ("$" +:+ Fmt.format_f true 0 f))).
Proof.
  split.
  - intros m e. unfold format_usd. cbn [isna].
    rewrite !py_ge_neg_float by lia. cbn [mbind result_bind py_format_f].
    by rewrite format_f_grouped.
  - intros p. unfold format_usd. cbn [isna].
    rewrite !py_ge_neg_int by lia. cbn [mbind result_bind py_format_f].
    by destruct (float_of_int (Z.neg p)).
Qed.

(** Minus 2.3 million, as a float and as an integer. *)
Lemma negative_amounts_in_full_witness :
  format_usd (PyFloat (S754_finite true 4939212390400000 (-31))) = Ok "$-2,300,000"
  /\ format_usd (PyInt (-2300000)) = Ok "$-2,300,000".
Proof.
  destruct negative_amounts_in_full as [Hf Hi]. split.
  - rewrite Hf. vm_compute. reflexivity.
  - rewrite Hi. vm_compute. reflexivity.
Defined.

End FormatLaws.

(** ** Remote reader: a prefix with an underscore segment *)

Module RemoteReaderLaws.
Import RemoteReader StrFacts Spec RemoteReaderFacts.

(** X18: under a key that itself has a path segment starting with an
    underscore, every object listed under that prefix is skipped as a
    sentinel, so the reader fetches the key itself whatever the listing
    holds. *)
Theorem underscore_key_skips_listing ext key contents :
  Str.contains key "/_" = true ->
  (forall k, k ∈ contents -> Str.startswith k key = true) ->
  target_key ext contents key = key.
Proof.
  intros Hkey Hpre. unfold target_key. rewrite data_files_none; [done|].
  intros k Hk [_ Hno]. apply Hno.
  apply Hpre, startswith_spec in Hk as [post ->].
  apply contains_spec in Hkey as (a & b & ->).
  exists a, (b +:+ post). by rewrite !append_assoc.
Qed.

Lemma underscore_key_skips_listing_witness :
  target_key ".csv" ["out/_tmp/scores.csv/part-00000.csv"; "out/_tmp/scores.csv/_SUCCESS"]
    "out/_tmp/scores.csv"
  = "out/_tmp/scores.csv".
Proof.
  apply underscore_key_skips_listing; [reflexivity|].
  intros k Hk. repeat (apply elem_of_cons in Hk as [->|Hk]; [reflexivity|]).
  by apply elem_of_nil in Hk.
Defined.

End RemoteReaderLaws.

(** ** The ranked table *)

Module RenderFacts.
Import PdFacts Pipeline Spec Examples ExamplesFacts MasterFacts FilterFacts FilterLaws Render.

Lemma NoDup_map_inj {A B} (f : A -> B) (l : list A) x y :
  NoDup (map f l) -> x ∈ l -> y ∈ l -> f x = f y -> x = y.
Proof.
  induction l as [|a l IH]; [by intros _ ?%elem_of_nil|].
  cbn [map]. intros [Ha Hnd]%NoDup_cons Hx Hy E.
  apply elem_of_cons in Hx as [->|Hx], Hy as [->|Hy]; [done| | |by apply IH].
  - destruct Ha. rewrite E. apply elem_of_map. by exists y.
  - destruct Ha. rewrite <- E. apply elem_of_map. by exists x.
Qed.

Lemma get_renamed mapping keys r c :
  NoDup (map (new_name mapping) keys) -> c ∈ keys ->
  get (list_to_map (map (fun c => (new_name mapping c, get r c)) keys))
      (new_name mapping c) = get r c.
Proof.
  intros Hnd Hc. apply get_list_to_map; [|apply elem_of_map; by exists c].
  intros v' (c' & [= E ->] & Hc')%elem_of_map.
  by rewrite (NoDup_map_inj _ _ _ _ Hnd Hc Hc' E).
Qed.

Lemma display_names : map (new_name display_cols) (map fst display_cols) = map snd display_cols.
Proof. reflexivity. Qed.

Lemma display_names_NoDup : NoDup (map snd display_cols).
Proof. by_decide. Qed.

Lemma display_pair c l : (c, l) ∈ display_cols -> c ∈ map fst display_cols /\ l = new_name display_cols c.
Proof.
  unfold display_cols. intros H.
  repeat (apply elem_of_cons in H as [[= -> ->]|H]; [split; [in_list | reflexivity]|]).
  by apply elem_of_nil in H.
Qed.

Lemma company_table_runs df :
  (forall c, c ∈ map fst display_cols -> c ∈ columns df) ->
  exists display,
    render_company_table df = Ok display
    /\ columns display = map snd display_cols
    /\ Forall2 (fun r d => forall c l, (c, l) ∈ display_cols -> get d l = get r c)
         (rows df) (rows display).
Proof.
  intros Hc. unfold render_company_table. rewrite (getitem_cols_in _ _ Hc), bind_ok.
  unfold rename. cbn [columns rows]. rewrite display_names.
  destruct (decide (NoDup (map snd display_cols))) as [Hnd|Hn];
    [|destruct Hn; apply display_names_NoDup].
  eexists. split; [done|]. split; [done|]. cbn [rows]. rewrite map_map.
  induction (rows df) as [|r rs IH]; constructor; [|done].
  intros c l [Hin ->]%display_pair.
  rewrite get_renamed; [|by rewrite display_names|done].
  rewrite get_restrict. by destruct (decide (c ∈ map fst display_cols)).
Qed.

Lemma company_table_raises df c :
  c ∈ map fst display_cols -> c ∉ columns df ->
  exists c', c' ∈ map fst display_cols /\ (c' ∉ columns df)
             /\ render_company_table df = Raise (KeyError c').
Proof.
  intros Hc Hn. unfold render_company_table, pd.getitem_cols.
  destruct (filter (fun c => c ∉ columns df) (map fst display_cols)) as [|c' l] eqn:E.
  - assert (c ∈ filter (fun c => c ∉ columns df) (map fst display_cols)) as Hin
      by by apply list_elem_of_filter.
    rewrite E in Hin. by apply elem_of_nil in Hin.
  - assert (c' ∈ filter (fun c => c ∉ columns df) (map fst display_cols)) as Hin
      by (rewrite E; left).
    apply list_elem_of_filter in Hin as [? ?]. by exists c'.
Qed.

(** X19: the ranked table.  When the table has the nine columns it
    reads, [render_company_table] returns them under their nine headings, in
    that order, one row per input row in the same order and each cell
    unchanged; when one of the nine is missing it raises a [KeyError] naming
    a missing column. *)
Theorem company_table_shape df :
  ((forall c, c ∈ map fst display_cols -> c ∈ columns df) ->
   exists display,
     render_company_table df = Ok display
     /\ columns display = map snd display_cols
     /\ Forall2 (fun r d => forall c l, (c, l) ∈ display_cols -> get d l = get r c)
          (rows df) (rows display))
  /\ (forall c, c ∈ map fst display_cols -> (c ∉ columns df) ->
      exists c', c' ∈ map fst display_cols /\ (c' ∉ columns df)
                 /\ render_company_table df = Raise (KeyError c')).
Proof. split; [apply company_table_runs | apply company_table_raises]. Qed.

(** [demo]'s master table as displayed; its Hiring table cannot be. *)
Definition demo_display : DataFrame :=
  Eval vm_compute in
    match render_company_table demo_master with
    | Ok df => df
    | Raise _ => {| columns := []; rows := [] |}
    end.

Lemma company_table_shape_witness :
  (exists display,
     render_company_table demo_master = Ok display
     /\ columns display = map snd display_cols
     /\ Forall2 (fun r d => forall c l, (c, l) ∈ display_cols -> get d l = get r c)
          (rows demo_master) (rows display))
  /\ map (fun d => get d "Company") (rows demo_display)
     = [PyStr "Beta"; PyStr "Acme"; PyStr "Gamma"]
  /\ exists c', render_company_table demo_hiring = Raise (KeyError c').
Proof.
  split; [|split].
  - apply (proj1 (company_table_shape demo_master)). apply Forall_forall. by_decide.
  - vm_compute. reflexivity.
  - destruct (proj2 (company_table_shape demo_hiring) "momentum_tier")
      as (c' & _ & _ & H); [in_list | by_decide |].
    by exists c'.
Defined.

(** X20: on every master table built from a Hiring table with
    [hiring_score] and [hiring_tier] and without the momentum and industry
    columns, a name being in Hiring or Spine, and on every selection the
    filters make of it, the ranked table can be drawn. *)
Theorem company_table_of_master data master min_score tiers industries stages search filtered :
  prepare_master_table data = Ok master ->
  apply_filters master min_score tiers industries stages search = Ok filtered ->
  "name" ∈ columns (Data.hiring data) \/ "name" ∈ columns (Data.spine data) ->
  "hiring_score" ∈ columns (Data.hiring data) ->
  "hiring_tier" ∈ columns (Data.hiring data) ->
  "momentum_score" ∉ columns (Data.hiring data) ->
  "momentum_tier" ∉ columns (Data.hiring data) ->
  "primary_industry" ∉ columns (Data.hiring data) ->
  exists display,
    render_company_table filtered = Ok display
    /\ columns display = map snd display_cols
    /\ Forall2 (fun r d => forall c l, (c, l) ∈ display_cols -> get d l = get r c)
         (rows filtered) (rows display).
Proof.
  intros Hrun Hf Hname Hscore Htier Hms Hmt Hpi.
  destruct (master_rows _ _ Hrun) as (_ & _ & Hcols).
  destruct (master_rows_derived _ _ Hrun) as (_ & _ & Hn & _ & Hrank & _).
  apply apply_filters_Ok in Hf as (_ & _ & Hc & _).
  apply company_table_runs. rewrite Hc.
  intros c Hin. cbn in Hin.
  repeat (apply elem_of_cons in Hin as [->|Hin]).
  - exact Hrank.
  - by apply Hn.
  - apply (mc_hiring _ _ Hcols); [done | by_decide].
  - apply (mc_hiring _ _ Hcols); [done | by_decide].
  - apply (mc_scores _ _ Hcols); [in_list | done].
  - apply (mc_scores _ _ Hcols); [in_list | done].
  - by apply (mc_industry _ _ Hcols).
  - apply (mc_label _ _ Hcols).
  - apply (mc_display _ _ Hcols).
  - by apply elem_of_nil in Hin.
Qed.

Lemma company_table_of_master_witness :
  exists display,
    render_company_table demo_high_saas = Ok display
    /\ columns display = map snd display_cols
    /\ Forall2 (fun r d => forall c l, (c, l) ∈ display_cols -> get d l = get r c)
         (rows demo_high_saas) (rows display).
Proof.
  apply (company_table_of_master demo demo_master 50 ["High"] ["SaaS"; "AI"] [] ""
           demo_high_saas demo_run demo_high_saas_run); by_decide.
Defined.

End RenderFacts.

(** ** The sidebar options *)

Module SidebarFacts.
Import PdFacts Pipeline Spec Examples ExamplesFacts MasterFacts FilterFacts FilterLaws Render.

Lemma elem_of_unique l x : x ∈ unique l <-> x ∈ l.
Proof.
  induction l as [|a l IH]; [done|]. cbn [unique].
  rewrite !elem_of_cons, elem_of_List_filter, IH. split.
  - intros [->|[? _]]; auto.
  - intros [->|Hx]; [by left|].
    destruct (String.eqb a x) eqn:E; [left; symmetry; by apply String.eqb_eq|].
    by right.
Qed.

Lemma NoDup_List_filter {A} (p : A -> bool) (l : list A) : NoDup l -> NoDup (List.filter p l).
Proof.
  induction 1 as [|a l Ha Hl IH]; cbn; [constructor|].
  destruct (p a); [|done]. constructor; [|done].
  by intros [? _]%elem_of_List_filter.
Qed.

Lemma NoDup_unique l : NoDup (unique l).
Proof.
  induction l as [|a l IH]; cbn [unique]; constructor.
  - intros [_ H]%elem_of_List_filter. by rewrite String.eqb_refl in H.
  - by apply NoDup_List_filter.
Qed.

#[local] Instance str_le_total : Total str_le.
Proof. intros a b. apply String.leb_total. Qed.

Lemma sorted_spec l :
  (forall x, x ∈ sorted l <-> x ∈ l) /\ (NoDup l -> NoDup (sorted l))
  /\ Sorted str_le (sorted l).
Proof.
  unfold sorted. split; [|split].
  - intros x. by rewrite merge_sort_Permutation.
  - intros H. by rewrite merge_sort_Permutation.
  - apply (Sorted_merge_sort str_le).
Qed.

(** The text of a cell. *)
Definition text_of (v : cell) : string :=
  match v with PyStr x => x | _ => "" end.

Lemma List_filter_all {A} (p : A -> bool) (l : list A) :
  (forall x, x ∈ l -> p x = true) -> List.filter p l = l.
Proof.
  induction l as [|a l IH]; intros H; cbn; [done|].
  rewrite (H a) by left. f_equal. apply IH. intros x Hx. apply H. by right.
Qed.

(** The options of a column whose cells are text or missing: the distinct
    texts, sorted. *)
Lemma options_text df col :
  col ∈ columns df ->
  (forall r, r ∈ rows df -> isna (get r col) = true \/ exists s, get r col = PyStr s) ->
  exists opts,
    options df col = Ok opts
    /\ (forall s, s ∈ opts <-> exists r, r ∈ rows df /\ get r col = PyStr s)
    /\ NoDup opts /\ Sorted str_le opts.
Proof.
  intros Hc Hcells. unfold options. rewrite (getitem_in _ _ Hc), bind_ok.
  rewrite (traverse_total _ text_of).
  - rewrite bind_ok. eexists. split; [done|].
    destruct (sorted_spec (unique (map text_of (dropna (map (fun r => get r col) (rows df))))))
      as (Hin & Hnd & Hs).
    split; [|split; [apply Hnd, NoDup_unique | exact Hs]].
    intros s. rewrite Hin, elem_of_unique, elem_of_map. split.
    + intros (v & -> & Hv). unfold dropna in Hv.
      apply elem_of_List_filter in Hv as [(r & -> & Hr)%elem_of_map Hna].
      exists r. split; [done|]. destruct (Hcells r Hr) as [Hn|[s ->]]; [|done].
      by rewrite Hn in Hna.
    + intros (r & Hr & Hs'). exists (PyStr s). split; [done|]. unfold dropna.
      apply elem_of_List_filter. split; [|done]. apply elem_of_map. exists r. by rewrite Hs'.
  - intros v Hv. unfold dropna in Hv.
    apply elem_of_List_filter in Hv as [(r & -> & Hr)%elem_of_map Hna].
    destruct (Hcells r Hr) as [Hn|[s ->]]; [by rewrite Hn in Hna | done].
Qed.

(** X21: the stage options offered in the sidebar are the stage labels
    that occur in the master table: they are among the six labels, distinct
    and sorted, and selecting all of them returns the master table
    unchanged. *)
Theorem all_stages_cover_master data master :
  prepare_master_table data = Ok master ->
  exists opts,
    all_stages master = Ok opts
    /\ (forall s, s ∈ opts <->
          exists m, m ∈ rows master /\ get m "funding_stage_label" = PyStr s)
    /\ (forall s, s ∈ opts -> s ∈ stage_labels)
    /\ NoDup opts /\ Sorted str_le opts
    /\ apply_filters master 0 [] [] opts "" = Ok master.
Proof.
  intros Hrun. destruct (master_rows _ _ Hrun) as (_ & Hbwd & Hcols).
  assert (Hlab : forall m, m ∈ rows master ->
            exists s, get m "funding_stage_label" = PyStr s /\ s ∈ stage_labels).
  { intros m Hm. destruct (Hbwd m Hm) as (h & _ & T).
    destruct (tr_label _ _ _ T) as [code ->]. apply stage_label_in. }
  destruct (options_text master "funding_stage_label" (mc_label _ _ Hcols))
    as (opts & Hopts & Hin & Hnd & Hs).
  { intros m Hm. right. destruct (Hlab m Hm) as (s & ? & _). by exists s. }
  exists opts. split; [exact Hopts|]. split; [exact Hin|]. split.
  { intros s (m & Hm & E)%Hin. destruct (Hlab m Hm) as (s' & E' & ?). congruence. }
  split; [done|]. split; [done|].
  rewrite (apply_filters_runs master 0 [] [] opts "" None); [|repeat split; try done|done].
  - f_equal. apply frame_eq; [done|]. cbn [rows]. apply List_filter_all.
    intros m Hm. unfold row_test. cbn [andb Z.ltb Z.compare].
    destruct opts as [|o opts]; [done|]. rewrite andb_true_r.
    apply member_test_spec. destruct (Hlab m Hm) as (s & E & _).
    exists s. split; [done|]. apply Hin. by exists m.
  - intros _. apply (mc_label _ _ Hcols).
Qed.

(** [demo]: the stages offered are Series A and Unknown. *)
Lemma all_stages_cover_master_witness :
  all_stages demo_master = Ok ["Series A"; "Unknown"]
  /\ apply_filters demo_master 0 [] [] ["Series A"; "Unknown"] "" = Ok demo_master.
Proof.
  assert (E : all_stages demo_master = Ok ["Series A"; "Unknown"])
    by (vm_compute; reflexivity).
  split; [exact E|].
  destruct (all_stages_cover_master demo demo_master demo_run)
    as (opts & Hopts & _ & _ & _ & _ & H).
  rewrite E in Hopts. injection Hopts as <-. exact H.
Defined.

(** X22: the industry options are the industries that occur in the
    master table, among the thirteen labels, distinct and sorted; selecting
    all of them keeps exactly the rows that have an industry, which are the
    rows of the companies Features knows. *)
Theorem all_industries_hide_unknown data master :
  prepare_master_table data = Ok master ->
  "primary_industry" ∉ columns (Data.hiring data) ->
  exists opts,
    all_industries master = Ok opts
    /\ (forall s, s ∈ opts <->
          exists m, m ∈ rows master /\ get m "primary_industry" = PyStr s)
    /\ (forall s, s ∈ opts -> s ∈ industry_labels)
    /\ NoDup opts /\ Sorted str_le opts
    /\ (opts ≠ [] ->
        exists out,
          apply_filters master 0 [] opts [] "" = Ok out
          /\ columns out = columns master
          /\ rows out
             = List.filter (fun m => negb (isna (get m "primary_industry"))) (rows master)
          /\ forall m, m ∈ rows out <->
               m ∈ rows master
               /\ exists f, matches (Data.features data) (get m "company_id") f).
Proof.
  intros Hrun Hh. destruct (master_rows _ _ Hrun) as (_ & Hbwd & Hcols).
  pose proof (mc_industry _ _ Hcols Hh) as Hcol.
  assert (Hcell : forall m, m ∈ rows master ->
            (exists f s, matches (Data.features data) (get m "company_id") f
                         /\ get m "primary_industry" = PyStr s /\ s ∈ industry_labels)
            \/ (absent (Data.features data) (get m "company_id")
                /\ get m "primary_industry" = NaN)).
  { intros m Hm. destruct (Hbwd m Hm) as (h & _ & T).
    pose proof (tr_industry _ _ _ T Hh) as J. rewrite <- (tr_key _ _ _ T) in J.
    destruct J as [(f & Hf & ->) | [Habs ->]]; [left | by right].
    eexists f, _. split; [done|]. split; [done|]. apply derive_primary_industry_label. }
  destruct (options_text master "primary_industry" Hcol)
    as (opts & Hopts & Hin & Hnd & Hs).
  { intros m Hm. destruct (Hcell m Hm) as [(f & s & _ & -> & _) | [_ ->]];
      [right; by exists s | by left]. }
  exists opts. split; [exact Hopts|]. split; [exact Hin|]. split.
  { intros s (m & Hm & E)%Hin.
    destruct (Hcell m Hm) as [(f & s' & _ & E' & ?) | [_ E']]; rewrite E in E';
      [by injection E' as -> | discriminate]. }
  split; [done|]. split; [done|]. intros Hne.
  assert (Htest : forall m, m ∈ rows master ->
            row_test 0 [] opts [] None m = negb (isna (get m "primary_industry"))).
  { intros m Hm. unfold row_test. destruct opts as [|o opts]; [done|].
    cbn [andb Z.ltb Z.compare]. rewrite !andb_true_r.
    destruct (Hcell m Hm) as [(f & s & _ & E & _) | [_ E]].
    - rewrite E. cbn [isna negb]. apply member_test_spec. exists s. split; [done|].
      apply Hin. by exists m.
    - rewrite E. unfold member_test. by rewrite E. }
  eexists. split.
  { apply (apply_filters_runs master 0 [] opts [] "" None); [repeat split; try done|done]. }
  cbn [columns rows]. split; [done|].
  assert (Hrows : List.filter (row_test 0 [] opts [] None) (rows master)
                  = List.filter (fun m => negb (isna (get m "primary_industry")))
                      (rows master)).
  { apply filter_ext_in. intros m Hm. apply Htest. by apply list_elem_of_In. }
  rewrite Hrows. split; [done|].
  intros m. rewrite elem_of_List_filter. split.
  - intros [Hm Hna]. split; [done|].
    destruct (Hcell m Hm) as [(f & s & Hf & _) | [_ E]]; [by exists f|].
    by rewrite E in Hna.
  - intros [Hm [f Hf]]. split; [done|].
    destruct (Hcell m Hm) as [(f' & s & _ & -> & _) | [Habs _]]; [done|].
    destruct Hf as [Hr Hk]. by rewrite (Habs f Hr) in Hk.
Qed.

(** [demo]: with both offered industries selected, company c3, which
    Features does not list, is gone. *)
Definition demo_with_industry : DataFrame :=
  Eval vm_compute in
    match apply_filters demo_master 0 [] ["Other"; "SaaS"] [] "" with
    | Ok df => df
    | Raise _ => {| columns := []; rows := [] |}
    end.

Lemma all_industries_hide_unknown_witness :
  all_industries demo_master = Ok ["Other"; "SaaS"]
  /\ map (fun m => get m "company_id") (rows demo_with_industry) = [PyStr "c2"; PyStr "c1"]
  /\ exists out,
       apply_filters demo_master 0 [] ["Other"; "SaaS"] [] "" = Ok out
       /\ forall m, m ∈ rows out <->
            m ∈ rows demo_master
            /\ exists f, matches demo_features (get m "company_id") f.
Proof.
  assert (E : all_industries demo_master = Ok ["Other"; "SaaS"])
    by (vm_compute; reflexivity).
  split; [exact E|]. split; [vm_compute; reflexivity|].
  destruct (all_industries_hide_unknown demo demo_master demo_run ltac:(by_decide))
    as (opts & Hopts & _ & _ & _ & _ & H).
  rewrite E in Hopts. injection Hopts as <-.
  destruct (H ltac:(done)) as (out & Hout & _ & _ & Hrows). by exists out.
Defined.

End SidebarFacts.

(** ** The company selected for the detail view *)

Module SelectionFacts.
Import PdFacts Pipeline Spec Examples ExamplesFacts MasterFacts FilterFacts FilterLaws.
Import NumFacts MasterShape Render.

Lemma xnum_compare_refl x : xnum_compare x x = Eq.
Proof. destruct x; try done. cbn. apply Z.compare_refl. Qed.

Lemma xnum_eq_trans x y z :
  xnum_compare x y = Eq -> xnum_compare y z = Eq -> xnum_compare x z = Eq.
Proof.
  destruct x as [|m1 e1|], y as [|m2 e2|], z as [|m3 e3|]; try done.
  set (K := Z.min e1 (Z.min e2 e3)).
  rewrite (xnum_compare_scale m1 e1 m2 e2 K), (xnum_compare_scale m2 e2 m3 e3 K),
    (xnum_compare_scale m1 e1 m3 e3 K) by lia.
  rewrite !Z.compare_eq_iff. congruence.
Qed.

(** When two cells are equal. *)
Lemma py_eq_spec a b :
  py_eq a b = true <->
  (exists s, a = PyStr s /\ b = PyStr s) \/ (a = PyNone /\ b = PyNone)
  \/ (exists x y, num_of_cell a = Some x /\ num_of_cell b = Some y
                  /\ xnum_compare x y = Eq).
Proof.
  split.
  - unfold py_eq. destruct a as [|s|ba|za|fa], b as [|s'|bb|zb|fb]; try done;
      try (intros ->%String.eqb_eq; left; by exists s');
      try (intros _; right; by left);
      try (destruct (num_of_cell _) as [x|] eqn:Ex; [|done];
           destruct (num_of_cell (_ : cell)) as [y|] eqn:Ey in |- *; [|done];
           destruct (xnum_compare x y) eqn:C; try done; intros _; right; right;
           by exists x, y).
  - intros [(s & -> & ->) | [[-> ->] | (x & y & Hx & Hy & C)]].
    + cbn. apply String.eqb_refl.
    + done.
    + unfold py_eq. destruct a as [|s|ba|za|fa]; try done;
        destruct b as [|s'|bb|zb|fb]; try done; by rewrite Hx, Hy, C.
Qed.

Lemma isna_num v x : num_of_cell v = Some x -> isna v = false.
Proof. by destruct v as [| | | |[]]. Qed.

Lemma py_eq_refl v : isna v = false -> py_eq v v = true.
Proof.
  intros Hna. apply py_eq_spec. destruct v as [|s|b|z|f]; try done.
  - left. by exists s.
  - right. right. eexists _, _. split; [done|]. split; [done|]. apply xnum_compare_refl.
  - right. right. eexists _, _. split; [done|]. split; [done|]. apply xnum_compare_refl.
  - right. right. destruct f; try done;
      (eexists _, _; split; [done|]; split; [done|]; apply xnum_compare_refl).
Qed.

Lemma py_eq_notna a b : py_eq a b = true -> isna a = isna b.
Proof.
  intros [(s & -> & ->) | [[-> ->] | (x & y & Hx & Hy & _)]]%py_eq_spec; try done.
  by rewrite (isna_num _ _ Hx), (isna_num _ _ Hy).
Qed.

Lemma py_eq_trans a b c : py_eq a b = true -> py_eq b c = true -> py_eq a c = true.
Proof.
  rewrite !py_eq_spec.
  intros [(s & -> & ->) | [[-> ->] | (x & y & Hx & Hy & C)]]
         [(s' & E & ->) | [[E ->] | (y' & z & Hy' & Hz & C')]]; try done.
  - injection E as <-. left. by exists s.
  - by right; left.
  - subst b. done.
  - subst b. done.
  - right. right. exists x, z. split; [done|]. split; [done|].
    rewrite Hy in Hy'. injection Hy' as <-. by apply (xnum_eq_trans x y z).
Qed.

Lemma key_match_refl v : pd.key_match v v = true.
Proof.
  unfold pd.key_match. destruct (isna v) eqn:E; [done|]. by rewrite py_eq_refl.
Qed.

Lemma key_match_trans a b c :
  pd.key_match a b = true -> pd.key_match b c = true -> pd.key_match a c = true.
Proof.
  unfold pd.key_match. rewrite !orb_true_iff, !andb_true_iff.
  intros [[Ha Hb] | Hab] [[Hb' Hc] | Hbc].
  - by left.
  - left. split; [done|]. by rewrite <- (py_eq_notna _ _ Hbc).
  - left. split; [|done]. by rewrite (py_eq_notna _ _ Hab).
  - right. by apply (py_eq_trans a b c).
Qed.

(** *** Dropping duplicates *)

Section FirstOfEach.
Context {A : Type} (same : A -> A -> bool).
Hypothesis same_refl : forall x, same x x = true.
Hypothesis same_trans : forall x y z, same x y = true -> same y z = true -> same x z = true.

Lemma first_of_each_sub l x : x ∈ first_of_each same l -> x ∈ l.
Proof.
  revert x. induction l as [|a l IH]; intros x; [done|]. cbn [first_of_each].
  intros [->|[Hx _]%elem_of_List_filter]%elem_of_cons; [by left|]. right. by apply IH.
Qed.

Lemma first_of_each_covers l x :
  x ∈ l -> exists y, y ∈ first_of_each same l /\ same y x = true.
Proof.
  induction l as [|a l IH]; [by intros ?%elem_of_nil|]. cbn [first_of_each].
  intros [->|Hx]%elem_of_cons.
  - exists a. split; [by left | apply same_refl].
  - destruct (IH Hx) as (y & Hy & Hyx). destruct (same a y) eqn:E.
    + exists a. split; [by left|]. by apply (same_trans a y x).
    + exists y. split; [|done]. right. apply elem_of_List_filter. by rewrite E.
Qed.
End FirstOfEach.

(** *** The items of [company_options] *)

Definition same_pair (r r' : gmap string cell) : bool :=
  forallb (fun c => pd.key_match (get r c) (get r' c)) ["company_id"; "name"].

Lemma same_pair_spec r r' :
  same_pair r r' = true <->
  pd.key_match (get r "company_id") (get r' "company_id") = true
  /\ pd.key_match (get r "name") (get r' "name") = true.
Proof. unfold same_pair. cbn [forallb]. rewrite !andb_true_iff. tauto. Qed.

Lemma company_options_Ok filtered items :
  company_options filtered = Ok items ->
  "company_id" ∈ columns filtered /\ "name" ∈ columns filtered
  /\ items = map (fun r => (get r "name", get r "company_id"))
               (first_of_each same_pair
                  (map (restrict ["company_id"; "name"]) (rows filtered))).
Proof.
  unfold company_options.
  intros (cn & (Hc & Hcols & Hrows)%getitem_cols_Ok & H)%bind_Ok.
  apply bind_Ok in H as (names & [_ ->]%getitem_Ok & H).
  apply bind_Ok in H as (ids & [_ ->]%getitem_Ok & [= <-]).
  split; [apply Hc; in_list|]. split; [apply Hc; in_list|].
  cbn [rows drop_duplicates]. rewrite Hcols, Hrows. fold same_pair.
  induction (first_of_each same_pair _) as [|r rs IH]; [done|]. cbn. by rewrite IH.
Qed.

Lemma company_options_runs filtered :
  "company_id" ∈ columns filtered -> "name" ∈ columns filtered ->
  exists items, company_options filtered = Ok items.
Proof.
  intros Hc Hn. unfold company_options. rewrite getitem_cols_in.
  - rewrite bind_ok. cbv zeta. rewrite !getitem_in; [by eexists | cbn; in_list..].
  - intros c Hin. repeat (apply elem_of_cons in Hin as [->|Hin]; [done|]).
    by apply elem_of_nil in Hin.
Qed.

Lemma py_eq_str k x : py_eq k (PyStr x) = true -> k = PyStr x.
Proof.
  intros [(s & -> & [= ->]) | [[_ ?] | (a & b & _ & ? & _)]]%py_eq_spec; done.
Qed.

(** *** Reading the dict *)

Lemma dict_getitem_Ok items key v :
  dict_getitem items key = Ok v -> (PyStr key, v) ∈ items.
Proof.
  unfold dict_getitem. destruct (List.find _ (rev items)) as [[k v']|] eqn:E; [|done].
  intros [= <-]. apply find_some in E as [Hin Hk]. apply py_eq_str in Hk. cbn in Hk.
  subst k. apply list_elem_of_In. by apply in_rev.
Qed.

Lemma dict_getitem_has items key v :
  (PyStr key, v) ∈ items -> exists v', dict_getitem items key = Ok v'.
Proof.
  intros Hin. unfold dict_getitem.
  destruct (List.find _ (rev items)) as [kv|] eqn:E; [by eexists|].
  assert (In (PyStr key, v) (rev items)) as Hin'
    by (apply in_rev; rewrite rev_involutive; by apply list_elem_of_In).
  apply (find_none _ _ E) in Hin'. cbn in Hin'. by rewrite String.eqb_refl in Hin'.
Qed.

Lemma dict_getitem_last pre key v post :
  (forall kv, kv ∈ post -> py_eq (fst kv) (PyStr key) = false) ->
  dict_getitem (pre ++ (PyStr key, v) :: post) key = Ok v.
Proof.
  intros Hpost. unfold dict_getitem. rewrite rev_app_distr. cbn [rev].
  rewrite <- app_assoc. cbn [app].
  assert (forall l l' : list (cell * cell),
            (forall kv, kv ∈ l -> py_eq (fst kv) (PyStr key) = false) ->
            List.find (fun kv => py_eq (fst kv) (PyStr key)) (l ++ l')
            = List.find (fun kv => py_eq (fst kv) (PyStr key)) l') as Hskip.
  { induction l as [|a l IH]; intros l' Hl; [done|]. cbn.
    rewrite (Hl a) by left. apply IH. intros kv Hkv. apply Hl. by right. }
  rewrite Hskip.
  - cbn. by rewrite String.eqb_refl.
  - intros kv Hkv. apply Hpost. apply list_elem_of_In, in_rev, list_elem_of_In in Hkv. done.
Qed.

(** *** The row shown *)

Lemma detail_row_found master id r :
  "company_id" ∈ columns master -> r ∈ rows master ->
  get r "company_id" = id -> isna id = false ->
  exists row, detail_row master id = Ok (Some row)
              /\ row ∈ rows master /\ py_eq (get row "company_id") id = true.
Proof.
  intros Hc Hr Hid Hna. unfold detail_row. rewrite (getitem_in _ _ Hc), bind_ok.
  unfold eq_scalar. rewrite map_map, loc_mask_map. cbn [rows].
  set (p := fun x : gmap string cell =>
              negb (isna (get x "company_id")) && negb (isna id)
              && py_eq (get x "company_id") id).
  assert (Hin : r ∈ List.filter p (rows master)).
  { apply elem_of_List_filter. split; [done|]. unfold p.
    by rewrite Hid, Hna, py_eq_refl. }
  destruct (List.filter p (rows master)) as [|row rest] eqn:E;
    [by apply elem_of_nil in Hin|].
  exists row. split; [done|].
  assert (row ∈ List.filter p (rows master)) as [Hrow Hp]%elem_of_List_filter
    by (rewrite E; left).
  split; [done|]. unfold p in Hp. by apply andb_prop in Hp as [_ ?].
Qed.

Lemma same_pair_refl r : same_pair r r = true.
Proof. apply same_pair_spec. split; apply key_match_refl. Qed.

Lemma same_pair_trans x y z :
  same_pair x y = true -> same_pair y z = true -> same_pair x z = true.
Proof.
  rewrite !same_pair_spec. intros [A1 A2] [B1 B2].
  split; [by apply (key_match_trans _ (get y "company_id"))
         | by apply (key_match_trans _ (get y "name"))].
Qed.

Lemma restrict_pair r :
  get (restrict ["company_id"; "name"] r) "company_id" = get r "company_id"
  /\ get (restrict ["company_id"; "name"] r) "name" = get r "name".
Proof.
  rewrite !get_restrict.
  destruct (decide ("company_id" ∈ ["company_id"; "name"])) as [|n]; [|destruct n; in_list].
  destruct (decide ("name" ∈ ["company_id"; "name"])) as [|n]; [|destruct n; in_list].
  done.
Qed.

(** X23: the names offered for the detail view are the names of the
    rows shown.  Choosing one finds the id of a row shown under that name,
    the last such row when several companies share the name; and when that
    id is not missing the detail view finds a row of that company in the
    master table, so that [.iloc[0]] does not fail. *)
Theorem selected_company_is_found data master min_score tiers industries stages search
    filtered :
  prepare_master_table data = Ok master ->
  apply_filters master min_score tiers industries stages search = Ok filtered ->
  "name" ∈ columns (Data.hiring data) \/ "name" ∈ columns (Data.spine data) ->
  exists items,
    company_options filtered = Ok items
    /\ forall selected,
         ((exists r, r ∈ rows filtered /\ get r "name" = PyStr selected)
          <-> exists id, dict_getitem items selected = Ok id)
         /\ (forall pre id post,
               items = (pre ++ (PyStr selected, id) :: post)%list ->
               (forall kv, kv ∈ post -> fst kv ≠ PyStr selected) ->
               dict_getitem items selected = Ok id)
         /\ forall id, dict_getitem items selected = Ok id ->
              (exists r, r ∈ rows filtered /\ get r "name" = PyStr selected
                         /\ get r "company_id" = id)
              /\ (isna id = false ->
                  exists row, detail_row master id = Ok (Some row)
                              /\ row ∈ rows master
                              /\ py_eq (get row "company_id") id = true).
Proof.
  intros Hrun Hf Hname.
  destruct (master_rows_derived _ _ Hrun) as (_ & _ & Hn & _).
  pose proof (hiring_has_key _ _ Hrun) as Hcid.
  destruct (master_rows _ _ Hrun) as (_ & _ & Hcols).
  assert (Hcm : "company_id" ∈ columns master)
    by (apply (mc_hiring _ _ Hcols); [done | by_decide]).
  apply apply_filters_exact in Hf as (atoms & _ & ->).
  set (filtered := {| columns := _; rows := _ |}).
  destruct (company_options_runs filtered) as [items Hitems]; [done | by apply Hn|].
  exists items. split; [done|].
  apply company_options_Ok in Hitems as (_ & _ & ->).
  set (kept := first_of_each same_pair _).
  assert (Hsub : forall y, y ∈ kept ->
            exists r, r ∈ rows filtered /\ get y "name" = get r "name"
                      /\ get y "company_id" = get r "company_id").
  { intros y Hy. apply first_of_each_sub in Hy.
    apply elem_of_map in Hy as (r & -> & Hr). exists r.
    destruct (restrict_pair r) as [-> ->]. done. }
  assert (Hfound : forall selected id,
            dict_getitem (map (fun r => (get r "name", get r "company_id")) kept) selected
              = Ok id ->
            exists r, r ∈ rows filtered /\ get r "name" = PyStr selected
                      /\ get r "company_id" = id).
  { intros selected id Hid. apply dict_getitem_Ok in Hid.
    apply elem_of_map in Hid as (y & [= Hy1 Hy2] & Hy).
    destruct (Hsub y Hy) as (r & Hr & E1 & E2). exists r. split; [done|].
    by rewrite <- E1, <- E2. }
  intros selected. split; [|split].
  - split.
    + intros (r & Hr & Hs).
      destruct (first_of_each_covers same_pair same_pair_refl same_pair_trans
                  (map (restrict ["company_id"; "name"]) (rows filtered))
                  (restrict ["company_id"; "name"] r)) as (y & Hy & Hsame).
      { apply elem_of_map. by exists r. }
      apply same_pair_spec in Hsame as [_ Hk].
      destruct (restrict_pair r) as [_ E]. rewrite E, Hs in Hk.
      apply key_match_str in Hk.
      apply (dict_getitem_has _ _ (get y "company_id")).
      apply elem_of_map. exists y. by rewrite Hk.
    + intros [id Hid]. destruct (Hfound _ _ Hid) as (r & Hr & E & _). by exists r.
  - intros pre id post E Hpost. rewrite E. apply dict_getitem_last.
    intros kv Hkv. destruct (py_eq (fst kv) (PyStr selected)) eqn:Ek; [|done].
    apply py_eq_str in Ek. by destruct (Hpost kv Hkv).
  - intros id Hid. destruct (Hfound _ _ Hid) as (r & Hr & E1 & E2).
    split; [by exists r|]. intros Hna.
    apply (detail_row_found master id r); try done.
    unfold filtered in Hr. cbn [rows] in Hr.
    by apply elem_of_List_filter in Hr as [? _].
Qed.

(** In [demo], choosing Acme shows company c1.  In a table where two
    companies are called Acme, choosing Acme finds the second. *)
Definition demo_items : list (cell * cell) :=
  Eval vm_compute in
    match company_options demo_master with
    | Ok items => items
    | Raise _ => []
    end.

Definition twins : DataFrame :=
  {| columns := ["company_id"; "name"];
     rows := [ row_of [("company_id", PyStr "c1"); ("name", PyStr "Acme")];
               row_of [("company_id", PyStr "c9"); ("name", PyStr "Acme")] ] |}.

Lemma selected_company_is_found_witness :
  dict_getitem demo_items "Acme" = Ok (PyStr "c1")
  /\ (exists row, detail_row demo_master (PyStr "c1") = Ok (Some row)
                  /\ row ∈ rows demo_master
                  /\ py_eq (get row "company_id") (PyStr "c1") = true)
  /\ (items ← company_options twins; dict_getitem items "Acme") = Ok (PyStr "c9").
Proof.
  assert (E : company_options demo_master = Ok demo_items) by (vm_compute; reflexivity).
  assert (G : dict_getitem demo_items "Acme" = Ok (PyStr "c1")) by (vm_compute; reflexivity).
  split; [exact G|]. split; [|vm_compute; reflexivity].
  destruct (selected_company_is_found demo demo_master 0 [] [] [] "" demo_master demo_run)
    as (items & Hitems & H); [reflexivity | by_decide |].
  rewrite E in Hitems. injection Hitems as <-.
  destruct (H "Acme") as (_ & _ & Hid). destruct (Hid _ G) as [_ Hrow]. by apply Hrow.
Defined.

End SelectionFacts.

(** ** Loading: all five tables or none *)

Module LoaderFacts.
Import Loader.

(** X24: [load_all_data] returns a bundle exactly when each of the five
    reads succeeds, the three CSV tables through the CSV reader and Features
    and Spine through the Parquet reader, and then the bundle holds the five
    tables read; when it fails its error is the error of one of the reads,
    and a failure of the first read is the failure of the whole. *)
Theorem load_all_or_nothing {Body : Type}
    (list_objects_v2 : string -> string -> result (list string))
    (get_object : string -> string -> result Body)
    (pd_read_csv pd_read_parquet : Body -> result DataFrame) :
  let csv := RemoteReader.read_csv_from_s3 list_objects_v2 get_object pd_read_csv in
  let parquet := RemoteReader.read_parquet_from_s3 list_objects_v2 get_object pd_read_parquet in
  let load := load_all_data list_objects_v2 get_object pd_read_csv pd_read_parquet in
  (forall bundle,
     load = Ok bundle <->
     csv "modeling/company_scores.csv" = Ok (Data.scores bundle)
     /\ csv "modeling/hiring_friendliness_scores.csv" = Ok (Data.hiring bundle)
     /\ parquet "modeling/features.parquet" = Ok (Data.features bundle)
     /\ csv "modeling/feature_metadata.csv" = Ok (Data.metadata bundle)
     /\ parquet "cleaned/spine_cleaned.parquet" = Ok (Data.spine bundle))
  /\ (forall e,
        load = Raise e ->
        csv "modeling/company_scores.csv" = Raise e
        \/ csv "modeling/hiring_friendliness_scores.csv" = Raise e
        \/ parquet "modeling/features.parquet" = Raise e
        \/ csv "modeling/feature_metadata.csv" = Raise e
        \/ parquet "cleaned/spine_cleaned.parquet" = Raise e)
  /\ (forall e, csv "modeling/company_scores.csv" = Raise e -> load = Raise e).
Proof.
  cbv zeta. unfold load_all_data.
  change (s3_key "scores") with (Ok (A:=string) "modeling/company_scores.csv").
  change (s3_key "hiring") with (Ok (A:=string) "modeling/hiring_friendliness_scores.csv").
  change (s3_key "features") with (Ok (A:=string) "modeling/features.parquet").
  change (s3_key "metadata") with (Ok (A:=string) "modeling/feature_metadata.csv").
  change (s3_key "spine") with (Ok (A:=string) "cleaned/spine_cleaned.parquet").
  cbn [mbind result_bind].
  set (csv := RemoteReader.read_csv_from_s3 list_objects_v2 get_object pd_read_csv).
  set (parquet := RemoteReader.read_parquet_from_s3 list_objects_v2 get_object pd_read_parquet).
  clearbody csv parquet.
  destruct (csv "modeling/company_scores.csv") as [t1|e1]; cbn;
    [|split; [intros b; split; [done | by intros [? _]]
             | split; [intros e [= ->]; auto | by intros e [= ->]]]].
  destruct (csv "modeling/hiring_friendliness_scores.csv") as [t2|e2];
    cbn;
    [|split; [intros b; split; [done | by intros (_ & ? & _)]
             | split; [intros e [= ->]; auto | by intros e [= ->]]]].
  destruct (parquet "modeling/features.parquet") as [t3|e3]; cbn;
    [|split; [intros b; split; [done | by intros (_ & _ & ? & _)]
             | split; [intros e [= ->]; auto | by intros e [= ->]]]].
  destruct (csv "modeling/feature_metadata.csv") as [t4|e4]; cbn;
    [|split; [intros b; split; [done | by intros (_ & _ & _ & ? & _)]
             | split; [intros e [= ->]; auto 6 | by intros e [= ->]]]].
  destruct (parquet "cleaned/spine_cleaned.parquet") as [t5|e5]; cbn;
    [|split; [intros b; split; [done | by intros (_ & _ & _ & _ & ?)]
             | split; [intros e [= ->]; auto 6 | by intros e [= ->]]]].
  split; [|split; [done | by intros e [=]]]. intros b. split.
  - by intros [= <-].
  - destruct b. cbn. by intros ([= ->] & [= ->] & [= ->] & [= ->] & [= ->]).
Qed.

End LoaderFacts.

(** ** A Hiring table that carries a Scores column *)

Module ClashFacts.
Import PdFacts Pipeline Spec Examples ExamplesFacts MasterFacts FilterFacts FilterLaws.

(** X25: when Hiring has a [momentum_tier] column of its own, the master
    table has no [momentum_tier] column (the merge with Scores renames both),
    and under a zero threshold every tier selection, the one [main] starts
    with included, fails with the [KeyError] of that column. *)
Theorem tier_column_in_hiring_breaks_filter data master :
  prepare_master_table data = Ok master ->
  "momentum_tier" ∈ columns (Data.hiring data) ->
  ("momentum_tier" ∉ columns master)
  /\ apply_filters master 0 all_tiers [] [] "" = Raise (KeyError "momentum_tier")
  /\ forall tiers industries stages search,
       tiers ≠ [] ->
       apply_filters master 0 tiers industries stages search
       = Raise (KeyError "momentum_tier").
Proof.
  intros Hrun Hh. destruct (master_rows _ _ Hrun) as (_ & _ & Hcols).
  assert (Hno : "momentum_tier" ∉ columns master).
  { intros Hm. by apply (mc_tier _ _ Hcols Hm). }
  assert (H : forall tiers industries stages search,
            tiers ≠ [] ->
            apply_filters master 0 tiers industries stages search
            = Raise (KeyError "momentum_tier")).
  { intros tiers industries stages search Ht.
    apply tiers_step_raises; [lia | done..]. }
  split; [done|]. split; [by apply H | exact H].
Qed.

(** [demo] with a tier column in Hiring. *)
Definition demo_clash : Data.Bundle :=
  {| Data.scores := demo_scores;
     Data.hiring :=
       {| columns := ["company_id"; "hiring_score"; "hiring_tier"; "hiring_rank"; "name";
                      "momentum_tier"];
          rows := map (fun r => <["momentum_tier" := PyStr "High"]> r) (rows demo_hiring) |};
     Data.features := demo_features; Data.metadata := demo_metadata;
     Data.spine := demo_spine |}.

Definition demo_clash_master : DataFrame :=
  Eval vm_compute in
    match prepare_master_table demo_clash with
    | Ok df => df
    | Raise _ => {| columns := []; rows := [] |}
    end.

Lemma demo_clash_run : prepare_master_table demo_clash = Ok demo_clash_master.
Proof. vm_compute. reflexivity. Qed.

Lemma tier_column_in_hiring_breaks_filter_witness :
  "momentum_tier_x" ∈ columns demo_clash_master
  /\ "momentum_tier_y" ∈ columns demo_clash_master
  /\ ("momentum_tier" ∉ columns demo_clash_master)
  /\ apply_filters demo_clash_master 0 all_tiers [] [] "" = Raise (KeyError "momentum_tier").
Proof.
  split; [by_decide|]. split; [by_decide|].
  destruct (tier_column_in_hiring_breaks_filter demo_clash demo_clash_master demo_clash_run)
    as (H1 & H2 & _); [by_decide|].
  split; [exact H1 | exact H2].
Defined.

End ClashFacts.

(** ** The funding stage chart *)

Module CountFacts.
Import PdFacts Pipeline Spec Examples ExamplesFacts MasterFacts FilterFacts FilterLaws.
Import Render SidebarFacts.

Definition occurrences (x : string) (l : list string) : nat :=
  length (List.filter (String.eqb x) l).

Lemma unique_filter (p : string -> bool) l :
  unique (List.filter p l) = List.filter p (unique l).
Proof.
  induction l as [|a l IH]; [done|]. cbn [List.filter unique].
  destruct (p a) eqn:E; cbn [unique List.filter].
  - rewrite IH. f_equal. rewrite !List_filter_filter. apply filter_ext.
    intros y. apply andb_comm.
  - rewrite IH, List_filter_filter. apply filter_ext_in. intros y _.
    destruct (String.eqb a y) eqn:Ey; [|done].
    apply String.eqb_eq in Ey as <-. by rewrite E.
Qed.

Lemma length_partition {A} (p : A -> bool) (l : list A) :
  length l = (length (List.filter p l) + length (List.filter (fun y => negb (p y)) l))%nat.
Proof. induction l as [|a l IH]; [done|]. cbn. destruct (p a); cbn; lia. Qed.

Lemma occurrences_filter x y l :
  String.eqb x y = false ->
  occurrences y (List.filter (fun z => negb (String.eqb x z)) l) = occurrences y l.
Proof.
  intros E. unfold occurrences. rewrite List_filter_filter. f_equal.
  apply filter_ext. intros z. destruct (String.eqb y z) eqn:Ez; [|by rewrite andb_false_r].
  apply String.eqb_eq in Ez as <-. by rewrite E.
Qed.

Lemma list_sum_cons x l : list_sum (x :: l) = (x + list_sum l)%nat.
Proof. reflexivity. Qed.

Lemma sum_occurrences n l :
  (length l <= n)%nat ->
  list_sum (map (fun x => occurrences x l) (unique l)) = length l.
Proof.
  revert l. induction n as [|n IH]; intros l Hn.
  - destruct l; [done | cbn in Hn; lia].
  - destruct l as [|a l]; [done|]. cbn [unique map].
    rewrite <- unique_filter, list_sum_cons.
    set (rest := List.filter (fun y => negb (String.eqb a y)) l).
    assert (Hsame : map (fun x => occurrences x (a :: l)) (unique rest)
                    = map (fun x => occurrences x rest) (unique rest)).
    { apply map_ext_in. intros y Hy%list_elem_of_In. rewrite elem_of_unique in Hy.
      unfold rest in Hy. apply elem_of_List_filter in Hy as [_ Hy].
      apply negb_true_iff in Hy. unfold rest. rewrite (occurrences_filter a y l Hy).
      unfold occurrences. cbn [List.filter]. rewrite String.eqb_sym, Hy. done. }
    rewrite Hsame, IH.
    + unfold occurrences. cbn [List.filter]. rewrite String.eqb_refl. cbn [length].
      pose proof (length_partition (String.eqb a) l). unfold rest. lia.
    + pose proof (length_partition (String.eqb a) l). unfold rest. cbn in Hn. lia.
Qed.

Lemma list_sum_perm l l' : l ≡ₚ l' -> list_sum l = list_sum l'.
Proof. induction 1; rewrite ?list_sum_cons; lia. Qed.

#[local] Instance more_frequent_total : Total more_frequent.
Proof. intros a b. unfold more_frequent. lia. Qed.

(** X26: the funding stage chart counts every row of the master table
    once: the counts add up to the number of rows, each stage appears once
    with the number of its rows, which is positive, and larger counts come
    first. *)
Theorem stage_counts_cover_master data master :
  prepare_master_table data = Ok master ->
  exists counts,
    stage_counts master = Ok counts
    /\ list_sum (map snd counts) = length (rows master)
    /\ NoDup (map fst counts)
    /\ Sorted more_frequent counts
    /\ forall s n, (s, n) ∈ counts ->
         s ∈ stage_labels /\ (0 < n)%nat
         /\ n = length (List.filter (member_test "funding_stage_label" [s]) (rows master)).
Proof.
  intros Hrun. destruct (master_rows _ _ Hrun) as (_ & Hbwd & Hcols).
  assert (Hlab : forall m, m ∈ rows master ->
            exists s, get m "funding_stage_label" = PyStr s /\ s ∈ stage_labels).
  { intros m Hm. destruct (Hbwd m Hm) as (h & _ & T).
    destruct (tr_label _ _ _ T) as [code ->]. apply stage_label_in. }
  unfold stage_counts, value_counts.
  rewrite (getitem_in _ _ (mc_label _ _ Hcols)), bind_ok.
  set (cells := map (fun r => get r "funding_stage_label") (rows master)).
  assert (Hall : forall v, v ∈ cells -> exists s, v = PyStr s /\ s ∈ stage_labels).
  { intros v (m & -> & Hm)%elem_of_map. by apply Hlab. }
  assert (dropna cells = cells) as ->.
  { apply List_filter_all. intros v Hv. by destruct (Hall v Hv) as (s & -> & _). }
  rewrite (traverse_total _ text_of);
    [|intros v Hv; by destruct (Hall v Hv) as (s & -> & _)].
  rewrite bind_ok. set (labels := map text_of cells).
  set (table := map (fun x => (x, length (List.filter (String.eqb x) labels)))
                  (unique labels)).
  assert (Hperm : merge_sort more_frequent table ≡ₚ table) by apply merge_sort_Permutation.
  eexists. split; [done|]. split; [|split; [|split]].
  - rewrite (list_sum_perm _ (map snd table)) by (by apply Permutation_map).
    unfold table. rewrite map_map. cbn [snd].
    change (list_sum (map (fun x => occurrences x labels) (unique labels))
            = length (rows master)).
    rewrite (sum_occurrences (length labels)) by done.
    unfold labels, cells. by rewrite !length_map.
  - assert (map fst (merge_sort more_frequent table) ≡ₚ map fst table) as ->
      by by apply Permutation_map.
    unfold table. rewrite map_map. cbn [fst]. rewrite map_id. apply NoDup_unique.
  - apply (Sorted_merge_sort more_frequent).
  - intros s n Hin. rewrite Hperm in Hin. unfold table in Hin.
    apply elem_of_map in Hin as (x & [= -> ->] & Hx). rewrite elem_of_unique in Hx.
    assert (Hn : length (List.filter (String.eqb x) labels)
                 = length (List.filter (member_test "funding_stage_label" [x])
                             (rows master))).
    { unfold labels, cells. rewrite map_map, filter_map_swap, length_map. f_equal.
      apply filter_ext_in. intros m Hm%list_elem_of_In.
      destruct (Hlab m Hm) as (s & E & _). unfold member_test. rewrite E. cbn [text_of].
      destruct (String.eqb x s) eqn:Ex.
      - apply String.eqb_eq in Ex as ->. symmetry. apply bool_decide_eq_true. by left.
      - symmetry. apply bool_decide_eq_false. intros ->%list_elem_of_singleton.
        by rewrite String.eqb_refl in Ex. }
    unfold labels in Hx. apply elem_of_map in Hx as (v & Hv & Hc).
    destruct (Hall v Hc) as (s & -> & Hs). cbn in Hv. subst x.
    split; [done|]. split; [|done].
    assert (s ∈ List.filter (String.eqb s) labels) as Hmem.
    { apply elem_of_List_filter. split; [|apply String.eqb_refl].
      unfold labels. apply elem_of_map. by exists (PyStr s). }
    destruct (List.filter (String.eqb s) labels); [by apply elem_of_nil in Hmem | cbn; lia].
Qed.

(** [demo]: two companies of unknown stage, one Series A. *)
Lemma stage_counts_cover_master_witness :
  stage_counts demo_master = Ok [("Unknown", 2%nat); ("Series A", 1%nat)]
  /\ list_sum (map snd [("Unknown", 2%nat); ("Series A", 1%nat)])
     = length (rows demo_master).
Proof.
  assert (E : stage_counts demo_master = Ok [("Unknown", 2%nat); ("Series A", 1%nat)])
    by (vm_compute; reflexivity).
  split; [exact E|].
  destruct (stage_counts_cover_master demo demo_master demo_run) as (counts & Hc & Hsum & _).
  rewrite E in Hc. injection Hc as <-. exact Hsum.
Defined.

End CountFacts.
